(** * CogniHaka: the Supply Chain Allocation & Policy Engine

    A shallow embedding of the computational core of
    [cog-front/src/components/InventoryOptimizer.tsx] (the revision that
    resolves demand through [getEffectiveDemand]): the CSV parser, the
    analysis reporter's per-warehouse pass, the festival planner and the
    optimizer with its two-pass production allocator; then the rest of
    the analysis report, the two memoised dashboard figures, the
    handlers that edit the record store, the factory cards, the supplier
    list and the multiplier, and the capacity alert of
    [OptimizationExtras.tsx].

    Modelling conventions.
    - A JavaScript [number] is [NaN], [+Infinity], [-Infinity] or a finite
      value, a rational kept in lowest terms.  The special values follow
      IEEE 754 as ECMAScript prescribes them ([0/0 = NaN], [x/0] an
      infinity for [x <> 0], [NaN] absorbing, comparisons with [NaN]
      false).  The sign of zero is not modelled.
    - [binary64] rounds a rational to the nearest binary64 value, ties to
      the even significand, with gradual underflow and overflow to an
      infinity.  The numbers read from text ([parseInt], [parseFloat]),
      the multiplier literals 1.45 and 1.35 and the arithmetic of the
      festival planner ([mul64], [sub64]) are rounded so: on binary64
      inputs the planner computes what the code does.  The other
      operations are
      computed exactly: sums, differences and products of integer counts
      of magnitude below [2 ^ 53] are the binary64 ones, while a
      quotient, or a product with one of the constants 1.2, 1.1, 0.8,
      0.5, 0.3, is the exact value where the code holds its 53-bit
      rounding before it rounds to an integer or to two decimals.
    - A JavaScript string is a [string] of code units below 256;
      [undefined] (an array read out of range) is [None].
    - React state is an explicit record holding the record store, the
      festival plan, the multiplier and the last optimization; a handler
      is a function from the state (and, where it reads the clock, the
      host) to the new state or artifact.  The uploaded file handle and
      the analysis report are not part of the record.
    - The [setTimeout] delays and the [isOptimizing]/[isAnalyzing] spinners
      carry no data and are left out. *)

From Stdlib Require Import ZArith QArith Qabs Qround Qreduction Qcanon Bool List Lia.
From Stdlib Require Import Ascii String DecimalString.
From Stdlib Require DecimalNat.
Import ListNotations.

Local Open Scope Z_scope.

(** ** JavaScript numbers *)

Module JS.

Inductive number : Type :=
| NaN
| PosInf
| NegInf
| Num (q : Q).

(** An integer-valued number. *)
Definition IZ (z : Z) : number := Num (inject_Z z).

(** A finite value with the given numerator and denominator, in lowest
    terms. *)
Definition lit (n : Z) (d : positive) : number := Num (Qred (n # d)).

Definition isNaN (x : number) : bool :=
  match x with NaN => true | _ => false end.

Definition isFinite (x : number) : bool :=
  match x with Num _ => true | _ => false end.

(** Sign of a finite value as a comparison with zero. *)
Definition Qsign (q : Q) : comparison := Qcompare q 0.

(** [-x]. *)
Definition neg (x : number) : number :=
  match x with
  | NaN => NaN
  | PosInf => NegInf
  | NegInf => PosInf
  | Num q => Num (Qred (- q))
  end.

(** [x + y]. *)
Definition add (x y : number) : number :=
  match x, y with
  | NaN, _ | _, NaN => NaN
  | PosInf, NegInf | NegInf, PosInf => NaN
  | PosInf, _ | _, PosInf => PosInf
  | NegInf, _ | _, NegInf => NegInf
  | Num a, Num b => Num (Qred (a + b))
  end.

(** [x - y]. *)
Definition sub (x y : number) : number :=
  match x, y with
  | NaN, _ | _, NaN => NaN
  | PosInf, PosInf | NegInf, NegInf => NaN
  | PosInf, _ | _, NegInf => PosInf
  | NegInf, _ | _, PosInf => NegInf
  | Num a, Num b => Num (Qred (a - b))
  end.

(** An infinity multiplied (or divided) by a finite value of sign [s];
    [flip] tells whether the infinity is the negative one. *)
Definition inf_by_sign (flip : bool) (s : comparison) : number :=
  match s, flip with
  | Eq, _ => NaN
  | Gt, false | Lt, true => PosInf
  | Gt, true | Lt, false => NegInf
  end.

(** [x * y]. *)
Definition mul (x y : number) : number :=
  match x, y with
  | NaN, _ | _, NaN => NaN
  | PosInf, PosInf | NegInf, NegInf => PosInf
  | PosInf, NegInf | NegInf, PosInf => NegInf
  | PosInf, Num b => inf_by_sign false (Qsign b)
  | NegInf, Num b => inf_by_sign true (Qsign b)
  | Num a, PosInf => inf_by_sign false (Qsign a)
  | Num a, NegInf => inf_by_sign true (Qsign a)
  | Num a, Num b => Num (Qred (a * b))
  end.

(** [x / y].  A finite value divided by zero is an infinity of its sign,
    and [0 / 0] is [NaN]. *)
Definition div (x y : number) : number :=
  match x, y with
  | NaN, _ | _, NaN => NaN
  | (PosInf | NegInf), (PosInf | NegInf) => NaN
  | PosInf, Num b => match Qsign b with Lt => NegInf | _ => PosInf end
  | NegInf, Num b => match Qsign b with Lt => PosInf | _ => NegInf end
  | Num _, (PosInf | NegInf) => Num 0
  | Num a, Num b =>
      match Qsign b with
      | Eq => match Qsign a with Eq => NaN | Gt => PosInf | Lt => NegInf end
      | _ => Num (Qred (a / b))
      end
  end.

(** The order of the relational operators; [None] when an operand is
    [NaN]. *)
Definition cmp (x y : number) : option comparison :=
  match x, y with
  | NaN, _ | _, NaN => None
  | PosInf, PosInf | NegInf, NegInf => Some Eq
  | PosInf, _ | _, NegInf => Some Gt
  | NegInf, _ | _, PosInf => Some Lt
  | Num a, Num b => Some (Qcompare a b)
  end.

(** [x < y]. *)
Definition lt (x y : number) : bool :=
  match cmp x y with Some Lt => true | _ => false end.

(** [x > y]. *)
Definition gt (x y : number) : bool := lt y x.

(** [x <= y]. *)
Definition le (x y : number) : bool :=
  match cmp x y with Some Lt | Some Eq => true | _ => false end.

(** [x >= y]. *)
Definition ge (x y : number) : bool := le y x.

(** [Math.min(x, y)]: [NaN] when an argument is [NaN]. *)
Definition Math_min (x y : number) : number :=
  match cmp x y with
  | None => NaN
  | Some Gt => y
  | Some _ => x
  end.

(** [Math.min(x, y, z)]. *)
Definition Math_min3 (x y z : number) : number := Math_min (Math_min x y) z.

(** [Math.max(x, y)]. *)
Definition Math_max (x y : number) : number :=
  match cmp x y with
  | None => NaN
  | Some Lt => y
  | Some _ => x
  end.

(** [Math.round(x)]: the integer nearest to [x], ties towards
    [+Infinity], that is [floor(x + 1/2)]. *)
Definition Math_round (x : number) : number :=
  match x with
  | Num q => IZ (Qfloor (q + (1 # 2)))
  | _ => x
  end.

(** [Number(x.toFixed(2))].  [toFixed] prints [NaN] as "NaN" and an
    infinity as "Infinity", which [Number] reads back unchanged; a finite
    value of magnitude at least [10^21] is printed in full; any other is
    rounded in magnitude to the nearest hundredth, ties upwards. *)
Definition toFixed2 (x : number) : number :=
  match x with
  | Num q =>
      if Qle_bool (inject_Z (10 ^ 21)) (Qabs q) then x
      else
        let n := Qfloor (Qabs q * inject_Z 100 + (1 # 2)) in
        match Qsign q with
        | Lt => Num (Qred (- n # 100))
        | _ => Num (Qred (n # 100))
        end
  | _ => x
  end.

(** Truthiness of a number: [0] and [NaN] are falsy. *)
Definition truthy (x : number) : bool :=
  match x with
  | NaN => false
  | Num q => negb (Qeq_bool q 0)
  | _ => true
  end.

(** [x || d] on numbers. *)
Definition or_default (x d : number) : number :=
  if truthy x then x else d.

(** ** Binary64

    [floor (log2 (a / d))] for positive [a] and [d]. *)
Definition log2_ratio (a d : Z) : Z :=
  let k := Z.log2 a - Z.log2 d in
  if a * 2 ^ Z.max 0 (- k) <? d * 2 ^ Z.max 0 k then k - 1 else k.

(** The integer nearest to [n / d], for [0 <= n] and [0 < d]; of two
    nearest integers, the even one. *)
Definition nearest_even (n d : Z) : Z :=
  let f := n / d in
  match 2 * (n mod d) ?= d with
  | Lt => f
  | Gt => f + 1
  | Eq => if Z.even f then f else f + 1
  end.

(** The Number value for the real [q]: the binary64 value nearest to it.
    With [e] the exponent of the last place of [q] (at least [-1074],
    that of the subnormal values) the significand [q / 2 ^ e] is rounded
    to the nearest integer [m], ties to even; the result is [m * 2 ^ e],
    or an infinity when that reaches [2 ^ 1024]. *)
Definition binary64 (q : Q) : number :=
  let a := Z.abs (Qnum q) in
  let d := Zpos (Qden q) in
  if a =? 0 then Num 0
  else
    let e := Z.max (log2_ratio a d - 52) (- 1074) in
    let m := nearest_even (a * 2 ^ Z.max 0 (- e)) (d * 2 ^ Z.max 0 e) in
    if 2 ^ 1024 <=? m * 2 ^ Z.max 0 e
    then (if Qnum q <? 0 then NegInf else PosInf)
    else Num (Qred (Z.sgn (Qnum q) * m * 2 ^ Z.max 0 e # Z.to_pos (2 ^ Z.max 0 (- e)))).

(** The value of the decimal literal [n / d] of the source text. *)
Definition float (n : Z) (d : positive) : number := binary64 (n # d).

(** [x * y] as binary64 computes it: the product, rounded. *)
Definition mul64 (x y : number) : number :=
  match mul x y with
  | Num q => binary64 q
  | r => r
  end.

(** [x - y] as binary64 computes it: the difference, rounded. *)
Definition sub64 (x y : number) : number :=
  match sub x y with
  | Num q => binary64 q
  | r => r
  end.

(** ** JavaScript strings *)

Definition code (c : ascii) : Z := Z.of_N (N_of_ascii c).

(** White space and line terminators below code unit 256: TAB, LF, VT, FF,
    CR, SP and NBSP. *)
Definition isWhiteSpace (c : ascii) : bool :=
  let n := code c in
  ((9 <=? n) && (n <=? 13)) || (n =? 32) || (n =? 160).

(** [s.trimStart()]. *)
Fixpoint trimStart (s : string) : string :=
  match s with
  | String c r => if isWhiteSpace c then trimStart r else s
  | EmptyString => EmptyString
  end.

(** [s.trimEnd()]. *)
Fixpoint trimEnd (s : string) : string :=
  match s with
  | EmptyString => EmptyString
  | String c r =>
      match trimEnd r with
      | EmptyString => if isWhiteSpace c then EmptyString else String c EmptyString
      | r' => String c r'
      end
  end.

(** [s.trim()]. *)
Definition trim (s : string) : string := trimEnd (trimStart s).

Definition lower (c : ascii) : ascii :=
  let n := code c in
  if ((65 <=? n) && (n <=? 90))
     || ((192 <=? n) && (n <=? 222) && negb (n =? 215))
  then ascii_of_N (Z.to_N (n + 32)) else c.

(** [s.toLowerCase()]. *)
Fixpoint toLowerCase (s : string) : string :=
  match s with
  | EmptyString => EmptyString
  | String c r => String (lower c) (toLowerCase r)
  end.

(** [s.split(sep)] for a one-character separator: never empty, and the
    empty string splits into one empty field. *)
Fixpoint split (sep : ascii) (s : string) : list string :=
  match s with
  | EmptyString => [EmptyString]
  | String c r =>
      if Ascii.eqb c sep then EmptyString :: split sep r
      else match split sep r with
           | h :: t => String c h :: t
           | [] => [String c EmptyString]
           end
  end.

(** Truthiness of a possibly undefined string: [undefined] and the empty
    string are falsy. *)
Definition str_truthy (v : option string) : bool :=
  match v with
  | Some (String _ _) => true
  | _ => false
  end.

(** [v || d] for a possibly undefined string [v]. *)
Definition str_or (v : option string) (d : string) : string :=
  match v with
  | Some (String c r) => String c r
  | _ => d
  end.

(** [ToString] of an array element: [undefined] prints as "undefined". *)
Definition ToString (v : option string) : string :=
  match v with
  | Some s => s
  | None => "undefined"%string
  end.

Definition digit_of (c : ascii) : option Z :=
  let n := code c in
  if (48 <=? n) && (n <=? 57) then Some (n - 48) else None.

Definition hex_digit_of (c : ascii) : option Z :=
  let n := code c in
  if (48 <=? n) && (n <=? 57) then Some (n - 48)
  else if (97 <=? n) && (n <=? 102) then Some (n - 87)
  else if (65 <=? n) && (n <=? 70) then Some (n - 55)
  else None.

(** The longest prefix of digits of [s]: its value continued from [acc],
    the number of digits read and the rest of the string. *)
Fixpoint digits (radix : Z) (dig : ascii -> option Z) (acc : Z) (n : nat)
    (s : string) : Z * nat * string :=
  match s with
  | String c r =>
      match dig c with
      | Some d => digits radix dig (acc * radix + d) (S n) r
      | None => (acc, n, s)
      end
  | EmptyString => (acc, n, s)
  end.

(** An optional sign: whether it is a minus, and the rest. *)
Definition sign (s : string) : bool * string :=
  match s with
  | String "-" r => (true, r)
  | String "+" r => (false, r)
  | _ => (false, s)
  end.

(** [parseInt(v)] with no radix: leading white space skipped, an optional
    sign, an optional [0x] prefix selecting radix 16, then the longest
    prefix of digits ([radix_digits]); [NaN] when there is none, and
    otherwise the Number value for the integer read: the nearest binary64
    value (the integer itself up to [2 ^ 53]), an infinity from 309
    digits on.  ECMAScript lets an implementation approximate a decimal
    integer after its 20th digit; the engines round it correctly, as
    here. *)
Definition radix_digits (s : string) : Z * nat * string :=
  match s with
  | String "0" (String ("x" | "X") r) => digits 16 hex_digit_of 0 0 r
  | _ => digits 10 digit_of 0 0 s
  end.

Definition parseInt (v : option string) : number :=
  let (negative, s1) := sign (trimStart (ToString v)) in
  let '(m, n, _) := radix_digits s1 in
  match n with
  | O => NaN
  | S _ => binary64 (inject_Z (if negative then - m else m))
  end.

(** [parseFloat(v)]: leading white space skipped, then the longest prefix
    that is a decimal literal (sign, [Infinity], digits with an optional
    fraction and an optional exponent); [NaN] when there is none, and
    otherwise the Number value for the literal: "0.1" reads as the
    binary64 value next to one tenth, "1e400" as [+Infinity] and
    "1e-400" as 0. *)
Definition parseFloat (v : option string) : number :=
  let (negative, s1) := sign (trimStart (ToString v)) in
  if prefix "Infinity" s1 then (if negative then NegInf else PosInf)
  else
    let '(ip, ni, r1) := digits 10 digit_of 0 0 s1 in
    let '(m, nf, r2) :=
      match r1 with
      | String "." r => digits 10 digit_of ip 0 r
      | _ => (ip, O, r1)
      end in
    match (ni + nf)%nat with
    | O => NaN
    | S _ =>
        let e :=
          match r2 with
          | String ("e" | "E") r =>
              let (eneg, r') := sign r in
              let '(ev, ne, _) := digits 10 digit_of 0 0 r' in
              match ne with
              | O => 0
              | S _ => if eneg then - ev else ev
              end
          | _ => 0
          end in
        let k := e - Z.of_nat nf in
        let sm := if negative then - m else m in
        if 0 <=? k then binary64 (inject_Z (sm * 10 ^ k))
        else binary64 (sm # Z.to_pos (10 ^ (- k)))
    end.

(** The decimal text of an array index, as a template literal prints it. *)
Definition index_text (i : nat) : string :=
  NilZero.string_of_uint (Nat.to_uint i).

End JS.

Import JS.

(** ** Data model *)

Record EnhancedInventoryData : Type := {
  sku : string;
  warehouse : string;
  product_category : string;
  current_stock : number;
  forecast_demand : number;
  actual_demand : number;
  production_capacity : number;
  unit_cost : number;
  holding_cost_rate : number;
  stockout_penalty : number;
  lead_time_days : number;
  shelf_life_days : number;
  is_festival_sensitive : bool
}.

Record ProductionConstraint : Type := {
  factory_location : string;
  weekly_capacity : number;
  efficiency_rate : number;
  production_cost_per_unit : number
}.

Module Supplier.
Record t : Type := {
  supplier_id : string;
  material_type : string;
  reliability_score : number;
  lead_time_days : number;
  moq : number;
  unit_price : number;
  quality_rating : number
}.
End Supplier.

(** *** The festival plan *)

Module DemandForecast.
Record t : Type := {
  sku : string;
  baseDemand : number;
  festivalDemand : number;
  surgeFactor : number
}.
End DemandForecast.

Module ProductionSchedule.
Record t : Type := {
  factory : string;
  weeklyCapacity : number;
  festivalCapacityNeeded : number;
  additionalShiftsRequired : number
}.
End ProductionSchedule.

Module InventoryBuildup.
Record t : Type := {
  sku : string;
  currentStock : number;
  festivalRequirement : number;
  buildupNeeded : number;
  startDate : string;
  targetDate : string
}.
End InventoryBuildup.

Record FestivalPlan : Type := {
  demandForecast : list DemandForecast.t;
  productionSchedule : list ProductionSchedule.t;
  inventoryBuildup : list InventoryBuildup.t
}.

(** *** The optimization result *)

Module Allocation.
Record t : Type := {
  factory : string;
  allocatedDemand : number;
  capacity : number;
  utilizationRate : number
}.
End Allocation.

Module InventoryPolicy.
Record t : Type := {
  sku : string;
  warehouse : string;
  currentStock : number;
  optimalInventory : number;
  safetyStock : number;
  reorderPoint : number;
  recommendation : string
}.
End InventoryPolicy.

Module Procurement.
Record t : Type := {
  supplierId : string;
  materialType : string;
  orderQuantity : number;
  totalCost : number;
  deliveryDate : string
}.
End Procurement.

Record CostAnalysis : Type := {
  totalProductionCost : number;
  totalInventoryCost : number;
  totalProcurementCost : number;
  totalSupplyChainCost : number
}.

Record PerformanceMetrics : Type := {
  serviceLevel : number;
  inventoryTurnover : number;
  capacityUtilization : number;
  costEfficiency : number
}.

Record Optimization : Type := {
  productionAllocation : list Allocation.t;
  inventoryOptimization : list InventoryPolicy.t;
  procurementPlan : list Procurement.t;
  costAnalysis : CostAnalysis;
  performanceMetrics : PerformanceMetrics
}.

(** *** The analysis report (per-warehouse part) *)

Module WarehousePerformance.
Record t : Type := {
  warehouse : string;
  stockCoverage : number;
  serviceLevel : number
}.
End WarehousePerformance.

(** *** Component state and host *)

Record State : Type := {
  inventoryData : list EnhancedInventoryData;
  productionConstraints : list ProductionConstraint;
  suppliers : list Supplier.t;
  optimizedData : option Optimization;
  festivalPlan : option FestivalPlan;
  festivalMultiplier : number
}.

(** What a run reads from outside the state: the clock behind
    [Date.now()] and the locale's rendering of a valid time value behind
    [toLocaleDateString()]. *)
Record Host : Type := {
  Date_now : Z;
  locale_date : Z -> string
}.

(** [array.reduce((sum, x) => sum + f(x), 0)]. *)
Definition sum_by {A : Type} (f : A -> number) (l : list A) : number :=
  fold_left (fun sum x => add sum (f x)) l (IZ 0).

(** ** The CSV parser ([parseCSVFile]) *)

Definition newline : ascii := ascii_of_N 10.

(** The festival flag of a row:
    [Boolean(values[12] && values[12].trim().toLowerCase() === "true")]. *)
Definition isSensitive (v : option string) : bool :=
  match v with
  | Some (String c r) => String.eqb (toLowerCase (trim (String c r))) "true"
  | _ => false
  end.

(** The body of the loop for line [i]: the record pushed on [parsedData],
    or nothing when the line has fewer fields than the header. *)
Definition parseRow (headers : list string) (i : nat) (line : string)
  : option EnhancedInventoryData :=
  let values := split "," line in
  if (List.length headers <=? List.length values)%nat then
    Some {|
      sku := str_or (nth_error values 0) ("SKU-" ++ index_text i)%string;
      warehouse := str_or (nth_error values 1) "Delhi";
      product_category := str_or (nth_error values 2) "Snacks";
      current_stock := or_default (parseInt (nth_error values 3)) (IZ 0);
      forecast_demand := or_default (parseInt (nth_error values 4)) (IZ 0);
      actual_demand := or_default (parseInt (nth_error values 5)) (IZ 0);
      production_capacity := or_default (parseInt (nth_error values 6)) (IZ 0);
      unit_cost := or_default (parseFloat (nth_error values 7)) (IZ 10);
      holding_cost_rate := or_default (parseFloat (nth_error values 8)) (lit 25 100);
      stockout_penalty := or_default (parseFloat (nth_error values 9)) (IZ 50);
      lead_time_days := or_default (parseInt (nth_error values 10)) (IZ 7);
      shelf_life_days := or_default (parseInt (nth_error values 11)) (IZ 90);
      is_festival_sensitive := isSensitive (nth_error values 12)
    |}
  else None.

(** The records pushed while the loop index runs over [indices]. *)
Definition parseRows (headers lines : list string) (indices : list nat)
  : list EnhancedInventoryData :=
  flat_map
    (fun i =>
       match nth_error lines i with
       | Some line =>
           match parseRow headers i line with
           | Some item => [item]
           | None => []
           end
       | None => []
       end)
    indices.

(** [parsedData] of [reader.onload]: the loop
    [for (let i = 1; i < lines.length && i < 10; i++)]. *)
Definition parsedData (text : string) : list EnhancedInventoryData :=
  let lines := split newline text in
  let headers := split "," (nth 0 lines EmptyString) in
  parseRows headers lines (seq 1 (Nat.min (List.length lines) 10 - 1)).

(** [handleFileUpload] followed by the reader's [onload]: the previous
    optimization is cleared and [setInventoryData(parsedData)] runs. *)
Definition parseCSVFile (text : string) (st : State) : State :=
  {| inventoryData := parsedData text;
     productionConstraints := productionConstraints st;
     suppliers := suppliers st;
     optimizedData := None;
     festivalPlan := festivalPlan st;
     festivalMultiplier := festivalMultiplier st |}.

(** ** The analysis reporter, per warehouse ([warehousePerformance]) *)

Definition warehouseEntry (inventoryData : list EnhancedInventoryData)
    (wh : string) : WarehousePerformance.t :=
  let warehouseItems :=
    filter (fun item => String.eqb (warehouse item) wh) inventoryData in
  let totalStock := sum_by current_stock warehouseItems in
  let totalDemand := sum_by actual_demand warehouseItems in
  {| WarehousePerformance.warehouse := wh;
     WarehousePerformance.stockCoverage :=
       if gt totalDemand (IZ 0)
       then div (Math_round (mul (div totalStock totalDemand) (IZ 100))) (IZ 100)
       else IZ 0;
     WarehousePerformance.serviceLevel :=
       Math_min (IZ 100)
         (if gt totalDemand (IZ 0)
          then Math_round
                 (mul (div (Math_min totalStock totalDemand) totalDemand) (IZ 100))
          else IZ 100) |}.

Definition warehousePerformance (inventoryData : list EnhancedInventoryData)
  : list WarehousePerformance.t :=
  map (warehouseEntry inventoryData) ["Delhi"; "Mumbai"; "Kolkata"]%string.

(** ** The festival planner ([handleFestivalPlanning]) *)

(** [Number(festivalMultiplier) || 1.35]. *)
Definition currentMultiplier (festivalMultiplier : number) : number :=
  or_default festivalMultiplier (float 135 100).

Definition mockFestivalPlan (st : State) : FestivalPlan :=
  let currentMultiplier := currentMultiplier (festivalMultiplier st) in
  {| demandForecast :=
       map (fun item =>
              {| DemandForecast.sku := sku item;
                 DemandForecast.baseDemand := forecast_demand item;
                 DemandForecast.festivalDemand :=
                   Math_round
                     (mul64 (forecast_demand item)
                          (if is_festival_sensitive item
                           then currentMultiplier else IZ 1));
                 DemandForecast.surgeFactor :=
                   if is_festival_sensitive item then currentMultiplier else IZ 1 |})
           (inventoryData st);
     productionSchedule :=
       map (fun constraint =>
              {| ProductionSchedule.factory := factory_location constraint;
                 ProductionSchedule.weeklyCapacity := weekly_capacity constraint;
                 ProductionSchedule.festivalCapacityNeeded :=
                   Math_round (mul64 (weekly_capacity constraint) currentMultiplier);
                 ProductionSchedule.additionalShiftsRequired := IZ 2 |})
           (productionConstraints st);
     inventoryBuildup :=
       map (fun item =>
              {| InventoryBuildup.sku := sku item;
                 InventoryBuildup.currentStock := current_stock item;
                 InventoryBuildup.festivalRequirement :=
                   Math_round
                     (mul64 (forecast_demand item)
                          (if is_festival_sensitive item
                           then currentMultiplier else IZ 1));
                 InventoryBuildup.buildupNeeded :=
                   Math_max (IZ 0)
                     (sub64 (Math_round
                               (mul64 (forecast_demand item)
                                      (if is_festival_sensitive item
                                       then currentMultiplier else IZ 1)))
                            (current_stock item));
                 InventoryBuildup.startDate := "2025-09-15";
                 InventoryBuildup.targetDate := "2025-10-01" |})
           (inventoryData st) |}.

(** The handler: [setFestivalPlan(mockFestivalPlan)]. *)
Definition handleFestivalPlanning (st : State) : State :=
  {| inventoryData := inventoryData st;
     productionConstraints := productionConstraints st;
     suppliers := suppliers st;
     optimizedData := optimizedData st;
     festivalPlan := Some (mockFestivalPlan st);
     festivalMultiplier := festivalMultiplier st |}.

(** ** The optimizer ([handleSupplyChainOptimization]) *)

(** [festivalPlan?.demandForecast?.find(fd => fd.sku === item.sku)]. *)
Definition festivalEntry (festivalPlan : option FestivalPlan)
    (item : EnhancedInventoryData) : option DemandForecast.t :=
  match festivalPlan with
  | Some plan =>
      find (fun fd => String.eqb (DemandForecast.sku fd) (sku item))
           (demandForecast plan)
  | None => None
  end.

Definition getEffectiveDemand (festivalPlan : option FestivalPlan)
    (item : EnhancedInventoryData) : number :=
  match festivalEntry festivalPlan item with
  | Some entry => DemandForecast.festivalDemand entry
  | None => forecast_demand item
  end.

Definition totalCurrentStock (inventoryData : list EnhancedInventoryData) : number :=
  sum_by current_stock inventoryData.

Definition totalOptimalStock (festivalPlan : option FestivalPlan)
    (inventoryData : list EnhancedInventoryData) : number :=
  sum_by (fun item =>
            Math_round (mul (getEffectiveDemand festivalPlan item) (lit 12 10)))
         inventoryData.

Definition productionNeeded (festivalPlan : option FestivalPlan)
    (inventoryData : list EnhancedInventoryData) : number :=
  Math_max (IZ 0)
    (sub (totalOptimalStock festivalPlan inventoryData)
         (totalCurrentStock inventoryData)).

Definition totalCapacity (productionConstraints : list ProductionConstraint) : number :=
  sum_by weekly_capacity productionConstraints.

(** [Number(((allocated / capacity) * 100).toFixed(2))]. *)
Definition utilization (allocated capacity : number) : number :=
  toFixed2 (mul (div allocated capacity) (IZ 100)).

(** The proportional pass: the [map] over the factories, threading the
    closure variable [remainingProduction].  Returns the allocation and
    what is left of the requirement. *)
Fixpoint proportionalPass (productionNeeded totalCapacity remainingProduction : number)
    (factories : list ProductionConstraint) : list Allocation.t * number :=
  match factories with
  | [] => ([], remainingProduction)
  | factory :: rest =>
      let capacityRatio := div (weekly_capacity factory) totalCapacity in
      let targetAllocation := Math_round (mul productionNeeded capacityRatio) in
      let actualAllocation :=
        Math_min3 targetAllocation (weekly_capacity factory) remainingProduction in
      let remainingProduction := sub remainingProduction actualAllocation in
      let (allocs, remainingProduction') :=
        proportionalPass productionNeeded totalCapacity remainingProduction rest in
      ({| Allocation.factory := factory_location factory;
          Allocation.allocatedDemand := actualAllocation;
          Allocation.capacity := weekly_capacity factory;
          Allocation.utilizationRate :=
            utilization actualAllocation (weekly_capacity factory) |} :: allocs,
       remainingProduction')
  end.

(** The redistribution loop [for (let alloc of productionAllocation)]:
    every factory with spare capacity takes what it can of the remainder,
    and the loop stops once nothing remains. *)
Fixpoint redistribute (remainingProduction : number) (allocs : list Allocation.t)
  : list Allocation.t * number :=
  match allocs with
  | [] => ([], remainingProduction)
  | alloc :: rest =>
      let spareCapacity :=
        sub (Allocation.capacity alloc) (Allocation.allocatedDemand alloc) in
      if gt spareCapacity (IZ 0) then
        let additional := Math_min spareCapacity remainingProduction in
        let allocatedDemand := add (Allocation.allocatedDemand alloc) additional in
        let alloc' :=
          {| Allocation.factory := Allocation.factory alloc;
             Allocation.allocatedDemand := allocatedDemand;
             Allocation.capacity := Allocation.capacity alloc;
             Allocation.utilizationRate :=
               utilization allocatedDemand (Allocation.capacity alloc) |} in
        let remainingProduction := sub remainingProduction additional in
        if le remainingProduction (IZ 0) then (alloc' :: rest, remainingProduction)
        else
          let (rest', remainingProduction') := redistribute remainingProduction rest in
          (alloc' :: rest', remainingProduction')
      else
        let (rest', remainingProduction') := redistribute remainingProduction rest in
        (alloc :: rest', remainingProduction')
  end.

(** Both passes: [productionAllocation] as the rest of the handler reads
    it, with the final [remainingProduction]. *)
Definition allocate (productionNeeded : number)
    (productionConstraints : list ProductionConstraint)
  : list Allocation.t * number :=
  let (allocs, remainingProduction) :=
    proportionalPass productionNeeded (totalCapacity productionConstraints)
      productionNeeded productionConstraints in
  if gt remainingProduction (IZ 0) then redistribute remainingProduction allocs
  else (allocs, remainingProduction).

Definition productionAllocationOf (festivalPlan : option FestivalPlan)
    (inventoryData : list EnhancedInventoryData)
    (productionConstraints : list ProductionConstraint) : list Allocation.t :=
  fst (allocate (productionNeeded festivalPlan inventoryData) productionConstraints).

(** The inventory policy of one SKU: an element of
    [inventoryOptimization]. *)
Definition inventoryPolicy (festivalPlan : option FestivalPlan)
    (item : EnhancedInventoryData) : InventoryPolicy.t :=
  let effectiveDemand := getEffectiveDemand festivalPlan item in
  {| InventoryPolicy.sku := sku item;
     InventoryPolicy.warehouse := warehouse item;
     InventoryPolicy.currentStock := current_stock item;
     InventoryPolicy.optimalInventory := Math_round (mul effectiveDemand (lit 12 10));
     InventoryPolicy.safetyStock := Math_round (mul effectiveDemand (lit 3 10));
     InventoryPolicy.reorderPoint := Math_round (mul effectiveDemand (lit 8 10));
     InventoryPolicy.recommendation :=
       if lt (current_stock item) effectiveDemand then "INCREASE" else "OPTIMIZE" |}.

(** [new Date(t)]: the time value of the date ([t] truncated to an
    integer), or [None] for an invalid date (a time that is not finite or
    beyond 8.64e15 ms). *)
Definition Date_new (t : number) : option Z :=
  match t with
  | Num q =>
      if Qle_bool (Qabs q) (inject_Z 8640000000000000) then Some (Z.quot (Qnum q) (Zpos (Qden q)))
      else None
  | _ => None
  end.

(** [date.toLocaleDateString()]. *)
Definition toLocaleDateString (h : Host) (date : option Z) : string :=
  match date with
  | Some t => locale_date h t
  | None => "Invalid Date"
  end.

(** An element of [procurementPlan]. *)
Definition procurement (h : Host) (supplier : Supplier.t) : Procurement.t :=
  {| Procurement.supplierId := Supplier.supplier_id supplier;
     Procurement.materialType := Supplier.material_type supplier;
     Procurement.orderQuantity := Supplier.moq supplier;
     Procurement.totalCost := mul (Supplier.moq supplier) (Supplier.unit_price supplier);
     Procurement.deliveryDate :=
       toLocaleDateString h
         (Date_new
            (add (IZ (Date_now h))
                 (mul (mul (mul (mul (Supplier.lead_time_days supplier) (IZ 24))
                                (IZ 60)) (IZ 60)) (IZ 1000)))) |}.

(** [production_cost_per_unit] of the factory an allocation names:
    [factory?.production_cost_per_unit || 0]. *)
Definition costPerUnit (productionConstraints : list ProductionConstraint)
    (alloc : Allocation.t) : number :=
  match find (fun f => String.eqb (factory_location f) (Allocation.factory alloc))
             productionConstraints with
  | Some factory => or_default (production_cost_per_unit factory) (IZ 0)
  | None => IZ 0
  end.

(** The demand-based utilization figure of the run, with its guard for a
    total capacity of zero.  The run computes it; the reported
    [capacityUtilization] is [actualCapacityUtilization] instead. *)
Definition dynamicCapacityUtilization (totalDemand totalCapacity : number) : number :=
  if gt totalCapacity (IZ 0) then mul (div totalDemand totalCapacity) (IZ 100)
  else IZ 0.

(** The artifact a run of the optimizer builds. *)
Definition mockOptimization (h : Host) (st : State) : Optimization :=
  let inventoryData := inventoryData st in
  let productionConstraints := productionConstraints st in
  let suppliers := suppliers st in
  let getEffectiveDemand := getEffectiveDemand (festivalPlan st) in
  let totalCapacity := totalCapacity productionConstraints in
  let productionAllocation :=
    productionAllocationOf (festivalPlan st) inventoryData productionConstraints in
  let totalProductionCost :=
    sum_by (fun alloc =>
              mul (Allocation.allocatedDemand alloc)
                  (costPerUnit productionConstraints alloc))
           productionAllocation in
  let totalInventoryCost :=
    sum_by (fun item =>
              mul (mul (current_stock item) (unit_cost item)) (holding_cost_rate item))
           inventoryData in
  let totalProcurementCost :=
    sum_by (fun supplier => mul (Supplier.moq supplier) (Supplier.unit_price supplier))
           suppliers in
  let totalSupplyChainCost :=
    add (add totalProductionCost totalInventoryCost) totalProcurementCost in
  let totalDemand := sum_by getEffectiveDemand inventoryData in
  let totalFulfilled :=
    sum_by (fun item => Math_min (current_stock item) (getEffectiveDemand item))
           inventoryData in
  let dynamicServiceLevel :=
    if gt totalDemand (IZ 0) then mul (div totalFulfilled totalDemand) (IZ 100)
    else IZ 100 in
  let totalInventory := sum_by current_stock inventoryData in
  let dynamicInventoryTurnover :=
    if gt totalInventory (IZ 0) then div totalDemand totalInventory else IZ 0 in
  let dynamicCapacityUtilization :=
    dynamicCapacityUtilization totalDemand totalCapacity in
  let dynamicCostEfficiency :=
    if gt totalSupplyChainCost (IZ 0)
    then mul (div (mul totalDemand (IZ 15)) totalSupplyChainCost) (IZ 100)
    else IZ 0 in
  let totalAllocatedProduction := sum_by Allocation.allocatedDemand productionAllocation in
  let actualCapacityUtilization :=
    toFixed2 (mul (div totalAllocatedProduction totalCapacity) (IZ 100)) in
  {| productionAllocation := productionAllocation;
     inventoryOptimization := map (inventoryPolicy (festivalPlan st)) inventoryData;
     procurementPlan := map (procurement h) suppliers;
     costAnalysis :=
       {| totalProductionCost := toFixed2 totalProductionCost;
          totalInventoryCost := toFixed2 totalInventoryCost;
          totalProcurementCost := toFixed2 totalProcurementCost;
          totalSupplyChainCost := toFixed2 totalSupplyChainCost |};
     performanceMetrics :=
       {| serviceLevel := toFixed2 dynamicServiceLevel;
          inventoryTurnover := toFixed2 dynamicInventoryTurnover;
          capacityUtilization := actualCapacityUtilization;
          costEfficiency := toFixed2 dynamicCostEfficiency |} |}.

(** The handler: [setOptimizedData(mockOptimization)]. *)
Definition handleSupplyChainOptimization (h : Host) (st : State) : State :=
  {| inventoryData := inventoryData st;
     productionConstraints := productionConstraints st;
     suppliers := suppliers st;
     optimizedData := Some (mockOptimization h st);
     festivalPlan := festivalPlan st;
     festivalMultiplier := festivalMultiplier st |}.

(** ** The component's initial state *)

Definition PC001 : EnhancedInventoryData :=
  {| sku := "PC001"; warehouse := "Delhi"; product_category := "Snacks";
     current_stock := IZ 10; forecast_demand := IZ 40; actual_demand := IZ 60;
     production_capacity := IZ 30; unit_cost := lit 155 10;
     holding_cost_rate := lit 25 100; stockout_penalty := IZ 50;
     lead_time_days := IZ 7; shelf_life_days := IZ 90;
     is_festival_sensitive := true |}.

Definition NC001 : EnhancedInventoryData :=
  {| sku := "NC001"; warehouse := "Mumbai"; product_category := "Snacks";
     current_stock := IZ 25; forecast_demand := IZ 25; actual_demand := IZ 20;
     production_capacity := IZ 25; unit_cost := lit 182 10;
     holding_cost_rate := lit 25 100; stockout_penalty := IZ 45;
     lead_time_days := IZ 5; shelf_life_days := IZ 120;
     is_festival_sensitive := false |}.

Definition delhiFactory : ProductionConstraint :=
  {| factory_location := "Delhi"; weekly_capacity := IZ 100;
     efficiency_rate := lit 85 100; production_cost_per_unit := lit 123 10 |}.

Definition puneFactory : ProductionConstraint :=
  {| factory_location := "Pune"; weekly_capacity := IZ 80;
     efficiency_rate := lit 9 10; production_cost_per_unit := lit 119 10 |}.

Definition SUP001 : Supplier.t :=
  {| Supplier.supplier_id := "SUP001"; Supplier.material_type := "flour";
     Supplier.reliability_score := lit 92 100; Supplier.lead_time_days := IZ 5;
     Supplier.moq := IZ 500; Supplier.unit_price := lit 25 10;
     Supplier.quality_rating := lit 85 10 |}.

Definition SUP002 : Supplier.t :=
  {| Supplier.supplier_id := "SUP002"; Supplier.material_type := "oil";
     Supplier.reliability_score := lit 78 100; Supplier.lead_time_days := IZ 8;
     Supplier.moq := IZ 200; Supplier.unit_price := lit 58 10;
     Supplier.quality_rating := lit 72 10 |}.

(** The [useState] initial values. *)
Definition initialState : State :=
  {| inventoryData := [PC001; NC001];
     productionConstraints := [delhiFactory; puneFactory];
     suppliers := [SUP001; SUP002];
     optimizedData := None;
     festivalPlan := None;
     festivalMultiplier := float 145 100 |}.

(** A host whose locale prints dates as en-US does in the UTC time zone:
    month/day/year without padding. *)
Definition civil_from_days (days : Z) : Z * Z * Z :=
  let z := days + 719468 in
  let era := z / 146097 in
  let doe := z - era * 146097 in
  let yoe := (doe - doe / 1460 + doe / 36524 - doe / 146096) / 365 in
  let doy := doe - (365 * yoe + yoe / 4 - yoe / 100) in
  let mp := (5 * doy + 2) / 153 in
  let d := doy - (153 * mp + 2) / 5 + 1 in
  let m := if mp <? 10 then mp + 3 else mp - 9 in
  let y := yoe + era * 400 + (if m <=? 2 then 1 else 0) in
  (y, m, d).

Definition text_of_Z (z : Z) : string := NilZero.string_of_int (Z.to_int z).

Definition en_US_UTC (t : Z) : string :=
  let '(y, m, d) := civil_from_days (t / 86400000) in
  (text_of_Z m ++ "/" ++ text_of_Z d ++ "/" ++ text_of_Z y)%string.

Definition host_at (now : Z) : Host :=
  {| Date_now := now; locale_date := en_US_UTC |}.

(** * Specification vocabulary

    The notions the properties below are stated with. *)

Definition zsum (l : list Z) : Z := fold_right Z.add 0 l.

(** The factories have the non-negative integer capacities [cs]. *)
Definition capacities (factories : list ProductionConstraint) (cs : list Z) : Prop :=
  Forall2 (fun f c => weekly_capacity f = IZ c /\ 0 <= c) factories cs.

(** The allocation entries hold the integer pairs (allocated, capacity)
    of [xcs], each allocation between zero and its capacity. *)
Definition within_capacity (allocs : list Allocation.t) (xcs : list (Z * Z)) : Prop :=
  Forall2 (fun a xc =>
             Allocation.allocatedDemand a = IZ (fst xc) /\
             Allocation.capacity a = IZ (snd xc) /\
             0 <= fst xc <= snd xc)
          allocs xcs.


(** The record [item] moved to the warehouse [wh]. *)
Definition with_warehouse (item : EnhancedInventoryData) (wh : string)
  : EnhancedInventoryData :=
  {| sku := sku item;
     warehouse := wh;
     product_category := product_category item;
     current_stock := current_stock item;
     forecast_demand := forecast_demand item;
     actual_demand := actual_demand item;
     production_capacity := production_capacity item;
     unit_cost := unit_cost item;
     holding_cost_rate := holding_cost_rate item;
     stockout_penalty := stockout_penalty item;
     lead_time_days := lead_time_days item;
     shelf_life_days := shelf_life_days item;
     is_festival_sensitive := is_festival_sensitive item |}.


(** What the plan holds for one SKU: its [demandForecast] entry and its
    [inventoryBuildup] entry. *)
Definition sku_plan_ok (m : number) (item : EnhancedInventoryData)
    (entry : DemandForecast.t * InventoryBuildup.t) : Prop :=
  let (fd, ib) := entry in
  DemandForecast.sku fd = sku item
  /\ InventoryBuildup.sku ib = sku item
  /\ DemandForecast.baseDemand fd = forecast_demand item
  /\ DemandForecast.surgeFactor fd = (if is_festival_sensitive item then m else IZ 1)
  /\ DemandForecast.festivalDemand fd
     = Math_round (mul64 (forecast_demand item) (DemandForecast.surgeFactor fd))
  /\ InventoryBuildup.festivalRequirement ib = DemandForecast.festivalDemand fd
  /\ InventoryBuildup.buildupNeeded ib
     = Math_max (IZ 0) (sub64 (DemandForecast.festivalDemand fd) (current_stock item)).

(** What the plan holds for one factory. *)
Definition factory_plan_ok (m : number) (constraint : ProductionConstraint)
    (ps : ProductionSchedule.t) : Prop :=
  ProductionSchedule.factory ps = factory_location constraint
  /\ ProductionSchedule.weeklyCapacity ps = weekly_capacity constraint
  /\ ProductionSchedule.festivalCapacityNeeded ps
     = Math_round (mul64 (weekly_capacity constraint) m)
  /\ ProductionSchedule.additionalShiftsRequired ps = IZ 2.

(** The value of a numeric field that takes the parsed value when the
    text is parsable and the default otherwise. *)
Definition parsed_or (parsed default : number) : number :=
  if isNaN parsed then default else parsed.

(** A whole number: an integer or an infinity. *)
Definition whole (x : number) : Prop :=
  x = PosInf \/ x = NegInf \/ exists z, x = IZ z.

(** A number that is zero. *)
Definition is_zero (x : number) : bool :=
  match x with
  | Num q => Qeq_bool q 0
  | _ => false
  end.

(** The field separator and the header of the input schema of the
    thirteen-column record. *)
Definition schema_header : string :=
  ("sku,warehouse,product_category,current_stock,forecast_demand,actual_demand,"
   ++ "production_capacity,unit_cost,holding_cost_rate,stockout_penalty,"
   ++ "lead_time_days,shelf_life_days,is_festival_sensitive")%string.

(** A file of the documented schema: the header and the given data
    lines, one per line. *)
Definition csv_of (rows : list string) : string :=
  String.concat (String newline EmptyString) (schema_header :: rows).

(** Eleven data lines, the third too short for the header. *)
Definition sample_rows : list string :=
  [ "PC001,Delhi,Snacks,10,40,60,30,15.5,0.25,50.0,7,90,true";
    "NC001,Mumbai,Snacks,25,25,20,25,18.2,0.25,45.0,5,120,false";
    "short,line";
    ",,,x,,,,,,,0,,TRUE ";
    "R5,Pune,Other,1,2,3,4,5,6,7,8,9,no";
    "R6,Delhi,Snacks,1,2,3,4,5,6,7,8,9,true";
    "R7,Delhi,Snacks,1,2,3,4,5,6,7,8,9,true";
    "R8,Delhi,Snacks,1,2,3,4,5,6,7,8,9,true";
    "R9,Delhi,Snacks,1,2,3,4,5,6,7,8,9,true";
    "R10,Delhi,Snacks,1,2,3,4,5,6,7,8,9,true";
    "R11,Delhi,Snacks,1,2,3,4,5,6,7,8,9,true" ]%string.

(** The three warehouses the report lists. *)
Definition listed_warehouses : list string := ["Delhi"; "Mumbai"; "Kolkata"]%string.

Definition listed (wh : string) : bool := existsb (String.eqb wh) listed_warehouses.

(** The SKUs of a warehouse. *)
Definition items_of (inventoryData : list EnhancedInventoryData) (wh : string)
  : list EnhancedInventoryData :=
  filter (fun item => String.eqb (warehouse item) wh) inventoryData.

(** Two states hold the same record store and festival plan. *)
Definition same_inputs (st1 st2 : State) : Prop :=
  inventoryData st1 = inventoryData st2
  /\ productionConstraints st1 = productionConstraints st2
  /\ suppliers st1 = suppliers st2
  /\ festivalPlan st1 = festivalPlan st2.

(** A procurement entry without its delivery date. *)
Definition order_of (p : Procurement.t) : string * string * number * number :=
  (Procurement.supplierId p, Procurement.materialType p,
   Procurement.orderQuantity p, Procurement.totalCost p).

(** The delivery date of a supplier's order for a run on host [h]: the
    day reached [lead_time_days] after the host's current time, in the
    host's locale. *)
Definition delivery_date (h : Host) (supplier : Supplier.t) : string :=
  toLocaleDateString h
    (Date_new (add (IZ (Date_now h))
                   (mul (mul (mul (mul (Supplier.lead_time_days supplier) (IZ 24))
                                  (IZ 60)) (IZ 60)) (IZ 1000)))).

(** [setProductionConstraints(updated)]. *)
Definition setProductionConstraints (updated : list ProductionConstraint)
    (st : State) : State :=
  {| inventoryData := inventoryData st;
     productionConstraints := updated;
     suppliers := suppliers st;
     optimizedData := optimizedData st;
     festivalPlan := festivalPlan st;
     festivalMultiplier := festivalMultiplier st |}.

(** A factory with its weekly capacity edited to 0. *)
Definition idle (factory : ProductionConstraint) : ProductionConstraint :=
  {| factory_location := factory_location factory;
     weekly_capacity := IZ 0;
     efficiency_rate := efficiency_rate factory;
     production_cost_per_unit := production_cost_per_unit factory |}.

(** The allocation of a run. *)
Definition allocationOf (st : State) : list Allocation.t :=
  productionAllocationOf (festivalPlan st) (inventoryData st) (productionConstraints st).

(** The rate of an allocation entry is the one computed from its
    allocation and capacity. *)
Definition rate_consistent (a : Allocation.t) : Prop :=
  Allocation.utilizationRate a
  = utilization (Allocation.allocatedDemand a) (Allocation.capacity a).

(** An allocation entry whose capacity is 0 reports no finite rate. *)
Definition unguarded (a : Allocation.t) : Prop :=
  Allocation.capacity a = IZ 0 -> isFinite (Allocation.utilizationRate a) = false.

(** * Further vocabulary *)

(** The stocks of the record store are integers. *)
Definition integer_stocks (inventoryData : list EnhancedInventoryData) : Prop :=
  Forall (fun item => exists s, current_stock item = IZ s) inventoryData.

(** Every SKU resolves to a finite effective demand. *)
Definition finite_demands (plan : option FestivalPlan)
    (inventoryData : list EnhancedInventoryData) : Prop :=
  Forall (fun item => isFinite (getEffectiveDemand plan item) = true) inventoryData.

(** [x] out of [c] as a percentage in hundredths, rounded half up:
    [floor(10000 x / c + 1/2)]. *)
Definition percent2 (x c : Z) : Z := (20000 * x + c) / (2 * c).

(** A number between 0 and 100 in the order of the relational
    operators. *)
Definition is_percentage (r : number) : Prop :=
  le (IZ 0) r = true /\ le r (IZ 100) = true.


(** ** The capacity alert ([OptimizationExtras]) *)

(** The property the optimizer page passes to the extras panel:
    [optimizedData?.performanceMetrics?.capacityUtilization || 0]. *)
Definition extrasCapacityUtilization (optimizedData : option Optimization) : number :=
  match optimizedData with
  | Some o => or_default (capacityUtilization (performanceMetrics o)) (IZ 0)
  | None => IZ 0
  end.

(** Whether the panel shows its capacity warning:
    [capacityUtilization > 100]. *)
Definition capacityWarning (capacityUtilization : number) : bool :=
  gt capacityUtilization (IZ 100).

(** The festival demand the planner computes for a SKU under the
    multiplier [m]. *)
Definition festival_demand_of (m : number) (item : EnhancedInventoryData) : number :=
  Math_round
    (mul64 (forecast_demand item) (if is_festival_sensitive item then m else IZ 1)).

(** The first SKU record of the collection that carries the SKU of
    [item]. *)
Definition first_with_sku (inventoryData : list EnhancedInventoryData)
    (item : EnhancedInventoryData) : option EnhancedInventoryData :=
  find (fun other => String.eqb (sku other) (sku item)) inventoryData.

(** What the plan computed under a finite multiplier [q >= 1] holds for a
    SKU with integer forecast and stock. *)
Definition surge_ok (item : EnhancedInventoryData)
    (entry : DemandForecast.t * InventoryBuildup.t) : Prop :=
  exists z s F,
    forecast_demand item = IZ z /\ current_stock item = IZ s
    /\ DemandForecast.festivalDemand (fst entry) = IZ F
    /\ z <= F
    /\ (is_festival_sensitive item = false -> F = z)
    /\ InventoryBuildup.buildupNeeded (snd entry) = IZ (Z.max 0 (F - s)).

(** ** The analysis reporter ([handleSupplyChainAnalysis]) *)

(** [Math.abs(x)]. *)
Definition Math_abs (x : number) : number :=
  match x with
  | NaN => NaN
  | PosInf | NegInf => PosInf
  | Num q => Num (Qred (Qabs q))
  end.

(** [x === y] on numbers: false when an operand is [NaN]. *)
Definition strict_eq (x y : number) : bool :=
  match cmp x y with
  | Some Eq => true
  | _ => false
  end.

(** [array.length] as a number. *)
Definition length_of {A : Type} (l : list A) : number := IZ (Z.of_nat (List.length l)).

(** The memoized figures of the component. *)
Module Memo.

(** The demand-based utilization shown on the production tab. *)
Definition dynamicCapacityUtilization (inventoryData : list EnhancedInventoryData)
    (productionConstraints : list ProductionConstraint) : number :=
  let totalAllocated := sum_by actual_demand inventoryData in
  let totalCapacity := sum_by weekly_capacity productionConstraints in
  if strict_eq totalCapacity (IZ 0) then IZ 0
  else div (Math_round (mul (mul (div totalAllocated totalCapacity) (IZ 100)) (IZ 100)))
           (IZ 100).

Definition dynamicForecastAccuracy (inventoryData : list EnhancedInventoryData) : number :=
  let totalForecast := sum_by forecast_demand inventoryData in
  let totalError :=
    sum_by (fun item => Math_abs (sub (forecast_demand item) (actual_demand item)))
           inventoryData in
  if gt totalForecast (IZ 0)
  then div (Math_round
              (mul (mul (IZ 100) (sub (IZ 1) (div totalError totalForecast))) (IZ 100)))
           (IZ 100)
  else IZ 100.

End Memo.

Module InventoryAnalysis.
Record t : Type := {
  totalForecastDemand : number;
  totalActualDemand : number;
  totalStock : number;
  forecastAccuracy : number;
  criticalShortages : list EnhancedInventoryData;
  warehousePerformance : list WarehousePerformance.t
}.
End InventoryAnalysis.

Module EnsembleForecast.
Record t : Type := {
  sku : string;
  warehouse : string;
  ensembleForecast : number;
  confidence : number
}.
End EnsembleForecast.

Module FestivalAdjusted.
Record t : Type := {
  sku : string;
  festivalForecast : number;
  surgeFactor : number
}.
End FestivalAdjusted.

Module DemandForecastAnalysis.
Record t : Type := {
  ensembleForecast : list EnsembleForecast.t;
  festivalAdjusted : list FestivalAdjusted.t
}.
End DemandForecastAnalysis.

Module FactoryUtilization.
Record t : Type := {
  factory : string;
  capacity : number;
  currentUtilization : number
}.
End FactoryUtilization.

Module CapacityAnalysis.
Record t : Type := {
  totalWeeklyCapacity : number;
  averageEfficiency : number;
  currentUtilization : number;
  utilizationByFactory : list FactoryUtilization.t
}.
End CapacityAnalysis.

Module RiskAssessment.
Record t : Type := {
  highRiskProducts : number;
  unreliableSuppliers : number;
  riskMitigationActions : list string
}.
End RiskAssessment.

Module Analysis.
Record t : Type := {
  inventoryAnalysis : InventoryAnalysis.t;
  demandForecast : DemandForecastAnalysis.t;
  capacityAnalysis : CapacityAnalysis.t;
  riskAssessment : RiskAssessment.t
}.
End Analysis.

(** The SKUs whose stock is below the given share of their actual
    demand: [item.current_stock < item.actual_demand * share]. *)
Definition belowShare (share : number) (inventoryData : list EnhancedInventoryData)
  : list EnhancedInventoryData :=
  filter (fun item => lt (current_stock item) (mul (actual_demand item) share))
         inventoryData.

(** The artifact [handleSupplyChainAnalysis] builds. *)
Definition dynamicAnalysis (st : State) : Analysis.t :=
  let inventoryData := inventoryData st in
  let productionConstraints := productionConstraints st in
  let suppliers := suppliers st in
  let festivalMultiplier := festivalMultiplier st in
  let dynamicCapacityUtilization :=
    Memo.dynamicCapacityUtilization inventoryData productionConstraints in
  {| Analysis.inventoryAnalysis :=
       {| InventoryAnalysis.totalForecastDemand := sum_by forecast_demand inventoryData;
          InventoryAnalysis.totalActualDemand := sum_by actual_demand inventoryData;
          InventoryAnalysis.totalStock := sum_by current_stock inventoryData;
          InventoryAnalysis.forecastAccuracy := Memo.dynamicForecastAccuracy inventoryData;
          InventoryAnalysis.criticalShortages := belowShare (lit 5 10) inventoryData;
          InventoryAnalysis.warehousePerformance := warehousePerformance inventoryData |};
     Analysis.demandForecast :=
       {| DemandForecastAnalysis.ensembleForecast :=
            map (fun item =>
                   {| EnsembleForecast.sku := sku item;
                      EnsembleForecast.warehouse := warehouse item;
                      EnsembleForecast.ensembleForecast :=
                        Math_round (mul (actual_demand item) (lit 11 10));
                      EnsembleForecast.confidence := lit 85 100 |})
                inventoryData;
          DemandForecastAnalysis.festivalAdjusted :=
            map (fun item =>
                   {| FestivalAdjusted.sku := sku item;
                      FestivalAdjusted.festivalForecast :=
                        Math_round
                          (mul64 (actual_demand item)
                                 (if is_festival_sensitive item
                                  then festivalMultiplier else IZ 1));
                      FestivalAdjusted.surgeFactor :=
                        if is_festival_sensitive item then festivalMultiplier else IZ 1 |})
                inventoryData |};
     Analysis.capacityAnalysis :=
       {| CapacityAnalysis.totalWeeklyCapacity := sum_by weekly_capacity productionConstraints;
          CapacityAnalysis.averageEfficiency :=
            div (sum_by efficiency_rate productionConstraints)
                (length_of productionConstraints);
          CapacityAnalysis.currentUtilization := dynamicCapacityUtilization;
          CapacityAnalysis.utilizationByFactory :=
            map (fun c =>
                   {| FactoryUtilization.factory := factory_location c;
                      FactoryUtilization.capacity := weekly_capacity c;
                      FactoryUtilization.currentUtilization := dynamicCapacityUtilization |})
                productionConstraints |};
     Analysis.riskAssessment :=
       {| RiskAssessment.highRiskProducts :=
            length_of (belowShare (lit 3 10) inventoryData);
          RiskAssessment.unreliableSuppliers :=
            length_of
              (filter (fun s => lt (Supplier.reliability_score s) (lit 8 10)) suppliers);
          RiskAssessment.riskMitigationActions :=
            [ (index_text (List.length (belowShare (lit 3 10) inventoryData))
               ++ " products need emergency replenishment")%string;
              "Diversify supplier base for critical materials"%string;
              "Establish safety stock buffers for high-risk warehouses"%string ] |} |}.

(** A SKU whose stock and actual demand are non-negative integers. *)
Definition observed (item : EnhancedInventoryData) : Prop :=
  exists s a, current_stock item = IZ s /\ actual_demand item = IZ a
              /\ 0 <= s /\ 0 <= a.


(** ** Manual entry and the other state updates of the component *)

Definition setInventoryData (updated : list EnhancedInventoryData) (st : State) : State :=
  {| inventoryData := updated;
     productionConstraints := productionConstraints st;
     suppliers := suppliers st;
     optimizedData := optimizedData st;
     festivalPlan := festivalPlan st;
     festivalMultiplier := festivalMultiplier st |}.

Definition setSuppliers (updated : list Supplier.t) (st : State) : State :=
  {| inventoryData := inventoryData st;
     productionConstraints := productionConstraints st;
     suppliers := updated;
     optimizedData := optimizedData st;
     festivalPlan := festivalPlan st;
     festivalMultiplier := festivalMultiplier st |}.

Definition setFestivalMultiplier (m : number) (st : State) : State :=
  {| inventoryData := inventoryData st;
     productionConstraints := productionConstraints st;
     suppliers := suppliers st;
     optimizedData := optimizedData st;
     festivalPlan := festivalPlan st;
     festivalMultiplier := m |}.

(** [newItem] of [addInventoryItem], for a collection of [n] records. *)
Definition newItem (n : nat) : EnhancedInventoryData :=
  {| sku := ("SKU-" ++ index_text (n + 1))%string;
     warehouse := "Delhi";
     product_category := "Snacks";
     current_stock := IZ 0;
     forecast_demand := IZ 0;
     actual_demand := IZ 0;
     production_capacity := IZ 0;
     unit_cost := IZ 10;
     holding_cost_rate := lit 25 100;
     stockout_penalty := IZ 50;
     lead_time_days := IZ 7;
     shelf_life_days := IZ 90;
     is_festival_sensitive := false |}.

Definition addInventoryItem (st : State) : State :=
  setInventoryData
    (inventoryData st ++ [newItem (List.length (inventoryData st))]) st.

(** [array.filter((_, i) => keep(i))]. *)
Definition filterIndex {A : Type} (keep : nat -> bool) (l : list A) : list A :=
  map snd (filter (fun p => keep (fst p)) (combine (seq 0 (List.length l)) l)).

(** The remove button of a row is rendered when
    [inventoryData.length > 1]. *)
Definition removeShown (st : State) : bool :=
  (1 <? List.length (inventoryData st))%nat.

(** The remove button of row [index]:
    [setInventoryData(inventoryData.filter((_, i) => i !== index))]. *)
Definition removeInventoryItem (index : nat) (st : State) : State :=
  setInventoryData
    (filterIndex (fun i => negb (i =? index)%nat) (inventoryData st)) st.

(** A field of a SKU record with a value for it. *)
Inductive FieldValue : Type :=
| sku_is (v : string)
| warehouse_is (v : string)
| product_category_is (v : string)
| current_stock_is (v : number)
| forecast_demand_is (v : number)
| actual_demand_is (v : number)
| production_capacity_is (v : number)
| unit_cost_is (v : number)
| holding_cost_rate_is (v : number)
| stockout_penalty_is (v : number)
| lead_time_days_is (v : number)
| shelf_life_days_is (v : number)
| is_festival_sensitive_is (v : bool).

(** [item[field] = value]. *)
Definition setField (fv : FieldValue) (item : EnhancedInventoryData)
  : EnhancedInventoryData :=
  {| sku := match fv with sku_is v => v | _ => sku item end;
     warehouse := match fv with warehouse_is v => v | _ => warehouse item end;
     product_category :=
       match fv with product_category_is v => v | _ => product_category item end;
     current_stock := match fv with current_stock_is v => v | _ => current_stock item end;
     forecast_demand :=
       match fv with forecast_demand_is v => v | _ => forecast_demand item end;
     actual_demand := match fv with actual_demand_is v => v | _ => actual_demand item end;
     production_capacity :=
       match fv with production_capacity_is v => v | _ => production_capacity item end;
     unit_cost := match fv with unit_cost_is v => v | _ => unit_cost item end;
     holding_cost_rate :=
       match fv with holding_cost_rate_is v => v | _ => holding_cost_rate item end;
     stockout_penalty :=
       match fv with stockout_penalty_is v => v | _ => stockout_penalty item end;
     lead_time_days :=
       match fv with lead_time_days_is v => v | _ => lead_time_days item end;
     shelf_life_days :=
       match fv with shelf_life_days_is v => v | _ => shelf_life_days item end;
     is_festival_sensitive :=
       match fv with
       | is_festival_sensitive_is v => v
       | _ => is_festival_sensitive item
       end |}.

(** [updated[index] = f(updated[index])] on a copy of the array; [None]
    when [updated[index]] is [undefined] and the assignment to its field
    throws. *)
Fixpoint updateAt {A : Type} (index : nat) (f : A -> A) (l : list A)
  : option (list A) :=
  match l, index with
  | [], _ => None
  | x :: rest, O => Some (f x :: rest)
  | x :: rest, S i =>
      match updateAt i f rest with
      | Some rest' => Some (x :: rest')
      | None => None
      end
  end.

(** [updateInventoryItem(index, field, value)]; [None] when the handler
    throws before it sets the state. *)
Definition updateInventoryItem (index : nat) (fv : FieldValue) (st : State)
  : option State :=
  match updateAt index (setField fv) (inventoryData st) with
  | Some updated => Some (setInventoryData updated st)
  | None => None
  end.

(** The value the count inputs pass on: [parseInt(e.target.value) || 0]. *)
Definition countInput (text : string) : number :=
  or_default (parseInt (Some text)) (IZ 0).

(** The value the rate and cost inputs of a factory pass on:
    [parseFloat(e.target.value) || 0]. *)
Definition rateInput (text : string) : number :=
  or_default (parseFloat (Some text)) (IZ 0).

(** The three inputs of a factory card. *)
Inductive ConstraintInput : Type :=
| weekly_capacity_input
| efficiency_rate_input
| production_cost_per_unit_input.

Definition setConstraint (input : ConstraintInput) (text : string)
    (c : ProductionConstraint) : ProductionConstraint :=
  {| factory_location := factory_location c;
     weekly_capacity :=
       match input with
       | weekly_capacity_input => countInput text
       | _ => weekly_capacity c
       end;
     efficiency_rate :=
       match input with
       | efficiency_rate_input => rateInput text
       | _ => efficiency_rate c
       end;
     production_cost_per_unit :=
       match input with
       | production_cost_per_unit_input => rateInput text
       | _ => production_cost_per_unit c
       end |}.

(** The [onChange] of an input of factory card [index]. *)
Definition editConstraint (index : nat) (input : ConstraintInput) (text : string)
    (st : State) : option State :=
  match updateAt index (setConstraint input text) (productionConstraints st) with
  | Some updated => Some (setProductionConstraints updated st)
  | None => None
  end.

(** [s.padStart(targetLength, c)] for a one-character pad string. *)
Definition padStart (targetLength : nat) (c : ascii) (s : string) : string :=
  (string_of_list_ascii (repeat c (targetLength - String.length s)) ++ s)%string.

(** The id the add-supplier button gives the supplier number [k]:
    [`SUP${String(k).padStart(3, "0")}`]. *)
Definition supplierId (k : nat) : string :=
  ("SUP" ++ padStart 3 "0" (index_text k))%string.

Definition newSupplier (n : nat) : Supplier.t :=
  {| Supplier.supplier_id := supplierId (n + 1);
     Supplier.material_type := "new_material";
     Supplier.reliability_score := lit 8 10;
     Supplier.lead_time_days := IZ 7;
     Supplier.moq := IZ 100;
     Supplier.unit_price := IZ 10;
     Supplier.quality_rating := IZ 8 |}.

(** The add-supplier button. *)
Definition addSupplier (st : State) : State :=
  setSuppliers (suppliers st ++ [newSupplier (List.length (suppliers st))]) st.

(** The [onChange] of the multiplier input:
    [setFestivalMultiplier(parseFloat(e.target.value) || 1.45)]. *)
Definition editMultiplier (text : string) (st : State) : State :=
  setFestivalMultiplier (or_default (parseFloat (Some text)) (float 145 100)) st.

(** The inputs of a row of the manual-entry table, with what they pass
    to [updateInventoryItem]. *)
Inductive RowInput : Type :=
| sku_input
| warehouse_input
| product_category_input
| current_stock_input
| forecast_demand_input
| actual_demand_input
| production_capacity_input.

Definition rowValue (input : RowInput) (text : string) : FieldValue :=
  match input with
  | sku_input => sku_is text
  | warehouse_input => warehouse_is text
  | product_category_input => product_category_is text
  | current_stock_input => current_stock_is (countInput text)
  | forecast_demand_input => forecast_demand_is (countInput text)
  | actual_demand_input => actual_demand_is (countInput text)
  | production_capacity_input => production_capacity_is (countInput text)
  end.

(** One user action on the page and its effect on the state. *)
Inductive step : State -> State -> Prop :=
| step_upload (text : string) (st : State) :
    step st (parseCSVFile text st)
| step_add (st : State) :
    step st (addInventoryItem st)
| step_remove (index : nat) (st : State) :
    removeShown st = true -> (index < List.length (inventoryData st))%nat ->
    step st (removeInventoryItem index st)
| step_row (index : nat) (input : RowInput) (text : string) (st st' : State) :
    updateInventoryItem index (rowValue input text) st = Some st' ->
    step st st'
| step_flag (index : nat) (checked : bool) (st st' : State) :
    updateInventoryItem index (is_festival_sensitive_is checked) st = Some st' ->
    step st st'
| step_constraint (index : nat) (input : ConstraintInput) (text : string)
    (st st' : State) :
    editConstraint index input text st = Some st' ->
    step st st'
| step_supplier (st : State) :
    step st (addSupplier st)
| step_multiplier (text : string) (st : State) :
    step st (editMultiplier text st)
| step_plan (st : State) :
    step st (handleFestivalPlanning st)
| step_optimize (h : Host) (st : State) :
    step st (handleSupplyChainOptimization h st).

(** The states the page can reach from its initial state. *)
Inductive reachable : State -> Prop :=
| reachable_initial : reachable initialState
| reachable_step (st st' : State) : reachable st -> step st st' -> reachable st'.

(** The six counts of a SKU record are whole numbers. *)
Definition whole_counts (item : EnhancedInventoryData) : Prop :=
  whole (current_stock item)
  /\ whole (forecast_demand item)
  /\ whole (actual_demand item)
  /\ whole (production_capacity item)
  /\ whole (lead_time_days item)
  /\ whole (shelf_life_days item).


(** What every reachable state satisfies. *)
Definition page_invariant (st : State) : Prop :=
  Forall whole_counts (inventoryData st)
  /\ Forall (fun c => whole (weekly_capacity c)) (productionConstraints st)
  /\ map factory_location (productionConstraints st) = ["Delhi"; "Pune"]%string
  /\ truthy (festivalMultiplier st) = true
  /\ map Supplier.supplier_id (suppliers st)
     = map supplierId (seq 1 (List.length (suppliers st))).

(** The number a string of decimal digits stands for, leading zeros
    allowed. *)
Definition decimal_value (s : string) : option nat :=
  option_map Nat.of_uint (NilEmpty.uint_of_string s).

(** [l] with [f] applied to its last element. *)
Fixpoint mapLast {A : Type} (f : A -> A) (l : list A) : list A :=
  match l with
  | [] => []
  | [x] => [f x]
  | x :: rest => x :: mapLast f rest
  end.

(** The carriage return that ends a line of a CRLF file. *)
Definition CR : string := String (ascii_of_N 13) EmptyString.

(** A line with or without a trailing carriage return. *)
Definition same_line (line line' : string) : Prop :=
  line' = line \/ line' = (line ++ CR)%string.


(** * Properties *)

(** ** Integer-valued numbers

    The counts of the record store (stocks, demands, capacities) are
    integers, unless a text of 309 digits or more was read into one; on
    integers the number operations are the integer ones. *)

Section IntegerNumbers.

Lemma Qred_inject_Z (z : Z) : Qred (inject_Z z) = inject_Z z.
Proof.
  apply Qred_identity. simpl. apply Z.gcd_1_r.
Qed.

Lemma Num_integer (q : Q) (z : Z) : q == inject_Z z -> Num (Qred q) = IZ z.
Proof.
  intros H. unfold IZ. rewrite <- (Qred_inject_Z z).
  f_equal. now apply Qred_complete.
Qed.

Lemma add_IZ (a b : Z) : add (IZ a) (IZ b) = IZ (a + b).
Proof.
  change (add (IZ a) (IZ b)) with (Num (Qred (inject_Z a + inject_Z b))).
  apply Num_integer. now rewrite inject_Z_plus.
Qed.

Lemma sub_IZ (a b : Z) : sub (IZ a) (IZ b) = IZ (a - b).
Proof.
  change (sub (IZ a) (IZ b)) with (Num (Qred (inject_Z a - inject_Z b))).
  apply Num_integer.
  unfold Z.sub. rewrite inject_Z_plus, inject_Z_opp. reflexivity.
Qed.

Lemma mul_IZ (a b : Z) : mul (IZ a) (IZ b) = IZ (a * b).
Proof.
  change (mul (IZ a) (IZ b)) with (Num (Qred (inject_Z a * inject_Z b))).
  apply Num_integer. now rewrite inject_Z_mult.
Qed.

Lemma Qcompare_inject_Z (a b : Z) : Qcompare (inject_Z a) (inject_Z b) = (a ?= b).
Proof.
  unfold Qcompare; simpl. now rewrite !Z.mul_1_r.
Qed.

Lemma cmp_IZ (a b : Z) : cmp (IZ a) (IZ b) = Some (a ?= b).
Proof.
  change (cmp (IZ a) (IZ b)) with (Some (Qcompare (inject_Z a) (inject_Z b))).
  now rewrite Qcompare_inject_Z.
Qed.

Lemma lt_IZ (a b : Z) : lt (IZ a) (IZ b) = (a <? b).
Proof.
  unfold lt. rewrite cmp_IZ. unfold Z.ltb. now destruct (a ?= b).
Qed.

Lemma gt_IZ (a b : Z) : gt (IZ a) (IZ b) = (b <? a).
Proof. apply lt_IZ. Qed.

Lemma le_IZ (a b : Z) : le (IZ a) (IZ b) = (a <=? b).
Proof.
  unfold le. rewrite cmp_IZ. unfold Z.leb. now destruct (a ?= b).
Qed.

Lemma Math_min_IZ (a b : Z) : Math_min (IZ a) (IZ b) = IZ (Z.min a b).
Proof.
  unfold Math_min. rewrite cmp_IZ. unfold Z.min. now destruct (a ?= b).
Qed.

Lemma Math_max_IZ (a b : Z) : Math_max (IZ a) (IZ b) = IZ (Z.max a b).
Proof.
  unfold Math_max. rewrite cmp_IZ. unfold Z.max. now destruct (a ?= b).
Qed.

Lemma IZ_inj (a b : Z) : IZ a = IZ b -> a = b.
Proof. unfold IZ. intros H. now injection H. Qed.

End IntegerNumbers.

(** ** Binary64 rounding

    What the development uses of [binary64]: it never gives [NaN], it
    keeps the integers up to [2 ^ 53], it takes integers to integers or
    infinities, it does not cross an integer up to [2 ^ 53], and it
    overflows only beyond [2 ^ 1000]. *)

Section Binary64.

Lemma pow2_pos (e : Z) : 0 < 2 ^ Z.max 0 e.
Proof. apply Z.pow_pos_nonneg; lia. Qed.

Lemma pow2_split (x y : Z) : 0 <= x -> 0 <= y -> 2 ^ (x + y) = 2 ^ x * 2 ^ y.
Proof. intros. now apply Z.pow_add_r. Qed.

(** [2 ^ l <= a / d < 2 ^ (l + 1)], cleared of fractions. *)
Lemma log2_ratio_spec (a d : Z) :
  0 < a -> 0 < d ->
  let l := log2_ratio a d in
  d * 2 ^ Z.max 0 l <= a * 2 ^ Z.max 0 (- l)
  /\ a * 2 ^ Z.max 0 (- (l + 1)) < d * 2 ^ Z.max 0 (l + 1).
Proof.
  intros Ha Hd. unfold log2_ratio.
  destruct (Z.log2_spec a Ha) as [Ha1 Ha2].
  destruct (Z.log2_spec d Hd) as [Hd1 Hd2].
  pose proof (Z.log2_nonneg a) as Hp. pose proof (Z.log2_nonneg d) as Hr.
  set (p := Z.log2 a) in *. set (r := Z.log2 d) in *.
  set (k := p - r).
  rewrite (Z.pow_succ_r 2 p Hp) in Ha2. rewrite (Z.pow_succ_r 2 r Hr) in Hd2.
  assert (Hp0 : 0 < 2 ^ p) by (apply Z.pow_pos_nonneg; lia).
  assert (Hr0 : 0 < 2 ^ r) by (apply Z.pow_pos_nonneg; lia).
  destruct (Z.ltb_spec (a * 2 ^ Z.max 0 (- k)) (d * 2 ^ Z.max 0 k)) as [Hlt|Hge];
    cbv zeta.
  - replace (k - 1 + 1) with k by lia. split; [|exact Hlt].
    destruct (Z_le_gt_dec 1 k) as [Hk|Hk].
    + rewrite (Z.max_r 0 (k - 1)), (Z.max_l 0 (- (k - 1))) by lia.
      assert (E : 2 ^ p = 2 ^ r * 2 ^ (k - 1) * 2).
      { replace p with (r + (k - 1) + 1) at 1 by (unfold k; lia).
        rewrite !pow2_split by lia. reflexivity. }
      assert (0 < 2 ^ (k - 1)) by (apply Z.pow_pos_nonneg; lia).
      change (2 ^ 0) with 1. nia.
    + rewrite (Z.max_l 0 (k - 1)), (Z.max_r 0 (- (k - 1))) by lia.
      assert (E : 2 ^ r * 2 = 2 ^ p * 2 ^ (- (k - 1))).
      { replace (2 ^ r * 2) with (2 ^ (r + 1)) by (rewrite pow2_split by lia; reflexivity).
        replace (r + 1) with (p + - (k - 1)) by (unfold k; lia).
        rewrite pow2_split by lia. reflexivity. }
      assert (0 < 2 ^ (- (k - 1))) by (apply Z.pow_pos_nonneg; lia).
      change (2 ^ 0) with 1. nia.
  - split; [lia|].
    destruct (Z_le_gt_dec 0 (k + 1)) as [Hk|Hk].
    + rewrite (Z.max_r 0 (k + 1)), (Z.max_l 0 (- (k + 1))) by lia.
      assert (E : 2 ^ p * 2 = 2 ^ r * 2 ^ (k + 1)).
      { replace (2 ^ p * 2) with (2 ^ (p + 1)) by (rewrite pow2_split by lia; reflexivity).
        replace (p + 1) with (r + (k + 1)) by (unfold k; lia).
        rewrite pow2_split by lia. reflexivity. }
      assert (0 < 2 ^ (k + 1)) by (apply Z.pow_pos_nonneg; lia).
      change (2 ^ 0) with 1. nia.
    + rewrite (Z.max_l 0 (k + 1)), (Z.max_r 0 (- (k + 1))) by lia.
      assert (E : 2 ^ r = 2 ^ p * 2 * 2 ^ (- (k + 1))).
      { replace r with (p + 1 + - (k + 1)) at 1 by (unfold k; lia).
        rewrite !pow2_split by lia. reflexivity. }
      assert (0 < 2 ^ (- (k + 1))) by (apply Z.pow_pos_nonneg; lia).
      change (2 ^ 0) with 1. nia.
Qed.

Lemma nearest_even_bounds (n d : Z) :
  0 < d -> n / d <= nearest_even n d <= n / d + 1.
Proof.
  intros Hd. unfold nearest_even.
  destruct (2 * (n mod d) ?= d); [destruct (Z.even (n / d))| |]; lia.
Qed.

Lemma nearest_even_exact (n d : Z) :
  0 < d -> n mod d = 0 -> nearest_even n d = n / d.
Proof.
  intros Hd H. unfold nearest_even. rewrite H.
  destruct (Z.compare_spec (2 * 0) d); lia.
Qed.

Lemma nearest_even_ge (n d c : Z) :
  0 < d -> c * d <= n -> c <= nearest_even n d.
Proof.
  intros Hd H. pose proof (nearest_even_bounds n d Hd).
  assert (c <= n / d) by (apply Z.div_le_lower_bound; lia). lia.
Qed.

Lemma nearest_even_le (n d c : Z) :
  0 < d -> n <= c * d -> nearest_even n d <= c.
Proof.
  intros Hd H. destruct (Z.eq_dec n (c * d)) as [->|Hne].
  - rewrite nearest_even_exact; [|lia|apply Z.mod_mul; try lia].
    rewrite Z.div_mul by lia. lia.
  - pose proof (nearest_even_bounds n d Hd).
    assert (n / d < c) by (apply Z.div_lt_upper_bound; lia). lia.
Qed.


Lemma binary64_not_NaN (q : Q) : binary64 q <> NaN.
Proof.
  unfold binary64. destruct (_ =? 0); [discriminate|].
  destruct (_ <=? _); [destruct (_ <? 0)|]; discriminate.
Qed.

Lemma Qred_scaled (x s : Z) :
  0 < s -> Qred (x * s # Z.to_pos s) = inject_Z x.
Proof.
  intros Hs. rewrite <- (Qred_inject_Z x). apply Qred_complete.
  unfold Qeq, inject_Z. cbn [Qnum Qden]. rewrite Z2Pos.id by assumption. ring.
Qed.

(** The significand of a value that is not zero is at most [2 ^ 53]. *)
Lemma significand_bound (a d : Z) :
  0 < a -> 0 < d ->
  let e := Z.max (log2_ratio a d - 52) (- 1074) in
  nearest_even (a * 2 ^ Z.max 0 (- e)) (d * 2 ^ Z.max 0 e) <= 2 ^ 53.
Proof.
  intros Ha Hd e.
  destruct (log2_ratio_spec a d Ha Hd) as [_ Hup]. cbv zeta in Hup.
  set (l := log2_ratio a d) in *.
  pose proof (pow2_pos e). pose proof (pow2_pos (- e)).
  apply nearest_even_le; [nia|].
  destruct (Z_le_gt_dec (- 1074) (l - 52)) as [Hl|Hl].
  - assert (He : e = l - 52) by (unfold e; lia). rewrite He. clear He e H H0.
    destruct (Z_le_gt_dec 52 l) as [H52|H52].
    + rewrite (Z.max_l 0 (- (l - 52))), (Z.max_r 0 (l - 52)) by lia.
      rewrite (Z.max_l 0 (- (l + 1))), (Z.max_r 0 (l + 1)) in Hup by lia.
      replace (l + 1) with (l - 52 + 53) in Hup by lia.
      rewrite pow2_split in Hup by lia. change (2 ^ 0) with 1 in *. nia.
    + rewrite (Z.max_r 0 (- (l - 52))), (Z.max_l 0 (l - 52)) by lia.
      change (2 ^ 0) with 1.
      destruct (Z_le_gt_dec 0 (l + 1)) as [H1|H1].
      * rewrite (Z.max_l 0 (- (l + 1))), (Z.max_r 0 (l + 1)) in Hup by lia.
        change (2 ^ 0) with 1 in Hup.
        assert (E : 2 ^ 53 = 2 ^ (l + 1) * 2 ^ (- (l - 52))).
        { rewrite <- pow2_split by lia. f_equal. lia. }
        assert (0 < 2 ^ (- (l - 52))) by (apply Z.pow_pos_nonneg; lia).
        rewrite E. nia.
      * rewrite (Z.max_r 0 (- (l + 1))), (Z.max_l 0 (l + 1)) in Hup by lia.
        change (2 ^ 0) with 1 in Hup.
        assert (E : 2 ^ (- (l - 52)) = 2 ^ (- (l + 1)) * 2 ^ 53).
        { rewrite <- pow2_split by lia. f_equal. lia. }
        rewrite E. nia.
  - assert (He : e = - 1074) by (unfold e; lia). rewrite He. clear He e H H0.
    rewrite (Z.max_r 0 (- - 1074)), (Z.max_l 0 (- 1074)) by lia.
    rewrite (Z.max_r 0 (- (l + 1))), (Z.max_l 0 (l + 1)) in Hup by lia.
    change (2 ^ 0) with 1 in *.
    assert (H53 : 0 < 2 ^ 53) by (apply Z.pow_pos_nonneg; lia).
    destruct (Z_le_gt_dec 1074 (- (l + 1))) as [Hs|Hs].
    + assert (2 ^ (- - 1074) <= 2 ^ (- (l + 1))) by (apply Z.pow_le_mono_r; lia).
      nia.
    + assert (E : 2 ^ (- - 1074) = 2 ^ (- (l + 1)) * 2 ^ (1075 + l)).
      { rewrite <- pow2_split by lia. f_equal. lia. }
      assert (2 ^ (1075 + l) <= 2 ^ 53) by (apply Z.pow_le_mono_r; lia).
      assert (0 < 2 ^ (1075 + l)) by (apply Z.pow_pos_nonneg; lia).
      rewrite E. nia.
Qed.


(** An integer whose magnitude is below [2 ^ 53] is a binary64 value. *)
Lemma binary64_Z_fine (z : Z) :
  z <> 0 -> log2_ratio (Z.abs z) 1 <= 52 -> binary64 (inject_Z z) = IZ z.
Proof.
  intros Hz Hl. unfold binary64. cbn [inject_Z Qnum Qden].
  destruct (Z.eqb_spec (Z.abs z) 0) as [E|_]; [lia|].
  pose proof (significand_bound (Z.abs z) 1 ltac:(lia) ltac:(lia)) as Hm.
  cbv zeta in Hm.
  set (e := Z.max (log2_ratio (Z.abs z) 1 - 52) (- 1074)) in *.
  assert (He : e <= 0) by (unfold e; lia).
  rewrite (Z.max_l 0 e) in * by lia. rewrite (Z.max_r 0 (- e)) in * by lia.
  change (2 ^ 0) with 1 in *. rewrite !Z.mul_1_r in *.
  assert (Hp : 0 < 2 ^ (- e)) by (apply Z.pow_pos_nonneg; lia).
  rewrite nearest_even_exact in * by (try apply Z.mod_1_r; lia).
  rewrite Z.div_1_r in *.
  destruct (Z.leb_spec (2 ^ 1024) (Z.abs z * 2 ^ (- e))) as [Hov|_].
  - assert (2 ^ 53 < 2 ^ 1024) by (apply Z.pow_lt_mono_r; lia). lia.
  - unfold IZ. f_equal.
    replace (Z.sgn z * (Z.abs z * 2 ^ (- e))) with (z * 2 ^ (- e))
      by (rewrite Z.mul_assoc, (Z.mul_comm (Z.sgn z)), Z.abs_sgn; reflexivity).
    now apply Qred_scaled.
Qed.

Lemma binary64_safe (z : Z) :
  Z.abs z <= 2 ^ 53 -> binary64 (inject_Z z) = IZ z.
Proof.
  intros Hz.
  destruct (Z.eq_dec z 0) as [->|Hz0]; [reflexivity|].
  destruct (Z.eq_dec (Z.abs z) (2 ^ 53)) as [E|Hne].
  - destruct (Z.abs_eq_or_opp z) as [E'|E']; rewrite E' in E.
    + subst z. vm_compute. reflexivity.
    + replace z with (- 2 ^ 53) by lia. vm_compute. reflexivity.
  - apply binary64_Z_fine; [assumption|].
    destruct (log2_ratio_spec (Z.abs z) 1 ltac:(lia) ltac:(lia)) as [Hlo _].
    cbv zeta in Hlo. set (l := log2_ratio (Z.abs z) 1) in *.
    destruct (Z_le_gt_dec l 52) as [|Hl]; [assumption|exfalso].
    rewrite (Z.max_r 0 l), (Z.max_l 0 (- l)) in Hlo by lia.
    change (2 ^ 0) with 1 in Hlo.
    assert (2 ^ 53 <= 2 ^ l) by (apply Z.pow_le_mono_r; lia). lia.
Qed.

(** The binary64 value of an integer is an integer or an infinity. *)
Lemma binary64_integer (z : Z) :
  binary64 (inject_Z z) = PosInf \/ binary64 (inject_Z z) = NegInf
  \/ exists z', binary64 (inject_Z z) = IZ z'.
Proof.
  destruct (Z.eq_dec z 0) as [->|Hz0]; [right; right; now exists 0|].
  destruct (Z_le_gt_dec (log2_ratio (Z.abs z) 1) 52) as [Hl|Hl].
  - right; right. exists z. now apply binary64_Z_fine.
  - unfold binary64. cbn [inject_Z Qnum Qden].
    destruct (Z.eqb_spec (Z.abs z) 0) as [E|_]; [lia|].
    set (e := Z.max (log2_ratio (Z.abs z) 1 - 52) (- 1074)) in *.
    assert (He : 0 < e) by (unfold e; lia).
    rewrite (Z.max_r 0 e), (Z.max_l 0 (- e)) by lia.
    destruct (_ <=? _); [destruct (z <? 0); auto|].
    right; right. eexists. unfold IZ. f_equal.
    change (Z.to_pos (2 ^ 0)) with 1%positive. apply Qred_inject_Z.
Qed.

(** Rounding does not take a value below a non-negative integer it is
    above, when that integer is at most [2 ^ 53]. *)
Lemma binary64_lower (z : Z) (x : Q) :
  0 <= z <= 2 ^ 53 -> (inject_Z z <= x)%Q ->
  binary64 x = PosInf \/ exists r, binary64 x = Num r /\ (inject_Z z <= r)%Q.
Proof.
  intros [Hz0 Hz] Hx. destruct x as [n pd].
  unfold Qle in Hx. cbn [inject_Z Qnum Qden] in Hx. rewrite Z.mul_1_r in Hx.
  unfold binary64. cbn [Qnum Qden].
  destruct (Z.eqb_spec (Z.abs n) 0) as [E|Hn].
  - right. exists 0%Q. split; [reflexivity|].
    unfold Qle. cbn [inject_Z Qnum Qden]. nia.
  - assert (Hpos : 0 < n) by nia.
    rewrite (Z.abs_eq n) in * by lia. rewrite (Z.sgn_pos n Hpos), Z.mul_1_l.
    destruct (log2_ratio_spec n (Z.pos pd) Hpos ltac:(lia)) as [Hlo _].
    cbv zeta in Hlo. set (l := log2_ratio n (Z.pos pd)) in *.
    set (e := Z.max (l - 52) (- 1074)).
    set (m := nearest_even _ _).
    destruct (_ <=? _).
    + left. destruct (Z.ltb_spec n 0); [lia | reflexivity].
    + right. eexists. split; [reflexivity|]. rewrite Qred_correct.
      pose proof (pow2_pos e) as Hu. pose proof (pow2_pos (- e)) as Hv.
      unfold Qle. cbn [inject_Z Qnum Qden]. rewrite Z.mul_1_r, Z2Pos.id by assumption.
      destruct (Z_le_gt_dec e 0) as [He|He].
      * assert (Hm : z * 2 ^ Z.max 0 (- e) <= m).
        { apply nearest_even_ge; [nia|].
          rewrite (Z.max_l 0 e) by lia. change (2 ^ 0) with 1. nia. }
        rewrite (Z.max_l 0 e) by lia. change (2 ^ 0) with 1. lia.
      * assert (El : e = l - 52) by (unfold e; lia).
        assert (Hm : 2 ^ 52 <= m).
        { apply nearest_even_ge; [nia|].
          rewrite (Z.max_l 0 (- e)), (Z.max_r 0 e) by lia.
          rewrite (Z.max_r 0 l), (Z.max_l 0 (- l)) in Hlo by lia.
          change (2 ^ 0) with 1 in *.
          replace l with (52 + e) in Hlo by lia.
          rewrite pow2_split in Hlo by lia. nia. }
        rewrite (Z.max_l 0 (- e)), (Z.max_r 0 e) by lia. change (2 ^ 0) with 1.
        assert (0 < 2 ^ 52) by (apply Z.pow_pos_nonneg; lia).
        assert (2 ^ 1 <= 2 ^ e) by (apply Z.pow_le_mono_r; lia).
        change (2 ^ 1) with 2 in *.
        assert (2 ^ 53 = 2 ^ 52 * 2) by reflexivity. nia.
Qed.

(** A value of magnitude at most [2 ^ 1000] does not overflow. *)
Lemma binary64_finite (x : Q) :
  (Qabs x <= inject_Z (2 ^ 1000))%Q -> isFinite (binary64 x) = true.
Proof.
  destruct x as [n pd]. intros Hx.
  unfold Qle in Hx. cbn [Qabs inject_Z Qnum Qden] in Hx. rewrite Z.mul_1_r in Hx.
  unfold binary64. cbn [Qnum Qden].
  destruct (Z.eqb_spec (Z.abs n) 0) as [E|Hn]; [reflexivity|].
  assert (Ha : 0 < Z.abs n) by lia.
  pose proof (significand_bound (Z.abs n) (Z.pos pd) Ha ltac:(lia)) as Hm.
  destruct (log2_ratio_spec (Z.abs n) (Z.pos pd) Ha ltac:(lia)) as [Hlo _].
  cbv zeta in Hm, Hlo. set (l := log2_ratio (Z.abs n) (Z.pos pd)) in *.
  set (e := Z.max (l - 52) (- 1074)) in *.
  set (m := nearest_even _ _) in *.
  destruct (Z.leb_spec (2 ^ 1024) (m * 2 ^ Z.max 0 e)) as [Hov|_]; [exfalso|reflexivity].
  assert (H53 : 0 < 2 ^ 53) by (apply Z.pow_pos_nonneg; lia).
  destruct (Z_le_gt_dec e 0) as [He|He].
  - rewrite (Z.max_l 0 e) in Hov by lia. change (2 ^ 0) with 1 in Hov.
    assert (2 ^ 53 < 2 ^ 1024) by (apply Z.pow_lt_mono_r; lia). lia.
  - rewrite (Z.max_r 0 e) in Hov by lia.
    rewrite (Z.max_r 0 l), (Z.max_l 0 (- l)) in Hlo by lia.
    change (2 ^ 0) with 1 in Hlo.
    assert (Hl : l <= 1000).
    { apply (Z.pow_le_mono_r_iff 2); [lia | lia | nia]. }
    assert (2 ^ e <= 2 ^ 948) by (apply Z.pow_le_mono_r; lia).
    assert (0 < 2 ^ e) by (apply Z.pow_pos_nonneg; lia).
    assert (2 ^ 53 * 2 ^ 948 < 2 ^ 1024).
    { rewrite <- pow2_split by lia. apply Z.pow_lt_mono_r; lia. }
    nia.
Qed.

(** Nor does rounding take a non-negative value above an integer it is
    below, when that integer is at most [2 ^ 53]. *)
Lemma binary64_upper (c : Z) (x : Q) :
  c <= 2 ^ 53 -> (0 <= x)%Q -> (x <= inject_Z c)%Q ->
  exists r, binary64 x = Num r /\ (0 <= r)%Q /\ (r <= inject_Z c)%Q.
Proof.
  intros Hc H0 Hx. destruct x as [n pd].
  unfold Qle in H0, Hx. cbn [inject_Z Qnum Qden] in H0, Hx.
  rewrite ?Z.mul_1_r, ?Z.mul_0_l in H0, Hx.
  unfold binary64. cbn [Qnum Qden].
  destruct (Z.eqb_spec (Z.abs n) 0) as [E|Hn].
  - exists 0%Q. split; [reflexivity|]. split; [apply Qle_refl|].
    unfold Qle. cbn [inject_Z Qnum Qden]. nia.
  - assert (Hpos : 0 < n) by lia.
    rewrite (Z.abs_eq n) in * by lia. rewrite (Z.sgn_pos n Hpos), Z.mul_1_l.
    destruct (log2_ratio_spec n (Z.pos pd) Hpos ltac:(lia)) as [Hlo _].
    cbv zeta in Hlo. set (l := log2_ratio n (Z.pos pd)) in *.
    set (e := Z.max (l - 52) (- 1074)).
    pose proof (pow2_pos e) as Hu. pose proof (pow2_pos (- e)) as Hv.
    assert (H53 : 2 ^ 53 = 2 ^ 52 * 2) by reflexivity.
    assert (H52 : 0 < 2 ^ 52) by (apply Z.pow_pos_nonneg; lia).
    assert (Hm : 0 <= nearest_even (n * 2 ^ Z.max 0 (- e)) (Z.pos pd * 2 ^ Z.max 0 e)
                 /\ nearest_even (n * 2 ^ Z.max 0 (- e)) (Z.pos pd * 2 ^ Z.max 0 e)
                      * 2 ^ Z.max 0 e
                    <= c * 2 ^ Z.max 0 (- e)).
    { split; [apply nearest_even_ge; nia|].
      destruct (Z_le_gt_dec e 0) as [He|He].
      - rewrite (Z.max_l 0 e) by lia. change (2 ^ 0) with 1. rewrite !Z.mul_1_r.
        apply nearest_even_le; [lia | nia].
      - assert (El : e = l - 52) by (unfold e; lia).
        rewrite (Z.max_l 0 (- e)), (Z.max_r 0 e) by lia.
        rewrite (Z.max_r 0 l), (Z.max_l 0 (- l)) in Hlo by lia.
        change (2 ^ 0) with 1 in *. rewrite Z.mul_1_r in *.
        replace l with (52 + e) in Hlo by lia.
        rewrite pow2_split in Hlo by lia.
        assert (2 ^ 1 <= 2 ^ e) by (apply Z.pow_le_mono_r; lia).
        change (2 ^ 1) with 2 in *.
        assert (Hn2 : n = 2 ^ 52 * (Z.pos pd * 2 ^ e)) by nia.
        assert (He2 : 2 ^ e = 2) by nia.
        rewrite Hn2, nearest_even_exact by (try apply Z.mod_mul; nia).
        rewrite Z.div_mul by nia. nia. }
    set (m := nearest_even _ _) in *. destruct Hm as [Hm0 Hm].
    destruct (Z.leb_spec (2 ^ 1024) (m * 2 ^ Z.max 0 e)) as [Hov|_].
    + exfalso.
      assert (2 ^ 53 < 2 ^ 1024) by (apply Z.pow_lt_mono_r; lia).
      assert (Hs : m <= 2 ^ 53).
      { apply (significand_bound n (Z.pos pd)); lia. }
      destruct (Z_le_gt_dec e 0) as [He|He].
      * rewrite (Z.max_l 0 e) in Hov by lia. change (2 ^ 0) with 1 in Hov. lia.
      * rewrite (Z.max_l 0 (- e)) in Hm by lia. change (2 ^ 0) with 1 in Hm. lia.
    + eexists. split; [reflexivity|]. rewrite Qred_correct.
      unfold Qle. cbn [inject_Z Qnum Qden].
      rewrite Z.mul_1_r, Z2Pos.id by assumption. split; nia.
Qed.

(** The difference of two integers that is at most [2 ^ 53] in magnitude
    is exact. *)
Lemma sub64_IZ (a b : Z) : Z.abs (a - b) <= 2 ^ 53 -> sub64 (IZ a) (IZ b) = IZ (a - b).
Proof.
  intros H.
  change (sub64 (IZ a) (IZ b)) with (binary64 (Qred (inject_Z a - inject_Z b))).
  replace (Qred (inject_Z a - inject_Z b)) with (inject_Z (a - b));
    [now apply binary64_safe|].
  rewrite <- (Qred_inject_Z (a - b)). apply Qred_complete.
  unfold Z.sub. rewrite inject_Z_plus, inject_Z_opp. reflexivity.
Qed.

(** Multiplying by 1 keeps an integer up to [2 ^ 53]. *)
Lemma mul64_one (z : Z) : Z.abs z <= 2 ^ 53 -> mul64 (IZ z) (IZ 1) = IZ z.
Proof.
  intros Hz.
  change (mul64 (IZ z) (IZ 1)) with (binary64 (Qred (inject_Z z * inject_Z 1))).
  replace (Qred (inject_Z z * inject_Z 1)) with (inject_Z z);
    [now apply binary64_safe|].
  rewrite <- (Qred_inject_Z z) at 1. apply Qred_complete.
  rewrite <- inject_Z_mult, Z.mul_1_r. reflexivity.
Qed.

End Binary64.


(** ** The production allocator on integer capacities *)

Section Allocator.

Lemma zsum_cons (z : Z) (l : list Z) : zsum (z :: l) = z + zsum l.
Proof. reflexivity. Qed.

Lemma fold_add_IZ {A : Type} (f : A -> number) (l : list A) (zs : list Z) :
  Forall2 (fun x z => f x = IZ z) l zs ->
  forall acc,
    fold_left (fun sum x => add sum (f x)) l (IZ acc) = IZ (acc + zsum zs).
Proof.
  induction 1 as [|x z l zs Hx _ IH]; intros acc; cbn [fold_left zsum fold_right].
  - now rewrite Z.add_0_r.
  - rewrite Hx, add_IZ, IH. f_equal. unfold zsum. lia.
Qed.

Lemma sum_by_IZ {A : Type} (f : A -> number) (l : list A) (zs : list Z) :
  Forall2 (fun x z => f x = IZ z) l zs -> sum_by f l = IZ (zsum zs).
Proof.
  intros H. unfold sum_by. now rewrite (fold_add_IZ f l zs H 0).
Qed.

Lemma totalCapacity_IZ factories cs :
  capacities factories cs -> totalCapacity factories = IZ (zsum cs).
Proof.
  intros H. apply sum_by_IZ.
  induction H as [|f c fs cs [Hf _] _ IH]; constructor; assumption.
Qed.

Lemma allocated_sum allocs xcs :
  within_capacity allocs xcs ->
  sum_by Allocation.allocatedDemand allocs = IZ (zsum (map fst xcs)).
Proof.
  intros H. apply sum_by_IZ.
  induction H as [|a xc l l' (Ha & _) _ IH]; simpl; constructor; assumption.
Qed.

Lemma within_capacity_le allocs xcs :
  within_capacity allocs xcs -> zsum (map fst xcs) <= zsum (map snd xcs).
Proof.
  induction 1 as [|a xc l l' (_ & _ & Hx) _ IH]; simpl; lia.
Qed.

(** The proportional target of a factory is a non-negative integer. *)
Lemma target_integer (P c T : Z) :
  0 <= P -> 0 <= c -> 0 < T ->
  exists t, Math_round (mul (IZ P) (div (IZ c) (IZ T))) = IZ t /\ 0 <= t.
Proof.
  intros HP Hc HT.
  assert (Hs : Qsign (inject_Z T) = Gt).
  { unfold Qsign. change 0%Q with (inject_Z 0).
    rewrite Qcompare_inject_Z. now apply Z.compare_gt_iff. }
  unfold IZ at 2 3. unfold div. rewrite Hs.
  unfold IZ at 1. unfold mul, Math_round.
  eexists; split; [reflexivity|].
  change 0 with (Qfloor 0). apply Qfloor_resp_le.
  rewrite Qred_correct, Qred_correct.
  assert (0 <= inject_Z P)%Q by (change 0%Q with (inject_Z 0); now rewrite <- Zle_Qle).
  assert (0 <= inject_Z c)%Q by (change 0%Q with (inject_Z 0); now rewrite <- Zle_Qle).
  assert (0 < inject_Z T)%Q by (change 0%Q with (inject_Z 0); now rewrite <- Zlt_Qlt).
  assert (0 <= inject_Z c / inject_Z T)%Q.
  { apply Qle_shift_div_l; [assumption|]. now rewrite Qmult_0_l. }
  assert (0 <= inject_Z P * (inject_Z c / inject_Z T))%Q
    by (apply Qmult_le_0_compat; assumption).
  apply Qle_trans with (0 + 0)%Q; [discriminate|].
  apply Qplus_le_compat; [assumption | discriminate].
Qed.

Lemma proportionalPass_integer factories cs :
  capacities factories cs ->
  forall P T R, 0 <= P -> 0 < T -> 0 <= R ->
  exists allocs xcs r,
    proportionalPass (IZ P) (IZ T) (IZ R) factories = (allocs, IZ r) /\
    within_capacity allocs xcs /\ map snd xcs = cs /\
    0 <= r /\ zsum (map fst xcs) + r = R.
Proof.
  induction 1 as [|f c fs cs [Hf Hc] _ IH]; intros P T R HP HT HR.
  - exists [], [], R.
    split; [reflexivity|]. split; [constructor|]. split; [reflexivity|].
    split; [assumption | simpl; lia].
  - cbn [proportionalPass]. rewrite Hf.
    destruct (target_integer P c T HP Hc HT) as (t & -> & Ht).
    unfold Math_min3. rewrite !Math_min_IZ, sub_IZ.
    set (x := Z.min (Z.min t c) R).
    assert (Hx : 0 <= x <= c /\ x <= R) by (unfold x; lia).
    destruct (IH P T (R - x) HP HT ltac:(lia)) as (allocs & xcs & r & -> & Hw & Hcs & Hr & Hsum).
    eexists; exists ((x, c) :: xcs), r.
    split; [reflexivity|].
    split; [|split; [|split]].
    + constructor; [|assumption]. cbn [fst snd Allocation.allocatedDemand Allocation.capacity].
      split; [reflexivity|]. split; [reflexivity | lia].
    + cbn [map snd]. now rewrite Hcs.
    + assumption.
    + cbn [map fst snd]. rewrite ?zsum_cons. lia.
Qed.

Lemma redistribute_integer allocs xcs :
  within_capacity allocs xcs ->
  forall R, 0 <= R ->
  exists allocs' xcs' r,
    redistribute (IZ R) allocs = (allocs', IZ r) /\
    within_capacity allocs' xcs' /\ map snd xcs' = map snd xcs /\
    0 <= r /\ zsum (map fst xcs') + r = zsum (map fst xcs) + R /\
    (r = 0 \/ zsum (map fst xcs') = zsum (map snd xcs')).
Proof.
  induction 1 as [|a [x c] l l' (Ha & Hcap & Hx) Hl IH]; intros R HR;
    cbn [fst snd] in *.
  - exists [], [], R.
    split; [reflexivity|]. split; [constructor|]. split; [reflexivity|].
    split; [assumption|]. split; [reflexivity | right; reflexivity].
  - cbn [redistribute]. rewrite Ha, Hcap, sub_IZ, gt_IZ.
    destruct (Z.ltb_spec 0 (c - x)) as [Hspare|Hfull].
    + rewrite Math_min_IZ, add_IZ, sub_IZ, le_IZ.
      set (additional := Z.min (c - x) R).
      destruct (Z.leb_spec (R - additional) 0) as [Hdone|Hmore].
      * eexists; exists ((x + additional, c) :: l'), (R - additional).
        assert (additional = R) by (unfold additional in *; lia).
        split; [reflexivity|]. split; [|split; [|split; [|split]]].
        -- constructor; [|assumption].
           cbn [fst snd Allocation.allocatedDemand Allocation.capacity].
           split; [reflexivity|]. split; [reflexivity | lia].
        -- reflexivity.
        -- lia.
        -- cbn [map fst snd]. rewrite ?zsum_cons. lia.
        -- left; lia.
      * destruct (IH (R - additional) ltac:(lia))
          as (rest' & xcs' & r & -> & Hw & Hcs & Hr & Hsum & Hend).
        eexists; exists ((x + additional, c) :: xcs'), r.
        assert (additional = c - x) by (unfold additional in *; lia).
        split; [reflexivity|]. split; [|split; [|split; [|split]]].
        -- constructor; [|assumption].
           cbn [fst snd Allocation.allocatedDemand Allocation.capacity].
           split; [reflexivity|]. split; [reflexivity | lia].
        -- cbn [map snd]. now rewrite Hcs.
        -- assumption.
        -- cbn [map fst snd]. rewrite ?zsum_cons. lia.
        -- cbn [map fst snd]. rewrite ?zsum_cons. lia.
    + destruct (IH R HR) as (rest' & xcs' & r & -> & Hw & Hcs & Hr & Hsum & Hend).
      eexists; exists ((x, c) :: xcs'), r.
      split; [reflexivity|]. split; [|split; [|split; [|split]]].
      * constructor; [|assumption]. cbn [fst snd].
        split; [assumption|]. split; [assumption | lia].
      * cbn [map snd]. now rewrite Hcs.
      * assumption.
      * cbn [map fst snd]. rewrite ?zsum_cons. lia.
      * cbn [map fst snd]. rewrite ?zsum_cons. lia.
Qed.

(** With a positive total capacity the two passes keep every allocation
    within its factory's capacity and allocate [min(P, total capacity)]
    in all. *)
Lemma allocate_within factories cs P :
  capacities factories cs -> 0 < zsum cs -> 0 <= P ->
  exists xcs,
    within_capacity (fst (allocate (IZ P) factories)) xcs
    /\ map snd xcs = cs
    /\ zsum (map fst xcs) = Z.min P (zsum cs).
Proof.
  intros Hcaps HT HP. unfold allocate.
  rewrite (totalCapacity_IZ _ _ Hcaps).
  destruct (proportionalPass_integer _ _ Hcaps P (zsum cs) P HP HT HP)
    as (allocs & xcs & r & -> & Hw & Hcs & Hr & Hsum).
  pose proof (within_capacity_le _ _ Hw) as Hle. rewrite Hcs in Hle.
  rewrite gt_IZ.
  destruct (Z.ltb_spec 0 r) as [Hpos|Hzero].
  - destruct (redistribute_integer _ _ Hw r Hr)
      as (allocs' & xcs' & r' & -> & Hw' & Hcs' & Hr' & Hsum' & Hend).
    pose proof (within_capacity_le _ _ Hw') as Hle'.
    rewrite Hcs', Hcs in Hle', Hend.
    exists xcs'. cbn [fst]. split; [assumption|].
    split; [congruence | lia].
  - exists xcs. cbn [fst]. split; [assumption|]. split; [assumption | lia].
Qed.


End Allocator.

(** ** Demand resolution *)

Section DemandResolver.



End DemandResolver.

(** ** Inventory policy *)

Section InventoryPolicyCalculator.

(** Rounding an integer scaled by the constant [n/d]:
    [round(z * n/d) = floor((2nz + d) / 2d)]. *)
Lemma round_scaled (z n : Z) (d : positive) :
  Math_round (mul (IZ z) (lit n d)) = IZ ((2 * n * z + Zpos d) / (2 * Zpos d)).
Proof.
  unfold lit, IZ at 1, mul, Math_round. f_equal.
  assert (E : (Qred (inject_Z z * Qred (n # d)) + (1 # 2)
               == (2 * n * z + Zpos d) # (2 * d))%Q).
  { rewrite !Qred_correct. unfold Qeq, Qplus, Qmult, inject_Z.
    cbn [Qnum Qden]. rewrite !Pos2Z.inj_mul. ring. }
  rewrite E. reflexivity.
Qed.


(** On integer figures the three quantities are integer roundings:
    for demand [z] they are [floor((12z+5)/10)], [floor((3z+5)/10)] and
    [floor((8z+5)/10)], and the stock comparison is the integer one. *)
Lemma inventoryPolicy_integer (plan : option FestivalPlan)
    (item : EnhancedInventoryData) (z s : Z) :
  getEffectiveDemand plan item = IZ z ->
  current_stock item = IZ s ->
  InventoryPolicy.optimalInventory (inventoryPolicy plan item) = IZ ((12 * z + 5) / 10)
  /\ InventoryPolicy.safetyStock (inventoryPolicy plan item) = IZ ((3 * z + 5) / 10)
  /\ InventoryPolicy.reorderPoint (inventoryPolicy plan item) = IZ ((8 * z + 5) / 10)
  /\ InventoryPolicy.recommendation (inventoryPolicy plan item)
     = if s <? z then "INCREASE"%string else "OPTIMIZE"%string.
Proof.
  intros Hd Hs. unfold inventoryPolicy.
  cbn [InventoryPolicy.optimalInventory InventoryPolicy.safetyStock
       InventoryPolicy.reorderPoint InventoryPolicy.recommendation].
  rewrite Hd, Hs, lt_IZ, !round_scaled.
  repeat split; f_equal.
  - replace (2 * 12 * z + 10) with ((12 * z + 5) * 2) by ring.
    change (2 * 10) with (10 * 2). now rewrite Z.div_mul_cancel_r.
  - replace (2 * 3 * z + 10) with ((3 * z + 5) * 2) by ring.
    change (2 * 10) with (10 * 2). now rewrite Z.div_mul_cancel_r.
  - replace (2 * 8 * z + 10) with ((8 * z + 5) * 2) by ring.
    change (2 * 10) with (10 * 2). now rewrite Z.div_mul_cancel_r.
Qed.

End InventoryPolicyCalculator.

(** ** Festival planning *)

Section FestivalPlanner.

Lemma Forall2_map_r {A B : Type} (R : A -> B -> Prop) (f : A -> B) (l : list A) :
  (forall x, R x (f x)) -> Forall2 R l (map f l).
Proof.
  intros H. induction l; simpl; constructor; auto.
Qed.

Lemma combine_map_same {A B C : Type} (f : A -> B) (g : A -> C) (l : list A) :
  combine (map f l) (map g l) = map (fun x => (f x, g x)) l.
Proof.
  induction l as [|x l IH]; simpl; [reflexivity | now rewrite IH].
Qed.

(** C6.  With [m] the multiplier in force (the configured one, or 1.35
    when that is [NaN] or zero), every SKU has in the plan the surge
    factor [m] if it is festival-sensitive and 1 otherwise, the festival
    demand [round(forecast_demand * surgeFactor)] and the buildup
    [max(0, festivalDemand - current_stock)]; every factory has the
    festival capacity [round(weekly_capacity * m)] and 2 additional
    shifts; and the handler installs this plan in place of any other. *)
Theorem C6_festival_plan :
  forall st : State,
    let m := currentMultiplier (festivalMultiplier st) in
    let plan := mockFestivalPlan st in
    m = (if truthy (festivalMultiplier st) then festivalMultiplier st else float 135 100)
    /\ currentMultiplier NaN = float 135 100
    /\ List.length (demandForecast plan) = List.length (inventoryData st)
    /\ List.length (inventoryBuildup plan) = List.length (inventoryData st)
    /\ Forall2 (sku_plan_ok m) (inventoryData st)
               (combine (demandForecast plan) (inventoryBuildup plan))
    /\ Forall2 (factory_plan_ok m) (productionConstraints st) (productionSchedule plan)
    /\ festivalPlan (handleFestivalPlanning st) = Some plan.
Proof.
  intros st m plan.
  split; [reflexivity|]. split; [reflexivity|].
  split; [apply length_map|]. split; [apply length_map|].
  split; [|split; [|reflexivity]].
  - unfold plan, mockFestivalPlan; cbn [demandForecast inventoryBuildup].
    rewrite combine_map_same. apply Forall2_map_r.
    intros item. unfold sku_plan_ok. fold m.
    cbn [DemandForecast.sku DemandForecast.baseDemand DemandForecast.festivalDemand
         DemandForecast.surgeFactor InventoryBuildup.sku
         InventoryBuildup.festivalRequirement InventoryBuildup.buildupNeeded].
    repeat split.
  - unfold plan, mockFestivalPlan; cbn [productionSchedule].
    apply Forall2_map_r. intros constraint. unfold factory_plan_ok. fold m.
    repeat split.
Qed.

(** The products are the binary64 ones.  The value 1.15 is read as the
    binary64 value just below it, so 50 times 1.15 is just below 57.5
    and the festival demand is 57, where the exact product would round
    to 58; likewise 25 times 2.3; and 10 times 1.15 is rounded to 11.5
    and gives 12. *)
Example festival_demand_binary64 :
  Math_round (mul64 (IZ 50) (parseFloat (Some "1.15"%string))) = IZ 57
  /\ Math_round (mul (IZ 50) (lit 115 100)) = IZ 58
  /\ Math_round (mul64 (IZ 25) (parseFloat (Some "2.3"%string))) = IZ 57
  /\ Math_round (mul64 (IZ 10) (parseFloat (Some "1.15"%string))) = IZ 12
  /\ Math_round (mul64 (IZ 40) (float 145 100)) = IZ 58.
Proof. repeat split; vm_compute; reflexivity. Qed.

End FestivalPlanner.

(** ** The CSV parser *)

Section Parser.

(** [parseInt] gives [NaN], an integer or, for an integer beyond the
    binary64 range, an infinity. *)
Lemma parseInt_whole (v : option string) :
  parseInt v = NaN \/ whole (parseInt v).
Proof.
  unfold parseInt.
  destruct (sign (trimStart (ToString v))) as [negative s1].
  destruct (radix_digits s1) as [[m n] r].
  destruct n; [now left | right; apply binary64_integer].
Qed.

Lemma or_default_zero (x : number) :
  x = NaN \/ whole x -> or_default x (IZ 0) = parsed_or x (IZ 0).
Proof.
  intros [-> | [-> | [-> | [z ->]]]]; try reflexivity.
  unfold or_default, parsed_or, IZ; cbn [truthy isNaN].
  destruct (Qeq_bool (inject_Z z) 0) eqn:E; [|reflexivity].
  apply Qeq_bool_eq in E. unfold Qeq in E; cbn in E.
  rewrite Z.mul_1_r in E. now subst z.
Qed.

Lemma or_default_spec (x d : number) :
  or_default x d = if is_zero x then d else parsed_or x d.
Proof.
  destruct x as [| | | q]; try reflexivity.
  unfold or_default, parsed_or; cbn [truthy is_zero isNaN].
  now destruct (Qeq_bool q 0).
Qed.

(** The records of the lines numbered [indices] depend on those lines
    only. *)
Lemma parseRows_ext (headers lines lines' : list string) (indices : list nat) :
  (forall i, In i indices -> nth_error lines i = nth_error lines' i) ->
  parseRows headers lines indices = parseRows headers lines' indices.
Proof.
  induction indices as [|i indices IH]; intros H; [reflexivity|].
  unfold parseRows in *; cbn [flat_map].
  rewrite (H i (or_introl eq_refl)). f_equal.
  apply IH. intros j Hj. apply H. now right.
Qed.

Lemma parseRows_length (headers lines : list string) (indices : list nat) :
  (List.length (parseRows headers lines indices) <= List.length indices)%nat.
Proof.
  induction indices as [|i indices IH]; [apply Nat.le_refl|].
  unfold parseRows in *; cbn [flat_map]. rewrite length_app.
  cbn [List.length].
  destruct (nth_error lines i) as [line|]; [|cbn; lia].
  destruct (parseRow headers i line); cbn; lia.
Qed.

Lemma parseRows_In (headers lines : list string) (indices : list nat)
    (item : EnhancedInventoryData) :
  In item (parseRows headers lines indices) <->
  exists i line,
    In i indices /\ nth_error lines i = Some line /\
    parseRow headers i line = Some item.
Proof.
  unfold parseRows. rewrite in_flat_map. split.
  - intros (i & Hi & Hin).
    destruct (nth_error lines i) as [line|] eqn:Hl; [|contradiction].
    destruct (parseRow headers i line) as [r|] eqn:Hr; [|contradiction].
    destruct Hin as [<-|[]]. now exists i, line.
  - intros (i & line & Hi & Hl & Hr).
    exists i. split; [assumption|]. rewrite Hl, Hr. now left.
Qed.

(** The loop runs over the data lines numbered 1 to [min(n, 9)], where
    [n] is the number of lines after the header. *)
Lemma loop_indices (lines : list string) :
  seq 1 (Nat.min (List.length lines) 10 - 1)
  = seq 1 (Nat.min (List.length lines - 1) 9).
Proof. f_equal. lia. Qed.

Lemma parsedData_first_ten (text : string) :
  parsedData text
  = let lines := firstn 10 (split newline text) in
    parseRows (split "," (nth 0 lines EmptyString)) lines
              (seq 1 (List.length lines - 1)).
Proof.
  unfold parsedData. cbv zeta.
  rewrite nth_firstn, length_firstn. cbn [Nat.ltb Nat.leb].
  rewrite (Nat.min_comm 10).
  apply parseRows_ext. intros i Hi. apply in_seq in Hi.
  rewrite nth_error_firstn.
  destruct (Nat.ltb_spec i 10); [reflexivity | lia].
Qed.

Lemma isSensitive_spec (v : option string) :
  isSensitive v = true <->
  exists s, v = Some s /\ toLowerCase (trim s) = "true"%string.
Proof.
  destruct v as [[|c r]|]; cbn [isSensitive].
  - split; [discriminate|]. intros (s & [= <-] & H). discriminate H.
  - rewrite String.eqb_eq. split.
    + intros H. eexists; split; [reflexivity | exact H].
    + now intros (s & [= <-] & H).
  - split; [discriminate|]. now intros (s & [=] & _).
Qed.

(** C8 (as amended).  A line with fewer fields than the header yields no
    record.  Any other line yields a record in which: the four counts
    defaulting to 0 hold the parsed integer when the text is parsable and
    0 otherwise; each of [unit_cost], [holding_cost_rate],
    [stockout_penalty], [lead_time_days], [shelf_life_days] holds the
    parsed value when the text is parsable and the value is not zero, and
    its default (10, 0.25, 50, 7, 90) otherwise; the festival flag is true
    exactly when the thirteenth field, trimmed and lower-cased, is "true";
    and an absent or empty [sku], [warehouse], [product_category] becomes
    "SKU-i", "Delhi", "Snacks".  Each of the first nine data lines is
    parsed on its own: its record is in the result whatever the other
    lines hold. *)
Theorem C8_row_parsing :
  forall (headers : list string) (i : nat) (line : string),
    let values := split "," line in
    let field := nth_error values in
    match parseRow headers i line with
    | None => (List.length values < List.length headers)%nat
    | Some item =>
        (List.length headers <= List.length values)%nat
        /\ current_stock item = parsed_or (parseInt (field 3%nat)) (IZ 0)
        /\ forecast_demand item = parsed_or (parseInt (field 4%nat)) (IZ 0)
        /\ actual_demand item = parsed_or (parseInt (field 5%nat)) (IZ 0)
        /\ production_capacity item = parsed_or (parseInt (field 6%nat)) (IZ 0)
        /\ unit_cost item
           = (if is_zero (parseFloat (field 7%nat)) then IZ 10
              else parsed_or (parseFloat (field 7%nat)) (IZ 10))
        /\ holding_cost_rate item
           = (if is_zero (parseFloat (field 8%nat)) then lit 25 100
              else parsed_or (parseFloat (field 8%nat)) (lit 25 100))
        /\ stockout_penalty item
           = (if is_zero (parseFloat (field 9%nat)) then IZ 50
              else parsed_or (parseFloat (field 9%nat)) (IZ 50))
        /\ lead_time_days item
           = (if is_zero (parseInt (field 10%nat)) then IZ 7
              else parsed_or (parseInt (field 10%nat)) (IZ 7))
        /\ shelf_life_days item
           = (if is_zero (parseInt (field 11%nat)) then IZ 90
              else parsed_or (parseInt (field 11%nat)) (IZ 90))
        /\ (is_festival_sensitive item = true <->
            exists s, field 12%nat = Some s /\ toLowerCase (trim s) = "true"%string)
        /\ sku item
           = match field 0%nat with
             | Some (String c r) => String c r
             | _ => ("SKU-" ++ index_text i)%string
             end
        /\ warehouse item
           = match field 1%nat with
             | Some (String c r) => String c r
             | _ => "Delhi"%string
             end
        /\ product_category item
           = match field 2%nat with
             | Some (String c r) => String c r
             | _ => "Snacks"%string
             end
    end
    /\ forall (text : string) (item : EnhancedInventoryData),
         let lines := split newline text in
         (1 <= i <= 9)%nat ->
         nth_error lines i = Some line ->
         parseRow (split "," (nth 0 lines EmptyString)) i line = Some item ->
         In item (parsedData text).
Proof.
  intros headers i line values field. split.
  - unfold parseRow. fold values.
    destruct (Nat.leb_spec (List.length headers) (List.length values)) as [Hle|Hlt];
      [|exact Hlt].
    cbn [current_stock forecast_demand actual_demand production_capacity unit_cost
         holding_cost_rate stockout_penalty lead_time_days shelf_life_days
         is_festival_sensitive sku warehouse product_category].
    fold field.
    split; [exact Hle|].
    repeat (split; [apply or_default_zero, parseInt_whole|]).
    repeat (split; [apply or_default_spec|]).
    split; [apply isSensitive_spec|].
    repeat split.
  - intros text item lines Hi Hline Hrow.
    unfold parsedData. fold lines. apply parseRows_In.
    exists i, line. split; [|split; assumption].
    apply in_seq.
    assert (i < List.length lines)%nat
      by (apply nth_error_Some; rewrite Hline; discriminate).
    lia.
Qed.

(** The theorem at work on the fourth sample line, whose texts are empty
    or unparsable but for a lead time of "0": every default applies, the
    flag "TRUE " reads as true, and the record is in the parsed file. *)
Lemma C8_row_parsing_witness :
  exists item,
    parseRow (split "," schema_header) 4 ",,,x,,,,,,,0,,TRUE " = Some item
    /\ sku item = "SKU-4"%string
    /\ lead_time_days item = IZ 7
    /\ is_festival_sensitive item = true
    /\ In item (parsedData (csv_of sample_rows)).
Proof.
  eexists. split; [vm_compute; reflexivity|].
  split; [reflexivity|]. split; [reflexivity|]. split; [reflexivity|].
  apply (proj2 (C8_row_parsing (split "," schema_header) 4 ",,,x,,,,,,,0,,TRUE ")
           (csv_of sample_rows)).
  - lia.
  - vm_compute; reflexivity.
  - vm_compute; reflexivity.
Defined.

(** C8, the claim as written fails: in a row of the documented schema whose
    [lead_time_days] text is "0" the text is parsable ([parseInt] gives 0),
    yet the record holds 7. *)
Lemma C8_counterexample_zero_lead_time :
  let headers := split "," schema_header in
  let line := "PC001,Delhi,Snacks,10,40,60,30,15.5,0.25,50.0,0,90,true"%string in
  exists item,
    parseRow headers 1 line = Some item
    /\ parseInt (nth_error (split "," line) 10) = IZ 0
    /\ lead_time_days item = IZ 7
    /\ lead_time_days item
       <> parsed_or (parseInt (nth_error (split "," line) 10)) (IZ 7).
Proof.
  eexists. split; [vm_compute; reflexivity|].
  split; [vm_compute; reflexivity|].
  split; [vm_compute; reflexivity|].
  vm_compute. discriminate.
Qed.

(** C9.  The parser reads the data lines numbered 1 to [min(n, 9)] only:
    the result is their records in line order, has at most nine of them,
    holds a record exactly when one of those lines produced it, is the
    same for any two files that agree on their first ten lines (the
    header and nine data lines), and becomes the SKU collection as it is,
    whatever the collection was before. *)
Theorem C9_first_nine_data_lines :
  forall (text : string) (st : State),
    let lines := split newline text in
    let headers := split "," (nth 0 lines EmptyString) in
    let last := Nat.min (List.length lines - 1) 9 in
    parsedData text = parseRows headers lines (seq 1 last)
    /\ (List.length (parsedData text) <= 9)%nat
    /\ (forall item,
          In item (parsedData text) <->
          exists i line,
            (1 <= i <= last)%nat /\ nth_error lines i = Some line /\
            parseRow headers i line = Some item)
    /\ (forall text',
          firstn 10 (split newline text') = firstn 10 lines ->
          parsedData text' = parsedData text)
    /\ inventoryData (parseCSVFile text st) = parsedData text.
Proof.
  intros text st lines headers last.
  assert (E : parsedData text = parseRows headers lines (seq 1 last)).
  { unfold parsedData. fold lines headers. now rewrite loop_indices. }
  split; [exact E|]. split; [|split; [|split; [|reflexivity]]].
  - rewrite E.
    eapply Nat.le_trans; [apply parseRows_length|].
    rewrite length_seq. unfold last. lia.
  - intros item. rewrite E, parseRows_In. split.
    + intros (i & line & Hi & Hl & Hr). exists i, line.
      apply in_seq in Hi. split; [lia | now split].
    + intros (i & line & Hi & Hl & Hr). exists i, line.
      split; [apply in_seq; lia | now split].
  - intros text' H. rewrite !parsedData_first_ten. fold lines. now rewrite H.
Qed.

(** The theorem at work: of eleven data lines the parser keeps eight
    records (the third line is too short, the tenth and eleventh are not
    read), and cutting the file after the ninth data line changes
    nothing. *)
Lemma C9_first_nine_witness :
  map sku (parsedData (csv_of sample_rows))
    = ["PC001"; "NC001"; "SKU-4"; "R5"; "R6"; "R7"; "R8"; "R9"]%string
  /\ parsedData (csv_of (firstn 9 sample_rows)) = parsedData (csv_of sample_rows).
Proof.
  split; [vm_compute; reflexivity|].
  apply (proj1 (proj2 (proj2 (proj2
           (C9_first_nine_data_lines (csv_of sample_rows) initialState))))).
  vm_compute; reflexivity.
Defined.

End Parser.

(** ** The analysis reporter *)

Section AnalysisReporter.

Lemma filter_filter_implied {A : Type} (f g : A -> bool) (l : list A) :
  (forall x, f x = true -> g x = true) -> filter f (filter g l) = filter f l.
Proof.
  intros H. induction l as [|x l IH]; [reflexivity|].
  cbn [filter]. destruct (g x) eqn:Hg; cbn [filter].
  - now rewrite IH.
  - destruct (f x) eqn:Hf; [|exact IH].
    apply H in Hf. congruence.
Qed.

Lemma warehouseEntry_listed (inventoryData : list EnhancedInventoryData) (wh : string) :
  listed wh = true ->
  warehouseEntry (filter (fun item => listed (warehouse item)) inventoryData) wh
  = warehouseEntry inventoryData wh.
Proof.
  intros Hw. unfold warehouseEntry.
  rewrite filter_filter_implied; [reflexivity|].
  intros item H. apply String.eqb_eq in H. now rewrite H.
Qed.

(** C10.  The per-warehouse list holds exactly "Delhi", "Mumbai" and
    "Kolkata", in that order, whatever warehouses the SKUs name; it is the
    list computed from the SKUs of those three warehouses alone, so a SKU
    of any other warehouse enters no aggregate; and a listed warehouse
    whose total demand is zero, in particular one without SKUs, reports
    [stockCoverage = 0] and [serviceLevel = 100]. *)
Theorem C10_fixed_warehouses :
  forall inventoryData : list EnhancedInventoryData,
    map WarehousePerformance.warehouse (warehousePerformance inventoryData)
      = ["Delhi"; "Mumbai"; "Kolkata"]%string
    /\ warehousePerformance inventoryData
       = warehousePerformance
           (filter (fun item => listed (warehouse item)) inventoryData)
    /\ (forall (before after : list EnhancedInventoryData) (item : EnhancedInventoryData),
          inventoryData = before ++ item :: after ->
          listed (warehouse item) = false ->
          warehousePerformance inventoryData = warehousePerformance (before ++ after))
    /\ (forall wh : string,
          sum_by actual_demand (items_of inventoryData wh) = IZ 0 ->
          WarehousePerformance.stockCoverage (warehouseEntry inventoryData wh) = IZ 0
          /\ WarehousePerformance.serviceLevel (warehouseEntry inventoryData wh) = IZ 100)
    /\ (forall wh : string,
          items_of inventoryData wh = [] ->
          warehouseEntry inventoryData wh
          = {| WarehousePerformance.warehouse := wh;
               WarehousePerformance.stockCoverage := IZ 0;
               WarehousePerformance.serviceLevel := IZ 100 |}).
Proof.
  intros inventoryData.
  assert (E : forall l,
             warehousePerformance l
             = warehousePerformance (filter (fun item => listed (warehouse item)) l)).
  { intros l. unfold warehousePerformance. cbn [map].
    now rewrite !warehouseEntry_listed. }
  split; [reflexivity|]. split; [apply E|]. split; [|split].
  - intros before after item -> Hitem.
    rewrite E, (E (before ++ after)), !filter_app. cbn [filter].
    now rewrite Hitem.
  - intros wh H. unfold warehouseEntry, items_of in *.
    cbn [WarehousePerformance.stockCoverage WarehousePerformance.serviceLevel].
    rewrite H. split; reflexivity.
  - intros wh H. unfold warehouseEntry, items_of in *. rewrite H. reflexivity.
Qed.

(** The theorem at work on the default record store: "Kolkata" has no
    SKU, and a SKU of the unlisted warehouse "Pune" leaves the report as
    it is. *)
Lemma C10_fixed_warehouses_witness :
  warehouseEntry (inventoryData initialState) "Kolkata"
    = {| WarehousePerformance.warehouse := "Kolkata";
         WarehousePerformance.stockCoverage := IZ 0;
         WarehousePerformance.serviceLevel := IZ 100 |}
  /\ warehousePerformance [PC001; with_warehouse NC001 "Pune"; NC001]
     = warehousePerformance ([PC001] ++ [NC001]).
Proof.
  split.
  - apply (proj2 (proj2 (proj2 (proj2
             (C10_fixed_warehouses (inventoryData initialState)))))).
    reflexivity.
  - apply (proj1 (proj2 (proj2
             (C10_fixed_warehouses [PC001; with_warehouse NC001 "Pune"; NC001])))
             [PC001] [NC001] (with_warehouse NC001 "Pune")).
    + reflexivity.
    + reflexivity.
Defined.

End AnalysisReporter.

(** ** Determinism of the optimizer *)

Section Determinism.

(** C7 (as amended).  Two runs of the optimizer on the same record store
    and festival plan agree on [productionAllocation],
    [inventoryOptimization], [costAnalysis], [performanceMetrics] and on
    every field of [procurementPlan] but [deliveryDate], whatever the
    hosts and the rest of the state; [deliveryDate] is the host's current
    date moved [lead_time_days] ahead.  The whole outputs are equal
    exactly when the delivery dates of the two runs agree, and they agree
    whenever the two runs read the same clock value under the same
    locale. *)
Theorem C7_deterministic_up_to_delivery_date :
  forall (h1 h2 : Host) (st1 st2 : State),
    same_inputs st1 st2 ->
    let o1 := mockOptimization h1 st1 in
    let o2 := mockOptimization h2 st2 in
    productionAllocation o1 = productionAllocation o2
    /\ inventoryOptimization o1 = inventoryOptimization o2
    /\ costAnalysis o1 = costAnalysis o2
    /\ performanceMetrics o1 = performanceMetrics o2
    /\ map order_of (procurementPlan o1) = map order_of (procurementPlan o2)
    /\ map Procurement.deliveryDate (procurementPlan o1)
       = map (delivery_date h1) (suppliers st1)
    /\ (o1 = o2 <->
        map (delivery_date h1) (suppliers st1) = map (delivery_date h2) (suppliers st2))
    /\ (Date_now h1 = Date_now h2 ->
        (forall t, locale_date h1 t = locale_date h2 t) ->
        o1 = o2).
Proof.
  intros h1 h2 st1 st2 (Hinv & Hpc & Hsup & Hplan) o1 o2.
  unfold o1, o2, mockOptimization.
  rewrite Hinv, Hpc, Hsup, Hplan.
  cbn [productionAllocation inventoryOptimization costAnalysis performanceMetrics
       procurementPlan].
  repeat (split; [reflexivity|]).
  split; [now rewrite !map_map|].
  split; [now rewrite map_map|].
  split.
  { split.
    - intros H.
      apply (f_equal (fun o => map Procurement.deliveryDate (procurementPlan o))) in H.
      cbn [procurementPlan] in H. rewrite !map_map in H. exact H.
    - intros H. f_equal. apply map_ext_in. intros supplier Hin.
      unfold procurement. f_equal.
      exact (proj1 map_ext_in_iff H supplier Hin). }
  intros Hnow Hloc. f_equal.
  apply map_ext. intros supplier. unfold procurement. f_equal.
  rewrite Hnow. unfold toLocaleDateString.
  destruct (Date_new _); [apply Hloc | reflexivity].
Qed.

(** The theorem at work: the initial record store, once as it is and once
    after a previous optimization has been stored, on hosts whose clocks
    are a day apart. *)
Lemma C7_deterministic_witness :
  same_inputs initialState (handleSupplyChainOptimization (host_at 5) initialState)
  /\ performanceMetrics (mockOptimization (host_at 0) initialState)
     = performanceMetrics
         (mockOptimization (host_at 86400000)
            (handleSupplyChainOptimization (host_at 5) initialState)).
Proof.
  assert (H : same_inputs initialState
                (handleSupplyChainOptimization (host_at 5) initialState))
    by (unfold same_inputs; repeat (split; [reflexivity|]); reflexivity).
  split; [exact H|].
  exact (proj1 (proj2 (proj2 (proj2
           (C7_deterministic_up_to_delivery_date
              (host_at 0) (host_at 86400000) _ _ H))))).
Defined.

(** C7, the claim as written fails: the same state optimized at two
    clock values a day apart gives different delivery dates, hence
    different outputs. *)
Lemma C7_counterexample_clock :
  map Procurement.deliveryDate
      (procurementPlan (mockOptimization (host_at 0) initialState))
    = ["1/6/1970"; "1/9/1970"]%string
  /\ map Procurement.deliveryDate
         (procurementPlan (mockOptimization (host_at 86400000) initialState))
     = ["1/7/1970"; "1/10/1970"]%string
  /\ mockOptimization (host_at 0) initialState
     <> mockOptimization (host_at 86400000) initialState.
Proof.
  split; [vm_compute; reflexivity|]. split; [vm_compute; reflexivity|].
  intros H.
  apply (f_equal (fun o => map Procurement.deliveryDate (procurementPlan o))) in H.
  vm_compute in H. discriminate H.
Qed.

End Determinism.

(** ** Zero capacity *)

Section ZeroCapacity.

Lemma totalCapacity_idle (factories : list ProductionConstraint) :
  totalCapacity (map idle factories) = IZ 0.
Proof.
  unfold totalCapacity.
  rewrite (sum_by_IZ weekly_capacity (map idle factories)
             (map (fun _ => 0) factories)).
  - f_equal. induction factories; [reflexivity | assumption].
  - induction factories; cbn [map]; constructor; [reflexivity | assumption].
Qed.

Lemma mul_NaN_r (x : number) : mul x NaN = NaN.
Proof. now destruct x. Qed.

Lemma sub_NaN_r (x : number) : sub x NaN = NaN.
Proof. now destruct x. Qed.

Lemma add_NaN_r (x : number) : add x NaN = NaN.
Proof. now destruct x. Qed.

Lemma fold_add_NaN {A : Type} (f : A -> number) (l : list A) :
  fold_left (fun sum x => add sum (f x)) l NaN = NaN.
Proof. induction l; [reflexivity | exact IHl]. Qed.

(** Summing allocations that are all [NaN], at least one of them. *)
Lemma sum_by_NaN (allocs : list Allocation.t) :
  allocs <> [] ->
  Forall (fun a => Allocation.allocatedDemand a = NaN) allocs ->
  sum_by Allocation.allocatedDemand allocs = NaN.
Proof.
  intros Hne H. destruct H as [|a l Ha _]; [contradiction|].
  unfold sum_by; cbn [fold_left]. rewrite Ha, add_NaN_r. apply fold_add_NaN.
Qed.

(** With a total capacity of 0 every factory of capacity 0 gets the
    ratio [0 / 0]: the proportional pass allocates [NaN] everywhere and
    leaves [NaN]. *)
Lemma proportionalPass_idle (P : number) (factories : list ProductionConstraint) :
  forall R,
    let result := proportionalPass P (IZ 0) R (map idle factories) in
    Forall (fun a => Allocation.allocatedDemand a = NaN) (fst result)
    /\ List.length (fst result) = List.length factories
    /\ (factories <> [] -> snd result = NaN).
Proof.
  induction factories as [|f fs IH]; intros R; cbn [map proportionalPass].
  - cbn. split; [constructor | split; [reflexivity | congruence]].
  - cbn [idle weekly_capacity factory_location].
    change (div (IZ 0) (IZ 0)) with NaN. rewrite mul_NaN_r.
    change (Math_min3 (Math_round NaN) (IZ 0) R) with NaN.
    rewrite sub_NaN_r.
    specialize (IH NaN). cbv zeta in IH.
    destruct (proportionalPass P (IZ 0) NaN (map idle fs)) as [allocs r] eqn:E.
    cbn [fst snd] in *. destruct IH as (IH1 & IH2 & IH3).
    split; [constructor; [reflexivity | assumption]|].
    split; [cbn [List.length]; now rewrite IH2|].
    intros _. destruct fs as [|f' fs'].
    + cbn in E. now injection E as <- <-.
    + apply IH3. discriminate.
Qed.

Lemma allocate_idle (P : number) (f : ProductionConstraint)
    (fs : list ProductionConstraint) :
  sum_by Allocation.allocatedDemand (fst (allocate P (map idle (f :: fs)))) = NaN.
Proof.
  unfold allocate. rewrite totalCapacity_idle.
  destruct (proportionalPass_idle P (f :: fs) P) as (H1 & H2 & H3).
  destruct (proportionalPass P (IZ 0) P (map idle (f :: fs))) as [allocs r].
  cbn [fst snd] in *. rewrite H3 by discriminate.
  change (gt NaN (IZ 0)) with false. cbn [fst].
  apply sum_by_NaN; [|assumption].
  intros ->. discriminate H2.
Qed.

(** The guarded figure is 0 at a total capacity of 0, whatever the
    demand. *)
Lemma dynamicCapacityUtilization_guarded (totalDemand : number) :
  dynamicCapacityUtilization totalDemand (IZ 0) = IZ 0.
Proof. reflexivity. Qed.

Lemma allocationOf_no_factories (st : State) :
  allocationOf (setProductionConstraints [] st) = [].
Proof.
  unfold allocationOf, productionAllocationOf, allocate.
  cbn [productionConstraints setProductionConstraints proportionalPass].
  now destruct (gt _ (IZ 0)).
Qed.

(** C3.  The utilization computed from the allocations divides by the
    total capacity without the zero guard of the other utilization
    figures: for any record store and host, with the factory set emptied
    or with every factory's weekly capacity edited to 0, the run reports
    [capacityUtilization = NaN] where 0 is specified. *)
Theorem C3_capacity_utilization_unguarded :
  forall (h : Host) (st : State),
    capacityUtilization
      (performanceMetrics (mockOptimization h (setProductionConstraints [] st)))
    = NaN
    /\ capacityUtilization
         (performanceMetrics
            (mockOptimization h
               (setProductionConstraints (map idle (productionConstraints st)) st)))
       = NaN.
Proof.
  intros h st.
  assert (E : capacityUtilization
                (performanceMetrics (mockOptimization h (setProductionConstraints [] st)))
              = NaN).
  { unfold mockOptimization. cbn [performanceMetrics capacityUtilization].
    fold (allocationOf (setProductionConstraints [] st)).
    now rewrite allocationOf_no_factories. }
  split; [exact E|].
  destruct (productionConstraints st) as [|f fs]; [exact E|].
  unfold mockOptimization. cbn [performanceMetrics capacityUtilization].
  cbn [productionConstraints setProductionConstraints inventoryData festivalPlan].
  unfold productionAllocationOf. now rewrite allocate_idle, totalCapacity_idle.
Qed.

(** The utilization of a zero-capacity factory is never a finite number:
    [x / 0] is [NaN] or an infinity. *)
Lemma utilization_zero_capacity (x : number) :
  isFinite (utilization x (IZ 0)) = false.
Proof.
  unfold utilization. destruct x as [| | | q]; try reflexivity.
  change (div (Num q) (IZ 0))
    with (match Qsign q with Eq => NaN | Gt => PosInf | Lt => NegInf end).
  now destruct (Qsign q).
Qed.

Lemma proportionalPass_rate (P T : number) (factories : list ProductionConstraint) :
  forall R, Forall rate_consistent (fst (proportionalPass P T R factories)).
Proof.
  induction factories as [|f fs IH]; intros R; cbn [proportionalPass].
  - constructor.
  - match goal with
    | |- context [proportionalPass P T ?R' fs] =>
        specialize (IH R'); destruct (proportionalPass P T R' fs) as [allocs r]
    end.
    cbn [fst] in *. constructor; [reflexivity | assumption].
Qed.

Lemma redistribute_rate (allocs : list Allocation.t) :
  Forall rate_consistent allocs ->
  forall R, Forall rate_consistent (fst (redistribute R allocs)).
Proof.
  induction 1 as [|a l Ha Hl IH]; intros R; cbn [redistribute].
  - constructor.
  - destruct (gt _ (IZ 0)).
    + destruct (le _ (IZ 0)).
      * cbn [fst]. constructor; [reflexivity | assumption].
      * match goal with
        | |- context [redistribute ?R' l] =>
            specialize (IH R'); destruct (redistribute R' l) as [rest r]
        end.
        cbn [fst] in *. constructor; [reflexivity | assumption].
    + specialize (IH R). destruct (redistribute R l) as [rest r].
      cbn [fst] in *. constructor; assumption.
Qed.

(** Every entry of an allocation carries the rate computed from its final
    allocation. *)
Lemma allocate_rate (P : number) (factories : list ProductionConstraint) :
  Forall rate_consistent (fst (allocate P factories)).
Proof.
  unfold allocate.
  match goal with
  | |- context [proportionalPass ?P ?T ?R ?fs] =>
      pose proof (proportionalPass_rate P T fs R) as H;
      destruct (proportionalPass P T R fs) as [allocs r]
  end.
  cbn [fst] in H. destruct (gt r (IZ 0)); [|exact H].
  now apply redistribute_rate.
Qed.

Lemma rate_consistent_unguarded (a : Allocation.t) :
  rate_consistent a -> unguarded a.
Proof.
  unfold rate_consistent, unguarded. intros -> ->.
  apply utilization_zero_capacity.
Qed.

(** C5.  The division by a factory's capacity is not guarded: in every
    run, an allocation entry whose capacity is 0 carries a rate that is
    [NaN] or an infinity, never 0.  With the default Delhi factory set to
    capacity 0 the run allocates it 0, as specified, and reports its rate
    as [NaN]. *)
Theorem C5_zero_capacity_rate_unguarded :
  (forall (h : Host) (st : State),
      Forall (fun a =>
                Allocation.capacity a = IZ 0 ->
                isFinite (Allocation.utilizationRate a) = false)
             (productionAllocation (mockOptimization h st)))
  /\ map (fun a => (Allocation.factory a, Allocation.capacity a,
                    Allocation.allocatedDemand a, Allocation.utilizationRate a))
         (allocationOf
            (setProductionConstraints [idle delhiFactory; puneFactory] initialState))
     = [("Delhi"%string, IZ 0, IZ 0, NaN);
        ("Pune"%string, IZ 80, IZ 43, lit 5375 100)].
Proof.
  split; [|vm_compute; reflexivity].
  intros h st. unfold mockOptimization; cbn [productionAllocation].
  unfold productionAllocationOf.
  eapply Forall_impl; [|apply allocate_rate].
  exact rate_consistent_unguarded.
Qed.

(** C2.  The proportional pass divides each capacity by the total
    capacity without a zero guard: when every factory of a non-empty
    factory set has its weekly capacity edited to 0, the total capacity
    is 0, every allocation is [NaN], and their sum is neither at most the
    total capacity nor at most the production requirement.  So it is
    for the default record store, whose requirement is 43. *)
Theorem C2_zero_total_capacity_allocation :
  (forall (st : State) (f : ProductionConstraint) (fs : list ProductionConstraint),
      let st' := setProductionConstraints (map idle (f :: fs)) st in
      let allocated := sum_by Allocation.allocatedDemand (allocationOf st') in
      totalCapacity (productionConstraints st') = IZ 0
      /\ allocated = NaN
      /\ le allocated (totalCapacity (productionConstraints st')) = false
      /\ le allocated (productionNeeded (festivalPlan st') (inventoryData st')) = false)
  /\ (let st' :=
        setProductionConstraints [idle delhiFactory; idle puneFactory] initialState in
      productionNeeded (festivalPlan st') (inventoryData st') = IZ 43
      /\ map Allocation.allocatedDemand (allocationOf st') = [NaN; NaN]).
Proof.
  split; [|split; vm_compute; reflexivity].
  intros st f fs st' allocated.
  assert (E : allocated = NaN).
  { unfold allocated, allocationOf, productionAllocationOf, st'.
    cbn [productionConstraints setProductionConstraints].
    apply allocate_idle. }
  split; [apply totalCapacity_idle|]. split; [exact E|].
  rewrite E. split; reflexivity.
Qed.

End ZeroCapacity.

(** ** Allocation conservation *)

Section Conservation.

Lemma integer_view {A : Type} (f : A -> number) (l : list A) :
  Forall (fun x => exists z, f x = IZ z) l ->
  exists zs, Forall2 (fun x z => f x = IZ z) l zs.
Proof.
  induction 1 as [|x l [z Hz] _ [zs IH]].
  - exists []. constructor.
  - exists (z :: zs). now constructor.
Qed.

Lemma sum_by_integer {A : Type} (f : A -> number) (l : list A) :
  Forall (fun x => exists z, f x = IZ z) l -> exists z, sum_by f l = IZ z.
Proof.
  intros H. destruct (integer_view f l H) as [zs Hzs].
  exists (zsum zs). now apply sum_by_IZ.
Qed.

(** On integer stocks and finite demands the production requirement is a
    non-negative integer. *)
Lemma productionNeeded_integer (plan : option FestivalPlan)
    (inventoryData : list EnhancedInventoryData) :
  Forall (fun item => exists s, current_stock item = IZ s) inventoryData ->
  Forall (fun item => isFinite (getEffectiveDemand plan item) = true) inventoryData ->
  exists p, productionNeeded plan inventoryData = IZ p /\ 0 <= p.
Proof.
  intros Hstock Hdemand. unfold productionNeeded, totalOptimalStock, totalCurrentStock.
  destruct (sum_by_integer current_stock inventoryData Hstock) as [s ->].
  destruct (sum_by_integer
              (fun item => Math_round (mul (getEffectiveDemand plan item) (lit 12 10)))
              inventoryData) as [o ->].
  { eapply Forall_impl; [|exact Hdemand]. cbv beta. intros item H.
    destruct (getEffectiveDemand plan item); try discriminate H.
    eexists. reflexivity. }
  rewrite sub_IZ, Math_max_IZ. eexists. split; [reflexivity | lia].
Qed.


Lemma Forall2_In_l {A B : Type} (R : A -> B -> Prop) (l : list A) (l' : list B)
    (a : A) :
  Forall2 R l l' -> In a l -> exists b, In b l' /\ R a b.
Proof.
  induction 1 as [|x y l l' Hxy _ IH]; intros Hin; [contradiction|].
  destruct Hin as [<- | Hin].
  - exists y. split; [now left | assumption].
  - destruct (IH Hin) as (b & Hb & Hab). exists b. split; [now right | assumption].
Qed.

(** Under the same conditions a factory of capacity 0 is allocated 0, as
    specified, and its rate is [NaN]. *)
Theorem zero_capacity_factory_allocation (factories : list ProductionConstraint)
    (cs : list Z) (P : Z) (a : Allocation.t) :
  capacities factories cs -> 0 < zsum cs -> 0 <= P ->
  In a (fst (allocate (IZ P) factories)) ->
  Allocation.capacity a = IZ 0 ->
  Allocation.allocatedDemand a = IZ 0 /\ Allocation.utilizationRate a = NaN.
Proof.
  intros Hcaps HT HP Hin Hcap.
  destruct (allocate_within _ _ _ Hcaps HT HP) as (xcs & Hw & _ & _).
  destruct (Forall2_In_l _ _ _ _ Hw Hin) as ([x c] & _ & Hx & Hc & Hrange).
  cbn [fst snd] in *.
  rewrite Hcap in Hc. apply IZ_inj in Hc. subst c.
  assert (x = 0) by lia. subst x.
  split; [assumption|].
  pose proof (allocate_rate (IZ P) factories) as Hrate.
  rewrite Forall_forall in Hrate. rewrite (Hrate a Hin), Hx, Hcap. reflexivity.
Qed.

(** The theorem at the default record store: requirement 43 on
    capacities 100 and 80. *)
Lemma allocation_conservation_default :
  sum_by Allocation.allocatedDemand (allocationOf initialState) = IZ 43
  /\ map Allocation.allocatedDemand (allocationOf initialState) = [IZ 24; IZ 19].
Proof. split; vm_compute; reflexivity. Qed.

(** The scenarios of the specification. *)
Example scenario_festival_single_factory :
  let item :=
    {| sku := "S1"; warehouse := "Delhi"; product_category := "Snacks";
       current_stock := IZ 10; forecast_demand := IZ 40; actual_demand := IZ 60;
       production_capacity := IZ 0; unit_cost := IZ 10;
       holding_cost_rate := lit 25 100; stockout_penalty := IZ 50;
       lead_time_days := IZ 7; shelf_life_days := IZ 90;
       is_festival_sensitive := true |} in
  let factory :=
    {| factory_location := "F1"; weekly_capacity := IZ 100;
       efficiency_rate := IZ 1; production_cost_per_unit := IZ 1 |} in
  let st :=
    handleFestivalPlanning
      {| inventoryData := [item]; productionConstraints := [factory];
         suppliers := []; optimizedData := None; festivalPlan := None;
         festivalMultiplier := float 145 100 |} in
  getEffectiveDemand (festivalPlan st) item = IZ 58
  /\ InventoryPolicy.optimalInventory (inventoryPolicy (festivalPlan st) item) = IZ 70
  /\ InventoryPolicy.recommendation (inventoryPolicy (festivalPlan st) item)
     = "INCREASE"%string
  /\ productionNeeded (festivalPlan st) (inventoryData st) = IZ 60
  /\ map (fun a => (Allocation.allocatedDemand a, Allocation.utilizationRate a))
         (allocationOf st)
     = [(IZ 60, IZ 60)].
Proof. repeat split; vm_compute; reflexivity. Qed.

Example scenario_two_factories :
  map Allocation.allocatedDemand
      (fst (allocate (IZ 120) (productionConstraints initialState)))
  = [IZ 67; IZ 53].
Proof. vm_compute; reflexivity. Qed.

End Conservation.

(** * Further properties *)

(** ** Percentages of integer ratios *)

Section Percentages.

Lemma Qsign_pos (p : positive) : Qsign (inject_Z (Zpos p)) = Gt.
Proof. reflexivity. Qed.

Lemma div_IZ_pos (x : Z) (p : positive) :
  div (IZ x) (IZ (Zpos p)) = Num (Qred (x # p)).
Proof.
  unfold IZ, div. rewrite Qsign_pos. f_equal. apply Qred_complete.
  unfold Qdiv, Qinv, Qmult, Qeq, inject_Z. simpl. ring.
Qed.

Lemma percent_IZ (x : Z) (p : positive) :
  mul (div (IZ x) (IZ (Zpos p))) (IZ 100) = Num (Qred (100 * x # p)).
Proof.
  rewrite div_IZ_pos. unfold IZ, mul. f_equal. apply Qred_complete.
  rewrite Qred_correct. unfold Qmult, Qeq, inject_Z. cbn [Qnum Qden].
  rewrite !Pos2Z.inj_mul. ring.
Qed.

Lemma Qnonneg_make (n : Z) (p : positive) : 0 <= n -> (0 <= n # p)%Q.
Proof. intros H. unfold Qle. cbn [Qnum Qden]. lia. Qed.


(** Rounding a non-negative ratio below [10^21] to hundredths. *)
Lemma toFixed2_ratio (n : Z) (p : positive) :
  0 <= n -> n < 10 ^ 21 * Zpos p ->
  toFixed2 (Num (Qred (n # p)))
  = Num (Qred (((200 * n + Zpos p) / (2 * Zpos p)) # 100)).
Proof.
  intros Hn Hsmall. unfold toFixed2.
  assert (Hq : (0 <= Qred (n # p))%Q)
    by (rewrite Qred_correct; now apply Qnonneg_make).
  assert (Habs : (Qabs (Qred (n # p)) == n # p)%Q)
    by (rewrite Qabs_pos by exact Hq; apply Qred_correct).
  destruct (Qle_bool (inject_Z (10 ^ 21)) (Qabs (Qred (n # p)))) eqn:Hbig.
  - apply Qle_bool_iff in Hbig. rewrite Habs in Hbig.
    unfold Qle, inject_Z in Hbig. cbn [Qnum Qden] in Hbig. lia.
  - assert (Hs : Qsign (Qred (n # p)) <> Lt).
    { unfold Qsign. intros Hlt. apply Qlt_alt in Hlt.
      apply Qlt_not_le in Hlt. contradiction. }
    assert (E : (Qabs (Qred (n # p)) * inject_Z 100 + (1 # 2)
                 == (200 * n + Zpos p) # (2 * p))%Q).
    { rewrite Habs. unfold Qplus, Qmult, Qeq, inject_Z. cbn [Qnum Qden].
      rewrite !Pos2Z.inj_mul. ring. }
    destruct (Qsign (Qred (n # p))); [|contradiction|]; rewrite E; reflexivity.
Qed.

(** The rate of [x] units on a positive capacity [c]. *)
Lemma utilization_integer (x c : Z) :
  0 <= x -> 0 < c -> x <= c ->
  utilization (IZ x) (IZ c) = Num (Qred (percent2 x c # 100)).
Proof.
  intros Hx Hc Hle. destruct c as [|p|p]; try lia.
  assert (E21 : 10 ^ 21 = 1000000000000000000000) by reflexivity.
  unfold utilization. rewrite percent_IZ, toFixed2_ratio by (rewrite ?E21; lia).
  unfold percent2. now replace (200 * (100 * x)) with (20000 * x) by ring.
Qed.

Lemma percent2_bounds (x c : Z) :
  0 <= x <= c -> 0 < c -> 0 <= percent2 x c <= 10000.
Proof.
  intros Hx Hc. unfold percent2. split.
  - apply Z.div_pos; lia.
  - apply Z.lt_succ_r. apply Z.div_lt_upper_bound; nia.
Qed.

Lemma hundredths_percentage (n : Z) :
  0 <= n <= 10000 -> is_percentage (Num (Qred (n # 100))).
Proof.
  intros Hn. unfold is_percentage, le, IZ, cmp.
  rewrite !Qred_correct. unfold Qcompare, inject_Z. cbn [Qnum Qden].
  split.
  - destruct (Z.compare_spec (0 * 100) (n * 1)); try reflexivity; lia.
  - destruct (Z.compare_spec (n * 1) (100 * 100)); try reflexivity; lia.
Qed.

End Percentages.

(** ** The shape and bounds of the allocation *)

Section AllocationBounds.

Lemma proportionalPass_entries (P T : number) (factories : list ProductionConstraint) :
  forall R,
    map Allocation.factory (fst (proportionalPass P T R factories))
      = map factory_location factories
    /\ map Allocation.capacity (fst (proportionalPass P T R factories))
       = map weekly_capacity factories.
Proof.
  induction factories as [|f fs IH]; intros R; cbn [proportionalPass].
  - split; reflexivity.
  - match goal with
    | |- context [proportionalPass P T ?R' fs] =>
        destruct (IH R') as [IH1 IH2]; destruct (proportionalPass P T R' fs) as [allocs r]
    end.
    cbn [fst map Allocation.factory Allocation.capacity] in *.
    now rewrite IH1, IH2.
Qed.

Lemma redistribute_entries (allocs : list Allocation.t) :
  forall R,
    map Allocation.factory (fst (redistribute R allocs)) = map Allocation.factory allocs
    /\ map Allocation.capacity (fst (redistribute R allocs))
       = map Allocation.capacity allocs.
Proof.
  induction allocs as [|a l IH]; intros R; cbn [redistribute].
  - split; reflexivity.
  - destruct (gt _ (IZ 0)).
    + destruct (le _ (IZ 0)).
      * split; reflexivity.
      * match goal with
        | |- context [redistribute ?R' l] =>
            destruct (IH R') as [IH1 IH2]; destruct (redistribute R' l) as [rest r]
        end.
        cbn [fst map Allocation.factory Allocation.capacity] in *.
        now rewrite IH1, IH2.
    + destruct (IH R) as [IH1 IH2]. destruct (redistribute R l) as [rest r].
      cbn [fst map] in *. now rewrite IH1, IH2.
Qed.

(** The allocation has one entry per factory, in the order of the factory
    list, each carrying its factory's name and capacity; this holds for
    any requirement and any capacities, zero or not. *)
Theorem allocation_mirrors_factories :
  forall (h : Host) (st : State),
    map Allocation.factory (productionAllocation (mockOptimization h st))
      = map factory_location (productionConstraints st)
    /\ map Allocation.capacity (productionAllocation (mockOptimization h st))
       = map weekly_capacity (productionConstraints st)
    /\ List.length (productionAllocation (mockOptimization h st))
       = List.length (productionConstraints st).
Proof.
  intros h st. unfold mockOptimization; cbn [productionAllocation].
  unfold productionAllocationOf, allocate.
  set (P := productionNeeded (festivalPlan st) (inventoryData st)).
  set (T := totalCapacity (productionConstraints st)).
  destruct (proportionalPass_entries P T (productionConstraints st) P) as [E1 E2].
  destruct (proportionalPass P T P (productionConstraints st)) as [allocs r].
  cbn [fst] in E1, E2.
  assert (H : map Allocation.factory
                (fst (if gt r (IZ 0) then redistribute r allocs else (allocs, r)))
              = map factory_location (productionConstraints st)
              /\ map Allocation.capacity
                   (fst (if gt r (IZ 0) then redistribute r allocs else (allocs, r)))
                 = map weekly_capacity (productionConstraints st)).
  { destruct (gt r (IZ 0)); [|now split].
    destruct (redistribute_entries allocs r) as [F1 F2].
    rewrite F1, F2. now split. }
  destruct H as [H1 H2]. split; [exact H1|]. split; [exact H2|].
  rewrite <- (length_map Allocation.factory), H1. apply length_map.
Qed.

Lemma Forall2_Forall_l {A B : Type} (R : A -> B -> Prop) (P : A -> Prop)
    (l : list A) (l' : list B) :
  (forall a b, R a b -> P a) -> Forall2 R l l' -> Forall P l.
Proof.
  intros H. induction 1; constructor; eauto.
Qed.

(** The integer view of a whole allocation, on a well-formed record
    store with a positive total capacity. *)
Lemma allocation_view (plan : option FestivalPlan)
    (inventoryData : list EnhancedInventoryData)
    (factories : list ProductionConstraint) (cs : list Z) :
  integer_stocks inventoryData -> finite_demands plan inventoryData ->
  capacities factories cs -> 0 < zsum cs ->
  exists p xcs,
    productionNeeded plan inventoryData = IZ p /\ 0 <= p
    /\ within_capacity (productionAllocationOf plan inventoryData factories) xcs
    /\ map snd xcs = cs
    /\ zsum (map fst xcs) = Z.min p (zsum cs).
Proof.
  intros Hstock Hdemand Hcaps HT.
  destruct (productionNeeded_integer plan inventoryData Hstock Hdemand) as (p & Hp & Hp0).
  unfold productionAllocationOf. rewrite Hp.
  destruct (allocate_within _ _ _ Hcaps HT Hp0) as (xcs & Hw & Hcs & Hsum).
  exists p, xcs. split; [reflexivity|]. repeat (split; [assumption|]). assumption.
Qed.



End AllocationBounds.

(** ** Saturation, idleness and the order of redistribution *)

Section AllocationExtremes.

Lemma within_capacity_ranges (allocs : list Allocation.t) (xcs : list (Z * Z)) :
  within_capacity allocs xcs -> Forall (fun xc => 0 <= fst xc <= snd xc) xcs.
Proof.
  induction 1 as [|a xc l l' (_ & _ & H) _ IH]; constructor; assumption.
Qed.

Lemma ranges_sum_le (xcs : list (Z * Z)) :
  Forall (fun xc => 0 <= fst xc <= snd xc) xcs ->
  0 <= zsum (map fst xcs) <= zsum (map snd xcs).
Proof.
  induction 1 as [|xc l H _ IH]; cbn [map]; rewrite ?zsum_cons; [cbn|]; lia.
Qed.


Lemma ranges_empty (xcs : list (Z * Z)) :
  Forall (fun xc => 0 <= fst xc <= snd xc) xcs ->
  zsum (map fst xcs) = 0 ->
  Forall (fun xc => fst xc = 0) xcs.
Proof.
  induction 1 as [|xc l H Hl IH]; intros Hsum; constructor;
    cbn [map] in Hsum; rewrite !zsum_cons in Hsum;
    pose proof (ranges_sum_le l Hl).
  - lia.
  - apply IH. lia.
Qed.


Lemma utilization_none (c : Z) : 0 < c -> utilization (IZ 0) (IZ c) = IZ 0.
Proof.
  intros Hc. rewrite utilization_integer by lia.
  replace (percent2 0 c) with 0; [reflexivity|].
  unfold percent2. symmetry. apply Z.div_small. lia.
Qed.





End AllocationExtremes.

Section RedistributionOrder.




End RedistributionOrder.

(** ** Conservation and zero capacity at work *)

Section AllocatorWitnesses.


Lemma zero_capacity_factory_allocation_witness :
  Allocation.allocatedDemand
    {| Allocation.factory := "Delhi"; Allocation.allocatedDemand := IZ 0;
       Allocation.capacity := IZ 0; Allocation.utilizationRate := NaN |} = IZ 0
  /\ Allocation.utilizationRate
       {| Allocation.factory := "Delhi"; Allocation.allocatedDemand := IZ 0;
          Allocation.capacity := IZ 0; Allocation.utilizationRate := NaN |} = NaN.
Proof.
  apply (zero_capacity_factory_allocation [idle delhiFactory; puneFactory] [0; 80] 43).
  - repeat constructor; lia.
  - reflexivity.
  - lia.
  - vm_compute. left. reflexivity.
  - reflexivity.
Defined.

End AllocatorWitnesses.

(** ** Inventory policy levels *)

Section PolicyLevels.

(** For a non-negative integer demand the three policy levels are
    ordered, safety stock <= reorder point <= optimal inventory, and the
    optimal inventory covers the demand. *)
Theorem policy_levels_ordered (plan : option FestivalPlan)
    (item : EnhancedInventoryData) (z : Z) :
  getEffectiveDemand plan item = IZ z -> 0 <= z ->
  let policy := inventoryPolicy plan item in
  le (InventoryPolicy.safetyStock policy) (InventoryPolicy.reorderPoint policy) = true
  /\ le (InventoryPolicy.reorderPoint policy) (InventoryPolicy.optimalInventory policy)
     = true
  /\ le (IZ z) (InventoryPolicy.optimalInventory policy) = true.
Proof.
  intros Hd Hz policy. unfold policy, inventoryPolicy.
  cbn [InventoryPolicy.optimalInventory InventoryPolicy.safetyStock
       InventoryPolicy.reorderPoint].
  rewrite Hd, !round_scaled, !le_IZ.
  repeat split; apply Z.leb_le.
  - apply Z.div_le_mono; lia.
  - apply Z.div_le_mono; lia.
  - apply Z.div_le_lower_bound; lia.
Qed.

Lemma policy_levels_ordered_witness :
  le (InventoryPolicy.safetyStock (inventoryPolicy None PC001))
     (InventoryPolicy.reorderPoint (inventoryPolicy None PC001)) = true
  /\ le (InventoryPolicy.reorderPoint (inventoryPolicy None PC001))
        (InventoryPolicy.optimalInventory (inventoryPolicy None PC001)) = true
  /\ le (IZ 40) (InventoryPolicy.optimalInventory (inventoryPolicy None PC001)) = true.
Proof.
  apply (policy_levels_ordered None PC001 40).
  - reflexivity.
  - lia.
Defined.

End PolicyLevels.

(** ** Performance metrics *)

Section Metrics.





(** A factory list whose capacities are all 0 is its own idle copy. *)
Lemma idle_fixed (factories : list ProductionConstraint) :
  Forall (fun f => weekly_capacity f = IZ 0) factories ->
  map idle factories = factories.
Proof.
  induction 1 as [|f fs Hf _ IH]; [reflexivity|].
  cbn [map]. rewrite IH. f_equal.
  destruct f; cbn in *. now subst.
Qed.

Lemma capacities_zero (factories : list ProductionConstraint) (cs : list Z) :
  capacities factories cs -> zsum cs = 0 ->
  Forall (fun f => weekly_capacity f = IZ 0) factories.
Proof.
  induction 1 as [|f c fs cs' [Hf Hc] Hrest IH]; intros Hsum; [constructor|].
  rewrite zsum_cons in Hsum.
  assert (0 <= zsum cs').
  { clear -Hrest. induction Hrest as [|? ? ? ? [_ ?] _ ?]; [cbn; lia|].
    rewrite zsum_cons. lia. }
  constructor; [rewrite Hf; f_equal; lia | apply IH; lia].
Qed.

Lemma capacities_total_nonneg (factories : list ProductionConstraint) (cs : list Z) :
  capacities factories cs -> 0 <= zsum cs.
Proof.
  induction 1 as [|? ? ? ? [_ ?] _ ?]; [cbn; lia|]. rewrite zsum_cons. lia.
Qed.

(** The reported capacity utilization is a percentage when the total
    capacity is positive, and [NaN] when it is zero. *)
Lemma capacityUtilization_cases (h : Host) (st : State) (cs : list Z) :
  integer_stocks (inventoryData st) ->
  finite_demands (festivalPlan st) (inventoryData st) ->
  capacities (productionConstraints st) cs ->
  let reported := capacityUtilization (performanceMetrics (mockOptimization h st)) in
  (0 < zsum cs -> is_percentage reported) /\ (zsum cs = 0 -> reported = NaN).
Proof.
  intros Hstock Hdemand Hcaps reported. unfold reported, mockOptimization.
  cbn [performanceMetrics capacityUtilization]. split.
  - intros HT.
    destruct (allocation_view _ _ _ cs Hstock Hdemand Hcaps HT)
      as (p & xcs & _ & Hp0 & Hw & _ & Hsum).
    rewrite (allocated_sum _ _ Hw), Hsum, (totalCapacity_IZ _ _ Hcaps).
    fold (utilization (IZ (Z.min p (zsum cs))) (IZ (zsum cs))).
    rewrite utilization_integer by lia.
    apply hundredths_percentage, percent2_bounds; lia.
  - intros HT.
    pose proof (capacities_zero _ _ Hcaps HT) as Hzero.
    rewrite (totalCapacity_IZ _ _ Hcaps), HT.
    unfold productionAllocationOf.
    destruct (productionConstraints st) as [|f fs] eqn:E.
    + unfold allocate; cbn [proportionalPass]. now destruct (gt _ (IZ 0)).
    + rewrite <- (idle_fixed _ Hzero). now rewrite allocate_idle.
Qed.

Lemma percentage_not_above (r : number) :
  is_percentage r -> gt r (IZ 100) = false.
Proof.
  intros [_ H]. unfold gt, lt, le in *.
  destruct r as [| | | q]; try discriminate H; try reflexivity.
  unfold IZ, cmp in *. rewrite <- Qcompare_antisym.
  destruct (Qcompare q (inject_Z 100)); try discriminate H; reflexivity.
Qed.

(** The capacity warning of the extras panel is never shown after an
    optimization of a record store with integer stocks, finite demands
    and non-negative integer capacities: the utilization it receives is
    computed from allocations that never exceed capacity, and the [NaN]
    of a zero total capacity is replaced by 0 before the comparison. *)
Theorem capacity_warning_never_shown (h : Host) (st : State) (cs : list Z) :
  integer_stocks (inventoryData st) ->
  finite_demands (festivalPlan st) (inventoryData st) ->
  capacities (productionConstraints st) cs ->
  capacityWarning
    (extrasCapacityUtilization (optimizedData (handleSupplyChainOptimization h st)))
  = false.
Proof.
  intros Hstock Hdemand Hcaps.
  unfold handleSupplyChainOptimization, extrasCapacityUtilization, capacityWarning.
  cbn [optimizedData].
  destruct (capacityUtilization_cases h st cs Hstock Hdemand Hcaps) as [Hpos Hzero].
  pose proof (capacities_total_nonneg _ _ Hcaps) as HT.
  destruct (Z.eq_dec (zsum cs) 0) as [E|E].
  - now rewrite (Hzero E).
  - unfold or_default.
    destruct (truthy _); [apply percentage_not_above, Hpos; lia | reflexivity].
Qed.

Lemma capacity_warning_never_shown_witness :
  capacityWarning
    (extrasCapacityUtilization
       (optimizedData
          (handleSupplyChainOptimization (host_at 0)
             (parseCSVFile
                (csv_of ["BIG,Delhi,Snacks,0,100000,100000,0,1,1,1,1,1,true"%string])
                initialState))))
  = false.
Proof.
  apply (capacity_warning_never_shown (host_at 0) _ [100; 80]).
  - repeat constructor; eexists; reflexivity.
  - repeat constructor.
  - repeat constructor; lia.
Defined.

End Metrics.

(** ** Festival plan and optimizer together *)

Section PlanThenOptimize.

Lemma find_map {A B : Type} (f : A -> B) (p : B -> bool) (l : list A) :
  find p (map f l) = option_map f (find (fun x => p (f x)) l).
Proof.
  induction l as [|x l IH]; [reflexivity|].
  cbn [map find]. destruct (p (f x)); [reflexivity | exact IH].
Qed.

Lemma find_present {A : Type} (p : A -> bool) (l : list A) (x : A) :
  In x l -> p x = true -> exists y, find p l = Some y /\ In y l /\ p y = true.
Proof.
  intros Hin Hp. destruct (find p l) as [y|] eqn:E.
  - exists y. split; [reflexivity|]. now apply find_some in E.
  - pose proof (find_none _ _ E x Hin). congruence.
Qed.

Lemma NoDup_map_unique {A B : Type} (f : A -> B) (l : list A) (x y : A) :
  NoDup (map f l) -> In x l -> In y l -> f x = f y -> x = y.
Proof.
  induction l as [|a l IH]; intros Hnd Hx Hy Hf; [contradiction|].
  cbn [map] in Hnd. inversion Hnd as [|? ? Hnotin Hnd']; subst.
  destruct Hx as [<-|Hx], Hy as [<-|Hy].
  - reflexivity.
  - exfalso. apply Hnotin. rewrite Hf. now apply in_map.
  - exfalso. apply Hnotin. rewrite <- Hf. now apply in_map.
  - now apply IH.
Qed.

Lemma Math_round_IZ (z : Z) : Math_round (IZ z) = IZ z.
Proof.
  change (Math_round (IZ z)) with (IZ (Qfloor (inject_Z z + (1 # 2)))).
  f_equal. unfold Qfloor, Qplus, inject_Z. cbn [Qnum Qden].
  change (Z.pos (1 * 2)) with 2.
  symmetry. apply Z.div_unique with (r := 1); lia.
Qed.

(** After the festival plan is generated, the optimizer resolves every
    SKU of the collection to the festival demand the planner computed
    for the first SKU record with the same [sku]: the record itself when
    SKUs are distinct.  Hence, with distinct SKUs, a SKU that is not
    festival-sensitive and has an integer forecast (of magnitude up to
    [2 ^ 53], which binary64 holds exactly) keeps the inventory policy it
    has without a plan. *)
Theorem fresh_plan_demand (st : State) (item : EnhancedInventoryData) :
  In item (inventoryData st) ->
  let plan := festivalPlan (handleFestivalPlanning st) in
  let m := currentMultiplier (festivalMultiplier st) in
  exists first,
    first_with_sku (inventoryData st) item = Some first
    /\ sku first = sku item
    /\ getEffectiveDemand plan item = festival_demand_of m first
    /\ (NoDup (map sku (inventoryData st)) ->
        first = item
        /\ ((exists z, forecast_demand item = IZ z /\ Z.abs z <= 2 ^ 53) ->
            is_festival_sensitive item = false ->
            inventoryPolicy plan item = inventoryPolicy None item)).
Proof.
  intros Hin plan m.
  destruct (find_present (fun other => String.eqb (sku other) (sku item))
              (inventoryData st) item Hin (String.eqb_refl _))
    as (first & Hfind & Hfirst & Hsku).
  apply String.eqb_eq in Hsku.
  assert (Hres : getEffectiveDemand plan item = festival_demand_of m first).
  { unfold getEffectiveDemand, festivalEntry, plan, handleFestivalPlanning.
    cbn [festivalPlan]. unfold mockFestivalPlan; cbn [demandForecast].
    rewrite find_map. cbn [DemandForecast.sku]. rewrite Hfind. reflexivity. }
  exists first. split; [exact Hfind|]. split; [exact Hsku|]. split; [exact Hres|].
  intros Hnd.
  assert (E : first = item)
    by (eapply NoDup_map_unique; eassumption).
  split; [exact E|]. subst first. intros (z & Hz & Hsafe) Hsens.
  assert (Hd : getEffectiveDemand plan item = forecast_demand item).
  { rewrite Hres. unfold festival_demand_of. rewrite Hsens, Hz, mul64_one by assumption.
    apply Math_round_IZ. }
  unfold inventoryPolicy. rewrite Hd. reflexivity.
Qed.

(** The theorem at the default record store: PC001 (sensitive, forecast
    40) resolves to 58 under the default multiplier 1.45. *)
Lemma fresh_plan_demand_witness :
  exists first,
    first_with_sku (inventoryData initialState) PC001 = Some first
    /\ sku first = sku PC001
    /\ getEffectiveDemand (festivalPlan (handleFestivalPlanning initialState)) PC001
       = festival_demand_of (currentMultiplier (festivalMultiplier initialState)) first
    /\ (NoDup (map sku (inventoryData initialState)) ->
        first = PC001
        /\ ((exists z, forecast_demand PC001 = IZ z /\ Z.abs z <= 2 ^ 53) ->
            is_festival_sensitive PC001 = false ->
            inventoryPolicy (festivalPlan (handleFestivalPlanning initialState)) PC001
            = inventoryPolicy None PC001)).
Proof.
  apply (fresh_plan_demand initialState PC001).
  left; reflexivity.
Defined.

Lemma Forall2_map_r_in {A B : Type} (R : A -> B -> Prop) (f : A -> B) (l : list A) :
  (forall x, In x l -> R x (f x)) -> Forall2 R l (map f l).
Proof.
  induction l as [|x l IH]; intros H; cbn [map]; constructor.
  - apply H. now left.
  - apply IH. intros y Hy. apply H. now right.
Qed.

(** Rounding the binary64 product of a non-negative integer and a finite
    factor of at least 1 does not go below the integer, nor above
    [2 ^ 53] when the exact product does not. *)
Lemma round_surge (z : Z) (q : Q) :
  0 <= z -> (1 <= q)%Q -> (inject_Z z * q <= inject_Z (2 ^ 53))%Q ->
  exists F, Math_round (mul64 (IZ z) (Num q)) = IZ F /\ z <= F <= 2 ^ 53.
Proof.
  intros Hz Hq Hq'.
  change (mul64 (IZ z) (Num q)) with (binary64 (Qred (inject_Z z * q))).
  set (x := Qred (inject_Z z * q)).
  assert (H0 : (0 <= inject_Z z)%Q)
    by (change 0%Q with (inject_Z 0); rewrite <- Zle_Qle; lia).
  assert (Hlo : (inject_Z z <= x)%Q).
  { unfold x. rewrite Qred_correct.
    rewrite <- (Qmult_1_r (inject_Z z)) at 1.
    apply Qmult_le_compat_nonneg; split;
      [assumption | apply Qle_refl | discriminate | assumption]. }
  assert (Hhi : (x <= inject_Z (2 ^ 53))%Q) by (unfold x; now rewrite Qred_correct).
  assert (Hz53 : z <= 2 ^ 53) by (rewrite Zle_Qle; eapply Qle_trans; eassumption).
  destruct (binary64_upper (2 ^ 53) x (Z.le_refl _) (Qle_trans _ _ _ H0 Hlo) Hhi)
    as (r & E & _ & Hr53).
  destruct (binary64_lower z x (conj Hz Hz53) Hlo) as [E' | (r' & E' & Hr)];
    rewrite E in E'; [discriminate E'|].
  injection E' as <-. rewrite E. cbn [Math_round].
  eexists. split; [reflexivity|]. split.
  - rewrite <- (Qfloor_Z z) at 1. apply Qfloor_resp_le.
    apply Qle_trans with r; [assumption|].
    rewrite <- (Qplus_0_r r) at 1. apply Qplus_le_r. discriminate.
  - apply Z.le_trans with (Qfloor (inject_Z (2 ^ 53) + (1 # 2))).
    + apply Qfloor_resp_le. now apply Qplus_le_l.
    + apply Z.eq_le_incl, IZ_inj. exact (Math_round_IZ (2 ^ 53)).
Qed.

(** With a finite multiplier of at least 1, on stocks and forecasts that
    are integers between 0 and [2 ^ 53] whose product with the multiplier
    stays in that range (so that binary64 is exact on the integers
    involved), no SKU's festival demand is below its forecast, a SKU that
    is not festival-sensitive keeps its forecast, and the buildup is the
    shortfall of the stock against the festival demand, never
    negative. *)
Theorem festival_surge (st : State) (q : Q) :
  currentMultiplier (festivalMultiplier st) = Num q -> (1 <= q)%Q ->
  Forall (fun item =>
            exists z s, forecast_demand item = IZ z /\ 0 <= z
                        /\ (inject_Z z * q <= inject_Z (2 ^ 53))%Q
                        /\ current_stock item = IZ s /\ 0 <= s <= 2 ^ 53)
         (inventoryData st) ->
  Forall2 surge_ok (inventoryData st)
    (combine (demandForecast (mockFestivalPlan st))
             (inventoryBuildup (mockFestivalPlan st))).
Proof.
  intros Hm Hq Hinv.
  unfold mockFestivalPlan; cbn [demandForecast inventoryBuildup].
  rewrite combine_map_same. apply Forall2_map_r_in.
  intros item Hin. rewrite Forall_forall in Hinv.
  destruct (Hinv item Hin) as (z & s & Hz & Hz0 & Hzq & Hs & Hs0).
  destruct (round_surge z q Hz0 Hq Hzq) as (F & HF & HzF).
  unfold surge_ok.
  cbn [fst snd DemandForecast.festivalDemand InventoryBuildup.buildupNeeded].
  rewrite Hm, Hz, Hs.
  destruct (is_festival_sensitive item).
  - exists z, s, F. rewrite HF, sub64_IZ, Math_max_IZ by lia.
    repeat split; try assumption; try lia; discriminate.
  - exists z, s, z. rewrite mul64_one by lia.
    rewrite Math_round_IZ, sub64_IZ, Math_max_IZ by lia.
    repeat split; try reflexivity; try lia.
Qed.

(** The theorem at the default record store under the default multiplier
    1.45. *)
Lemma festival_surge_witness :
  Forall2 surge_ok (inventoryData initialState)
    (combine (demandForecast (mockFestivalPlan initialState))
             (inventoryBuildup (mockFestivalPlan initialState))).
Proof.
  apply (festival_surge initialState (6530219459687219 # 4503599627370496)).
  - vm_compute. reflexivity.
  - discriminate.
  - repeat constructor.
    + exists 40, 10. repeat split; try reflexivity; try lia.
      apply Qle_bool_imp_le. vm_compute. reflexivity.
    + exists 25, 25. repeat split; try reflexivity; try lia.
      apply Qle_bool_imp_le. vm_compute. reflexivity.
Defined.

End PlanThenOptimize.

(** ** The analysis reporter: risk lists *)

Section RiskLists.

Lemma lt_scaled (s a n : Z) (d : positive) :
  lt (IZ s) (mul (IZ a) (lit n d)) = (s * Zpos d <? a * n).
Proof.
  unfold lit, IZ, mul, lt, cmp.
  rewrite !Qred_correct. unfold Qcompare, Qmult, inject_Z. cbn [Qnum Qden].
  rewrite Z.mul_1_r, Pos.mul_1_l. unfold Z.ltb.
  now destruct (s * Z.pos d ?= a * n).
Qed.

Lemma filter_length_le {A : Type} (p q : A -> bool) (l : list A) :
  (forall x, In x l -> p x = true -> q x = true) ->
  (List.length (filter p l) <= List.length (filter q l))%nat.
Proof.
  induction l as [|x l IH]; intros H; [apply Nat.le_refl|].
  cbn [filter].
  assert (IH' : (List.length (filter p l) <= List.length (filter q l))%nat)
    by (apply IH; intros y Hy; apply H; now right).
  destruct (p x) eqn:Hp.
  - rewrite (H x (or_introl eq_refl) Hp). cbn [List.length]. lia.
  - destruct (q x); cbn [List.length]; lia.
Qed.

(** On non-negative integer stocks and demands every SKU counted as a
    high-risk product (stock below 30% of actual demand) is also listed
    as a critical shortage (stock below 50%), so the high-risk count
    never exceeds the number of critical shortages. *)
Theorem high_risk_within_critical (st : State) :
  Forall observed (inventoryData st) ->
  let analysis := dynamicAnalysis st in
  (forall item, In item (belowShare (lit 3 10) (inventoryData st)) ->
                In item (InventoryAnalysis.criticalShortages
                           (Analysis.inventoryAnalysis analysis)))
  /\ le (RiskAssessment.highRiskProducts (Analysis.riskAssessment analysis))
        (length_of (InventoryAnalysis.criticalShortages
                      (Analysis.inventoryAnalysis analysis))) = true.
Proof.
  intros Hobs analysis. rewrite Forall_forall in Hobs.
  assert (Himp : forall item, In item (inventoryData st) ->
            lt (current_stock item) (mul (actual_demand item) (lit 3 10)) = true ->
            lt (current_stock item) (mul (actual_demand item) (lit 5 10)) = true).
  { intros item Hin. destruct (Hobs item Hin) as (s & a & -> & -> & Hs & Ha).
    rewrite !lt_scaled. intros H. apply Z.ltb_lt in H. apply Z.ltb_lt. lia. }
  unfold analysis, dynamicAnalysis.
  cbn [Analysis.inventoryAnalysis Analysis.riskAssessment
       InventoryAnalysis.criticalShortages RiskAssessment.highRiskProducts].
  split.
  - intros item Hin. unfold belowShare in *. apply filter_In in Hin.
    destruct Hin as [Hin Hlt]. apply filter_In. split; [assumption|].
    now apply Himp.
  - unfold length_of. rewrite le_IZ. apply Z.leb_le, Nat2Z.inj_le.
    unfold belowShare. now apply filter_length_le.
Qed.

Lemma high_risk_within_critical_witness :
  (forall item, In item (belowShare (lit 3 10) (inventoryData initialState)) ->
                In item (InventoryAnalysis.criticalShortages
                           (Analysis.inventoryAnalysis (dynamicAnalysis initialState))))
  /\ le (RiskAssessment.highRiskProducts
           (Analysis.riskAssessment (dynamicAnalysis initialState)))
        (length_of (InventoryAnalysis.criticalShortages
                      (Analysis.inventoryAnalysis (dynamicAnalysis initialState))))
     = true.
Proof.
  apply (high_risk_within_critical initialState).
  repeat constructor.
  - exists 10, 60. repeat split; try reflexivity; lia.
  - exists 25, 20. repeat split; try reflexivity; lia.
Defined.

End RiskLists.

(** ** The analysis reporter: forecast accuracy *)

Section ForecastAccuracy.






End ForecastAccuracy.

(** ** The analysis reporter: warehouse levels *)

Section WarehouseLevels.





End WarehouseLevels.

(** ** Manual entry *)

Section ManualEntry.

Lemma filter_all {A : Type} (f : A -> bool) (l : list A) :
  (forall x, In x l -> f x = true) -> filter f l = l.
Proof.
  induction l as [|x l IH]; intros H; [reflexivity|].
  cbn [filter]. rewrite (H x (or_introl eq_refl)). f_equal.
  apply IH. intros y Hy. apply H. now right.
Qed.

Lemma map_snd_combine_seq {A : Type} (l : list A) :
  forall k, map snd (combine (seq k (List.length l)) l) = l.
Proof.
  induction l as [|x l IH]; intros k; [reflexivity|].
  cbn [List.length seq combine map snd]. now rewrite IH.
Qed.

Lemma filterIndex_from {A : Type} (index k : nat) (l : list A) :
  map snd (filter (fun p => negb (fst p =? k + index)%nat)
                  (combine (seq k (List.length l)) l))
  = firstn index l ++ skipn (S index) l.
Proof.
  revert index k. induction l as [|x l IH]; intros index k.
  - now destruct index.
  - cbn [List.length seq combine filter fst].
    destruct index as [|index].
    + rewrite Nat.add_0_r, Nat.eqb_refl. cbn [negb firstn skipn app].
      rewrite filter_all; [apply map_snd_combine_seq|].
      intros [i y] Hin. apply in_combine_l in Hin. apply in_seq in Hin.
      cbn [fst]. destruct (Nat.eqb_spec i k); [lia | reflexivity].
    + destruct (Nat.eqb_spec k (k + S index)) as [E|_]; [lia|].
      cbn [negb map snd]. change (firstn (S index) (x :: l) ++ skipn (S (S index)) (x :: l))
        with (x :: (firstn index l ++ skipn (S index) l)).
      f_equal. rewrite <- (IH index (S k)). f_equal. apply filter_ext.
      intros [i y]. cbn [fst]. f_equal. f_equal. lia.
Qed.

Lemma filterIndex_remove {A : Type} (index : nat) (l : list A) :
  filterIndex (fun i => negb (i =? index)%nat) l
  = firstn index l ++ skipn (S index) l.
Proof. exact (filterIndex_from index 0 l). Qed.

(** Removing row [index] keeps the rows before and after it, in order;
    an index past the end removes nothing; and since the button is only
    rendered for a collection of more than one record, a removal never
    empties the collection. *)
Theorem remove_row (index : nat) (st : State) :
  inventoryData (removeInventoryItem index st)
    = firstn index (inventoryData st) ++ skipn (S index) (inventoryData st)
  /\ ((index < List.length (inventoryData st))%nat ->
      List.length (inventoryData (removeInventoryItem index st))
      = (List.length (inventoryData st) - 1)%nat)
  /\ ((List.length (inventoryData st) <= index)%nat ->
      inventoryData (removeInventoryItem index st) = inventoryData st)
  /\ (removeShown st = true -> inventoryData (removeInventoryItem index st) <> []).
Proof.
  assert (E : inventoryData (removeInventoryItem index st)
              = firstn index (inventoryData st) ++ skipn (S index) (inventoryData st))
    by apply filterIndex_remove.
  split; [exact E|]. rewrite E. clear E.
  set (l := inventoryData st). unfold removeShown. fold l.
  split; [|split].
  - intros H. rewrite length_app, length_firstn, length_skipn. lia.
  - intros H. rewrite firstn_all2, skipn_all2 by lia. apply app_nil_r.
  - intros H Hnil. apply Nat.ltb_lt in H.
    apply (f_equal (@List.length _)) in Hnil.
    rewrite length_app, length_firstn, length_skipn in Hnil. cbn in Hnil. lia.
Qed.

Lemma remove_row_witness :
  map sku (inventoryData (removeInventoryItem 0 initialState)) = ["NC001"%string]
  /\ inventoryData (removeInventoryItem 0 initialState) <> [].
Proof.
  split; [reflexivity|].
  apply (proj2 (proj2 (proj2 (remove_row 0 initialState)))).
  reflexivity.
Defined.

(** Adding a SKU and then removing the last row gives back the
    collection as it was; the added row is numbered one past the former
    length. *)
Theorem add_then_remove_last (st : State) :
  inventoryData (removeInventoryItem (List.length (inventoryData st))
                   (addInventoryItem st))
    = inventoryData st
  /\ List.length (inventoryData (addInventoryItem st))
     = S (List.length (inventoryData st))
  /\ nth_error (inventoryData (addInventoryItem st)) (List.length (inventoryData st))
     = Some (newItem (List.length (inventoryData st)))
  /\ forall i, (i < List.length (inventoryData st))%nat ->
               nth_error (inventoryData (addInventoryItem st)) i
               = nth_error (inventoryData st) i.
Proof.
  split; [|split; [|split]].
  - unfold removeInventoryItem, addInventoryItem.
    cbn [inventoryData setInventoryData]. rewrite filterIndex_remove.
    set (l := inventoryData st).
    rewrite firstn_app, firstn_all, Nat.sub_diag. cbn [firstn].
    rewrite skipn_all2 by (rewrite length_app; cbn; lia).
    now rewrite !app_nil_r.
  - unfold addInventoryItem. cbn [inventoryData setInventoryData].
    rewrite length_app. cbn. lia.
  - unfold addInventoryItem. cbn [inventoryData setInventoryData].
    rewrite nth_error_app2 by lia. now rewrite Nat.sub_diag.
  - intros i Hi. unfold addInventoryItem. cbn [inventoryData setInventoryData].
    now apply nth_error_app1.
Qed.

Lemma updateAt_spec {A : Type} (f : A -> A) (l : list A) :
  forall index,
    match updateAt index f l with
    | Some l' =>
        (index < List.length l)%nat
        /\ List.length l' = List.length l
        /\ nth_error l' index = option_map f (nth_error l index)
        /\ forall j, j <> index -> nth_error l' j = nth_error l j
    | None => (List.length l <= index)%nat
    end.
Proof.
  induction l as [|x l IH]; intros index.
  - destruct index; cbn; lia.
  - destruct index as [|index]; cbn [updateAt].
    + cbn [List.length nth_error option_map].
      split; [lia|]. split; [reflexivity|]. split; [reflexivity|].
      intros [|j] Hj; [congruence | reflexivity].
    + specialize (IH index). destruct (updateAt index f l) as [l'|].
      * destruct IH as (H1 & H2 & H3 & H4).
        cbn [List.length nth_error].
        split; [lia|]. split; [lia|]. split; [assumption|].
        intros [|j] Hj; [reflexivity|]. cbn [nth_error]. apply H4. congruence.
      * cbn [List.length]. lia.
Qed.

(** Editing a field of row [index] succeeds exactly when the row exists;
    it then replaces that row by the same record with the one field
    changed, and leaves every other row, the number of rows and the rest
    of the state as they were. *)
Theorem update_row (index : nat) (fv : FieldValue) (st : State) :
  match updateInventoryItem index fv st with
  | Some st' =>
      (index < List.length (inventoryData st))%nat
      /\ List.length (inventoryData st') = List.length (inventoryData st)
      /\ nth_error (inventoryData st') index
         = option_map (setField fv) (nth_error (inventoryData st) index)
      /\ (forall j, j <> index ->
                    nth_error (inventoryData st') j = nth_error (inventoryData st) j)
      /\ productionConstraints st' = productionConstraints st
      /\ suppliers st' = suppliers st
      /\ festivalPlan st' = festivalPlan st
      /\ optimizedData st' = optimizedData st
      /\ festivalMultiplier st' = festivalMultiplier st
  | None => (List.length (inventoryData st) <= index)%nat
  end.
Proof.
  unfold updateInventoryItem.
  pose proof (updateAt_spec (setField fv) (inventoryData st) index) as H.
  destruct (updateAt index (setField fv) (inventoryData st)) as [updated|];
    [|exact H].
  destruct H as (H1 & H2 & H3 & H4). cbn [inventoryData setInventoryData
    productionConstraints suppliers festivalPlan optimizedData festivalMultiplier].
  repeat split; assumption.
Qed.

End ManualEntry.

(** ** What the page keeps true *)

Section PageInvariant.

Lemma whole_IZ (z : Z) : whole (IZ z).
Proof. right; right. now exists z. Qed.

Lemma or_default_whole (x : number) (d : Z) :
  x = NaN \/ whole x -> whole (or_default x (IZ d)).
Proof.
  intros [-> | H]; [apply whole_IZ|].
  unfold or_default. destruct (truthy x); [exact H | apply whole_IZ].
Qed.

Lemma countInput_whole (text : string) : whole (countInput text).
Proof. apply or_default_whole, parseInt_whole. Qed.

Lemma parseRow_whole_counts (headers : list string) (i : nat) (line : string)
    (item : EnhancedInventoryData) :
  parseRow headers i line = Some item -> whole_counts item.
Proof.
  unfold parseRow. destruct (_ <=? _)%nat; [|discriminate].
  intros [= <-]. unfold whole_counts.
  cbn [current_stock forecast_demand actual_demand production_capacity
       lead_time_days shelf_life_days].
  repeat split; apply or_default_whole, parseInt_whole.
Qed.

Lemma parsedData_whole_counts (text : string) :
  Forall whole_counts (parsedData text).
Proof.
  apply Forall_forall. intros item Hin. unfold parsedData in Hin.
  apply parseRows_In in Hin. destruct Hin as (i & line & _ & _ & Hrow).
  now apply parseRow_whole_counts in Hrow.
Qed.

Lemma filterIndex_In {A : Type} (keep : nat -> bool) (l : list A) (x : A) :
  In x (filterIndex keep l) -> In x l.
Proof.
  unfold filterIndex. intros H. apply in_map_iff in H.
  destruct H as ([i y] & <- & Hin). apply filter_In in Hin.
  destruct Hin as [Hin _]. now apply in_combine_r in Hin.
Qed.

Lemma updateAt_Forall {A : Type} (P : A -> Prop) (f : A -> A) (l : list A) :
  (forall x, P x -> P (f x)) -> Forall P l ->
  forall index l', updateAt index f l = Some l' -> Forall P l'.
Proof.
  intros Hf. induction 1 as [|x l Hx Hl IH]; intros index l' H.
  - destruct index; discriminate H.
  - destruct index as [|index]; cbn [updateAt] in H.
    + injection H as <-. constructor; auto.
    + destruct (updateAt index f l) as [rest|] eqn:E; [|discriminate].
      injection H as <-. constructor; [assumption | now apply (IH index)].
Qed.

Lemma updateAt_map {A B : Type} (g : A -> B) (f : A -> A) (l : list A) :
  (forall x, g (f x) = g x) ->
  forall index l', updateAt index f l = Some l' -> map g l' = map g l.
Proof.
  intros Hf. induction l as [|x l IH]; intros index l' H.
  - destruct index; discriminate H.
  - destruct index as [|index]; cbn [updateAt] in H.
    + injection H as <-. cbn [map]. now rewrite Hf.
    + destruct (updateAt index f l) as [rest|] eqn:E; [|discriminate].
      injection H as <-. cbn [map]. now rewrite (IH index rest E).
Qed.

Lemma setField_row_counts (input : RowInput) (text : string)
    (item : EnhancedInventoryData) :
  whole_counts item -> whole_counts (setField (rowValue input text) item).
Proof.
  intros (H1 & H2 & H3 & H4 & H5 & H6). unfold whole_counts.
  destruct input;
    cbn [setField rowValue current_stock forecast_demand actual_demand
         production_capacity lead_time_days shelf_life_days];
    repeat split; try assumption; apply countInput_whole.
Qed.

Lemma supplier_ids_grow (l : list Supplier.t) :
  map Supplier.supplier_id l = map supplierId (seq 1 (List.length l)) ->
  map Supplier.supplier_id (l ++ [newSupplier (List.length l)])
  = map supplierId (seq 1 (List.length (l ++ [newSupplier (List.length l)]))).
Proof.
  intros H. rewrite length_app, map_app, H. cbn [List.length map].
  rewrite Nat.add_1_r, seq_S, map_app. cbn [map Supplier.supplier_id newSupplier].
  now rewrite Nat.add_1_r.
Qed.

Lemma page_invariant_step (st st' : State) :
  page_invariant st -> step st st' -> page_invariant st'.
Proof.
  intros (Hinv & Hcap & Hloc & Hmul & Hsup) Hstep.
  destruct Hstep as [text st | st | index st Hshown Hindex
                    | index input text st st' Hupd | index checked st st' Hupd
                    | index input text st st' Hupd | st | text st | st | h st].
  - repeat split; try assumption. apply parsedData_whole_counts.
  - repeat split; try assumption.
    cbn [addInventoryItem inventoryData setInventoryData].
    apply Forall_app. split; [assumption|]. constructor; [|constructor].
    unfold whole_counts, newItem;
      cbn [current_stock forecast_demand actual_demand production_capacity
           lead_time_days shelf_life_days].
    repeat split; apply whole_IZ.
  - repeat split; try assumption.
    cbn [removeInventoryItem inventoryData setInventoryData].
    rewrite Forall_forall in *. intros item Hin.
    apply Hinv. now apply filterIndex_In in Hin.
  - unfold updateInventoryItem in Hupd.
    destruct (updateAt index _ (inventoryData st)) as [updated|] eqn:E; [|discriminate].
    injection Hupd as <-. repeat split; try assumption.
    cbn [inventoryData setInventoryData].
    eapply updateAt_Forall; [|exact Hinv|exact E].
    intros item. apply setField_row_counts.
  - unfold updateInventoryItem in Hupd.
    destruct (updateAt index _ (inventoryData st)) as [updated|] eqn:E; [|discriminate].
    injection Hupd as <-. repeat split; try assumption.
    cbn [inventoryData setInventoryData].
    eapply updateAt_Forall; [|exact Hinv|exact E].
    intros item H. exact H.
  - unfold editConstraint in Hupd.
    destruct (updateAt index _ (productionConstraints st)) as [updated|] eqn:E;
      [|discriminate].
    injection Hupd as <-. repeat split; try assumption;
      cbn [productionConstraints setProductionConstraints].
    + eapply updateAt_Forall; [|exact Hcap|exact E].
      intros c Hc. destruct input; cbn [setConstraint weekly_capacity];
        [apply countInput_whole | exact Hc | exact Hc].
    + rewrite <- Hloc. eapply updateAt_map; [|exact E]. reflexivity.
  - repeat split; try assumption.
    cbn [addSupplier suppliers setSuppliers]. now apply supplier_ids_grow.
  - repeat split; try assumption.
    cbn [editMultiplier festivalMultiplier setFestivalMultiplier].
    unfold or_default. destruct (truthy (parseFloat (Some text))) eqn:E;
      [exact E | reflexivity].
  - repeat split; assumption.
  - repeat split; assumption.
Qed.

Lemma page_invariant_reachable (st : State) : reachable st -> page_invariant st.
Proof.
  induction 1 as [|st st' _ IH Hstep].
  - repeat split; try reflexivity.
    + repeat (constructor; [repeat split; apply whole_IZ|]). constructor.
    + repeat (constructor; [apply whole_IZ|]). constructor.
  - exact (page_invariant_step st st' IH Hstep).
Qed.

(** Whatever the user does on the page (upload files, add, remove and
    edit rows, edit the factory cards, add suppliers, change the
    multiplier, plan, optimize), every count of every SKU record and
    every weekly capacity stays a whole number: an integer, or the
    infinity that [parseInt] gives for an integer beyond the binary64
    range, but never [NaN] and never a fraction; the two factories stay
    "Delhi" and "Pune"; and the multiplier stays a number other than 0
    and [NaN], so the planner always uses the configured multiplier and
    never its 1.35 default. *)
Theorem page_keeps_whole_counts (st : State) :
  reachable st ->
  Forall whole_counts (inventoryData st)
  /\ Forall (fun c => whole (weekly_capacity c)) (productionConstraints st)
  /\ map factory_location (productionConstraints st) = ["Delhi"; "Pune"]%string
  /\ currentMultiplier (festivalMultiplier st) = festivalMultiplier st
  /\ isNaN (festivalMultiplier st) = false.
Proof.
  intros H. destruct (page_invariant_reachable st H) as (H1 & H2 & H3 & H4 & _).
  repeat (split; [assumption|]).
  unfold currentMultiplier, or_default. rewrite H4. split; [reflexivity|].
  now destruct (festivalMultiplier st).
Qed.

(** The theorem at a state reached by an upload, an edit that types a
    capacity of 400 digits and a multiplier input that does not parse:
    the capacity of the first factory is then [+Infinity]. *)
Lemma page_keeps_whole_counts_witness :
  let st :=
    editMultiplier "abc"
      (setProductionConstraints
         [setConstraint weekly_capacity_input
            (string_of_list_ascii (repeat "9"%char 400)) delhiFactory;
          puneFactory]
         (parseCSVFile (csv_of sample_rows) initialState)) in
  map weekly_capacity (productionConstraints st) = [PosInf; IZ 80]
  /\ Forall whole_counts (inventoryData st)
  /\ Forall (fun c => whole (weekly_capacity c)) (productionConstraints st)
  /\ map factory_location (productionConstraints st) = ["Delhi"; "Pune"]%string
  /\ currentMultiplier (festivalMultiplier st) = festivalMultiplier st
  /\ isNaN (festivalMultiplier st) = false.
Proof.
  split; [vm_compute; reflexivity|].
  apply page_keeps_whole_counts.
  eapply reachable_step; [eapply reachable_step; [eapply reachable_step|]|].
  - apply reachable_initial.
  - apply (step_upload (csv_of sample_rows)).
  - apply (step_constraint 0 weekly_capacity_input
             (string_of_list_ascii (repeat "9"%char 400))).
    reflexivity.
  - apply (step_multiplier "abc").
Defined.

End PageInvariant.

(** ** Supplier ids *)

Section SupplierIds.

Lemma decimal_value_index_text (n : nat) : decimal_value (index_text n) = Some n.
Proof.
  unfold decimal_value, index_text, NilZero.string_of_uint.
  pose proof (DecimalNat.Unsigned.of_to n) as Hn.
  destruct (Nat.to_uint n) eqn:E;
    try (rewrite NilEmpty.usu; cbn [option_map]; now rewrite Hn).
  cbn in Hn. subst n. reflexivity.
Qed.

Lemma decimal_value_zero (s : string) :
  decimal_value (String "0" s) = decimal_value s.
Proof.
  unfold decimal_value. cbn [NilEmpty.uint_of_string].
  destruct (NilEmpty.uint_of_string s) as [d|]; reflexivity.
Qed.

Lemma decimal_value_padStart (targetLength : nat) (s : string) :
  decimal_value (padStart targetLength "0" s) = decimal_value s.
Proof.
  unfold padStart. induction (targetLength - String.length s)%nat as [|k IH];
    [reflexivity|].
  cbn [repeat string_of_list_ascii String.append]. now rewrite decimal_value_zero.
Qed.

Lemma supplierId_injective (a b : nat) : supplierId a = supplierId b -> a = b.
Proof.
  unfold supplierId. cbn [String.append]. intros [= H].
  apply (f_equal decimal_value) in H.
  rewrite !decimal_value_padStart, !decimal_value_index_text in H.
  now injection H.
Qed.

Lemma NoDup_map_injective {A B : Type} (f : A -> B) (l : list A) :
  (forall x y, f x = f y -> x = y) -> NoDup l -> NoDup (map f l).
Proof.
  intros Hf. induction 1 as [|x l Hx _ IH]; cbn [map]; constructor; [|assumption].
  intros Hin. apply in_map_iff in Hin. destruct Hin as (y & Hy & Hin).
  apply Hf in Hy. now subst y.
Qed.

(** However many suppliers the user adds, no two suppliers of the page
    carry the same id: the k-th supplier has the id "SUP" followed by k
    padded to three digits, and that text determines k. *)
Theorem supplier_ids_distinct (st : State) :
  reachable st ->
  NoDup (map Supplier.supplier_id (suppliers st))
  /\ forall k s,
       nth_error (suppliers st) k = Some s ->
       Supplier.supplier_id s = supplierId (S k).
Proof.
  intros H. destruct (page_invariant_reachable st H) as (_ & _ & _ & _ & Hids).
  split.
  - rewrite Hids. apply NoDup_map_injective; [exact supplierId_injective|].
    apply seq_NoDup.
  - intros k s Hk.
    assert (Hlen : (k < List.length (suppliers st))%nat)
      by (apply nth_error_Some; rewrite Hk; discriminate).
    apply (map_nth_error Supplier.supplier_id) in Hk.
    rewrite Hids in Hk.
    rewrite (map_nth_error supplierId k (seq 1 (List.length (suppliers st)))
               (d := S k)) in Hk.
    + now injection Hk.
    + rewrite nth_error_nth' with (d := 0%nat) by (rewrite length_seq; lia).
      now rewrite seq_nth by lia.
Qed.

(** The theorem after three additions: the ids are SUP001 to SUP005. *)
Lemma supplier_ids_distinct_witness :
  map Supplier.supplier_id
      (suppliers (addSupplier (addSupplier (addSupplier initialState))))
    = ["SUP001"; "SUP002"; "SUP003"; "SUP004"; "SUP005"]%string
  /\ NoDup (map Supplier.supplier_id
              (suppliers (addSupplier (addSupplier (addSupplier initialState))))).
Proof.
  split; [reflexivity|].
  apply (supplier_ids_distinct (addSupplier (addSupplier (addSupplier initialState)))).
  repeat (eapply reachable_step; [|apply step_supplier]).
  apply reachable_initial.
Defined.

End SupplierIds.

(** ** Uploaded records and the optimizer *)

Section UploadThenOptimize.

Lemma or_default_not_NaN (x d : number) :
  isNaN d = false -> isNaN (or_default x d) = false.
Proof.
  intros Hd. unfold or_default. destruct (truthy x) eqn:E; [|exact Hd].
  now destruct x.
Qed.

(** No file, however malformed, puts [NaN] or a fraction into the counts
    of the record store: in every parsed record the six counts are whole
    numbers (integers, or an infinity for a count beyond the binary64
    range) and the three cost figures are numbers. *)
Theorem parsed_records_numeric (text : string) :
  Forall (fun item =>
            whole_counts item
            /\ isNaN (unit_cost item) = false
            /\ isNaN (holding_cost_rate item) = false
            /\ isNaN (stockout_penalty item) = false)
         (parsedData text).
Proof.
  apply Forall_forall. intros item Hin. unfold parsedData in Hin.
  apply parseRows_In in Hin. destruct Hin as (i & line & _ & _ & Hrow).
  split; [now apply parseRow_whole_counts in Hrow|].
  unfold parseRow in Hrow. destruct (_ <=? _)%nat; [|discriminate].
  injection Hrow as <-. cbn [unit_cost holding_cost_rate stockout_penalty].
  repeat split; now apply or_default_not_NaN.
Qed.

(** What the parser stores for counts at the edge of binary64: fifteen
    digits are kept, [2 ^ 53 + 1] is rounded to [2 ^ 53], and 400 digits
    overflow to an infinity that [|| 0] keeps. *)
Example parseInt_binary64 :
  parseInt (Some "123456789012345"%string) = IZ 123456789012345
  /\ parseInt (Some "9007199254740993"%string) = IZ 9007199254740992
  /\ countInput (string_of_list_ascii (repeat "9"%char 400)) = PosInf
  /\ parseFloat (Some "1e400"%string) = PosInf
  /\ rateInput "1e-400" = IZ 0
  /\ parseFloat (Some "0.1"%string) = Num (3602879701896397 # 36028797018963968).
Proof. repeat split; vm_compute; reflexivity. Qed.






End UploadThenOptimize.

(** ** Production cost *)

Section ProductionCost.






End ProductionCost.

(** ** An empty record store *)

Section EmptyStore.

(** With no SKU at all (as after uploading an empty file) and a positive
    total capacity, the optimizer produces no policy, needs no
    production, allocates 0 to every factory, and reports the service
    level 100, the turnover 0, the capacity utilization 0 and no
    inventory cost. *)
Theorem empty_record_store (h : Host) (st : State) (cs : list Z) :
  inventoryData st = [] ->
  capacities (productionConstraints st) cs -> 0 < zsum cs ->
  let o := mockOptimization h st in
  inventoryOptimization o = []
  /\ productionNeeded (festivalPlan st) (inventoryData st) = IZ 0
  /\ Forall (fun a => Allocation.allocatedDemand a = IZ 0) (productionAllocation o)
  /\ serviceLevel (performanceMetrics o) = IZ 100
  /\ inventoryTurnover (performanceMetrics o) = IZ 0
  /\ capacityUtilization (performanceMetrics o) = IZ 0
  /\ totalInventoryCost (costAnalysis o) = IZ 0.
Proof.
  intros Hempty Hcaps HT o. unfold o, mockOptimization.
  cbn [inventoryOptimization productionAllocation performanceMetrics costAnalysis
       serviceLevel inventoryTurnover capacityUtilization totalInventoryCost].
  rewrite Hempty. unfold productionAllocationOf.
  change (productionNeeded (festivalPlan st) []) with (IZ 0).
  destruct (allocate_within _ _ 0 Hcaps HT (Z.le_refl 0)) as (xcs & Hw & _ & Hsum).
  rewrite Z.min_l in Hsum by lia.
  split; [reflexivity|]. split; [reflexivity|]. split.
  - pose proof (ranges_empty xcs (within_capacity_ranges _ _ Hw) Hsum) as Hnone.
    rewrite Forall_forall in *. intros a Hin.
    destruct (Forall2_In_l _ _ _ _ Hw Hin) as ([x c] & Hxc & Hx & _).
    specialize (Hnone _ Hxc). cbn [fst] in *. now subst x.
  - split; [reflexivity|]. split; [reflexivity|]. split; [|reflexivity].
    rewrite (allocated_sum _ _ Hw), Hsum, (totalCapacity_IZ _ _ Hcaps).
    now apply utilization_none.
Qed.

Lemma empty_record_store_witness :
  let st := parseCSVFile "" initialState in
  let o := mockOptimization (host_at 0) st in
  inventoryOptimization o = []
  /\ productionNeeded (festivalPlan st) (inventoryData st) = IZ 0
  /\ Forall (fun a => Allocation.allocatedDemand a = IZ 0) (productionAllocation o)
  /\ serviceLevel (performanceMetrics o) = IZ 100
  /\ inventoryTurnover (performanceMetrics o) = IZ 0
  /\ capacityUtilization (performanceMetrics o) = IZ 0
  /\ totalInventoryCost (costAnalysis o) = IZ 0.
Proof.
  apply (empty_record_store (host_at 0) (parseCSVFile "" initialState) [100; 80]).
  - reflexivity.
  - repeat constructor; lia.
  - reflexivity.
Defined.

End EmptyStore.

(** ** Carriage returns *)

Section CarriageReturns.

Lemma split_nonempty (sep : ascii) (s : string) : split sep s <> [].
Proof.
  destruct s as [|c s]; cbn [split]; [discriminate|].
  destruct (Ascii.eqb c sep); [discriminate|].
  destruct (split sep s); discriminate.
Qed.

Lemma mapLast_cons {A : Type} (f : A -> A) (x : A) (l : list A) :
  l <> [] -> mapLast f (x :: l) = x :: mapLast f l.
Proof. destruct l; [congruence | reflexivity]. Qed.

Lemma mapLast_length {A : Type} (f : A -> A) (l : list A) :
  List.length (mapLast f l) = List.length l.
Proof.
  induction l as [|x [|y l] IH]; try reflexivity.
  rewrite mapLast_cons by discriminate. cbn [List.length] in *. now rewrite IH.
Qed.

Lemma mapLast_before {A : Type} (f : A -> A) (l : list A) :
  forall k, (S k < List.length l)%nat -> nth_error (mapLast f l) k = nth_error l k.
Proof.
  induction l as [|x [|y l] IH]; intros k Hk; cbn [List.length] in Hk; try lia.
  rewrite mapLast_cons by discriminate.
  destruct k as [|k]; [reflexivity|]. cbn [nth_error]. apply IH.
  cbn [List.length]. lia.
Qed.

Lemma mapLast_last {A : Type} (f : A -> A) (l : list A) :
  forall k, S k = List.length l ->
            nth_error (mapLast f l) k = option_map f (nth_error l k).
Proof.
  induction l as [|x [|y l] IH]; intros k Hk; cbn [List.length] in Hk; try lia.
  - injection Hk as ->. reflexivity.
  - rewrite mapLast_cons by discriminate.
    destruct k as [|k]; [lia|]. cbn [nth_error]. apply IH.
    cbn [List.length]. lia.
Qed.

(** Appending a character that is not the separator extends the last
    field. *)
Lemma split_append (sep c : ascii) (s : string) :
  Ascii.eqb c sep = false ->
  split sep (s ++ String c EmptyString)
  = mapLast (fun v => (v ++ String c EmptyString)%string) (split sep s).
Proof.
  intros Hc. induction s as [|a s IH].
  - cbn. now rewrite Hc.
  - cbn [String.append split]. destruct (Ascii.eqb a sep).
    + rewrite IH. symmetry. apply mapLast_cons, split_nonempty.
    + rewrite IH. pose proof (split_nonempty sep s) as Hne.
      destruct (split sep s) as [|h [|h' r]]; [congruence | reflexivity|].
      rewrite !mapLast_cons by discriminate. reflexivity.
Qed.

Lemma trimEnd_append (c : ascii) (s : string) :
  isWhiteSpace c = true -> trimEnd (s ++ String c EmptyString) = trimEnd s.
Proof.
  intros Hc. induction s as [|a s IH].
  - cbn. now rewrite Hc.
  - cbn [String.append trimEnd]. now rewrite IH.
Qed.

Lemma trim_append (c : ascii) (s : string) :
  isWhiteSpace c = true -> trim (s ++ String c EmptyString) = trim s.
Proof.
  intros Hc. unfold trim. induction s as [|a s IH].
  - cbn. now rewrite Hc.
  - cbn [String.append trimStart]. destruct (isWhiteSpace a); [exact IH|].
    now apply (trimEnd_append c (String a s)).
Qed.

Lemma isSensitive_CR (v : string) :
  isSensitive (Some (v ++ CR)%string) = isSensitive (Some v).
Proof.
  destruct v as [|a v]; [reflexivity|].
  pose proof (trim_append (ascii_of_N 13) (String a v) eq_refl) as E.
  unfold isSensitive, CR. cbn [String.append] in *. now rewrite E.
Qed.

(** A row of at least thirteen fields is parsed the same with and
    without a trailing carriage return. *)
Lemma parseRow_CR (headers : list string) (i : nat) (line : string) :
  (13 <= List.length headers)%nat ->
  parseRow headers i (line ++ CR) = parseRow headers i line.
Proof.
  intros Hh. unfold parseRow, CR.
  rewrite split_append by reflexivity.
  set (values := split "," line).
  set (f := fun v => (v ++ String (ascii_of_N 13) EmptyString)%string).
  rewrite mapLast_length.
  destruct (Nat.leb_spec (List.length headers) (List.length values)) as [Hle|];
    [|reflexivity].
  rewrite !(mapLast_before f values) by lia.
  assert (E : isSensitive (nth_error (mapLast f values) 12)
              = isSensitive (nth_error values 12)).
  { destruct (Nat.eq_dec 13 (List.length values)) as [Hlast|Hmore].
    - rewrite (mapLast_last f values 12 Hlast).
      destruct (nth_error values 12) as [v|]; [apply isSensitive_CR | reflexivity].
    - rewrite (mapLast_before f values) by lia. reflexivity. }
  now rewrite E.
Qed.

Lemma parseRow_headers (headers headers' : list string) (i : nat) (line : string) :
  List.length headers = List.length headers' ->
  parseRow headers i line = parseRow headers' i line.
Proof. intros H. unfold parseRow. now rewrite H. Qed.

Lemma same_line_fields (line line' : string) :
  same_line line line' ->
  List.length (split "," line') = List.length (split "," line).
Proof.
  intros [-> | ->]; [reflexivity|].
  unfold CR. rewrite split_append by reflexivity. apply mapLast_length.
Qed.

Lemma Forall2_nth_error {A B : Type} (R : A -> B -> Prop) (l : list A) (l' : list B) :
  Forall2 R l l' ->
  forall i,
    match nth_error l i, nth_error l' i with
    | Some x, Some y => R x y
    | None, None => True
    | _, _ => False
    end.
Proof.
  induction 1 as [|x y l l' Hxy _ IH]; intros [|i]; cbn [nth_error]; auto.
  apply IH.
Qed.

(** A file whose lines end in carriage returns (a CRLF file, or one with
    mixed line ends) is parsed to the same records as the file without
    them, provided its header has at least the thirteen columns of the
    schema. *)
Theorem carriage_returns_ignored (text text' : string) :
  Forall2 same_line (split newline text) (split newline text') ->
  (13 <= List.length (split "," (nth 0 (split newline text) EmptyString)))%nat ->
  parsedData text' = parsedData text.
Proof.
  intros Hlines Hcols. unfold parsedData.
  set (lines := split newline text) in *. set (lines' := split newline text') in *.
  set (headers := split "," (nth 0 lines EmptyString)) in *.
  set (headers' := split "," (nth 0 lines' EmptyString)).
  assert (Hlen : List.length lines' = List.length lines)
    by (symmetry; eapply Forall2_length; eassumption).
  assert (Hh : List.length headers' = List.length headers).
  { unfold headers', headers. apply same_line_fields.
    pose proof (Forall2_nth_error _ _ _ Hlines 0) as H0.
    pose proof (split_nonempty newline text) as Hne. fold lines in Hne.
    destruct lines as [|l ls]; [congruence|].
    destruct lines' as [|l' ls']; [discriminate|]. exact H0. }
  rewrite Hlen. unfold parseRows.
  induction (seq 1 (Nat.min (List.length lines) 10 - 1)) as [|i indices IH];
    [reflexivity|].
  cbn [flat_map]. rewrite IH. f_equal.
  pose proof (Forall2_nth_error _ _ _ Hlines i) as Hi.
  destruct (nth_error lines i) as [l|], (nth_error lines' i) as [l'|];
    try contradiction; [|reflexivity].
  rewrite (parseRow_headers headers' headers i l' Hh).
  destruct Hi as [-> | ->]; [reflexivity|].
  now rewrite parseRow_CR.
Qed.

(** The theorem at the sample file with CRLF line ends. *)
Lemma carriage_returns_ignored_witness :
  parsedData (String.concat (CR ++ String newline EmptyString)
                            (schema_header :: sample_rows))
  = parsedData (csv_of sample_rows).
Proof.
  apply carriage_returns_ignored.
  - vm_compute.
    repeat (constructor; [first [left; reflexivity | right; reflexivity]|]).
    constructor.
  - vm_compute. lia.
Defined.

End CarriageReturns.
